(* ===== verification/_CoqProject ===== *)
-Q . S2P
Prelude.v
Float64.v
Series.v
OnlineMean.v
Extrema.v
Diff.v
Rolling.v
Autocorr.v
ExactReal.v
Correlation.v
Frame.v
Analysis.v
Tests.v
Lab1.v
Packaging.v
