(* ===== verification/Prelude.v ===== *)
(** * A verification library for the [analitica] time-series analyser

    The repository [src/data_analysis/analitica] holds one class,
    [StockAnalysis] in [operations/statistic_operations.py], that stores a
    numeric series as a pandas [Series] and computes from it five statistics
    ([moving_average], [diff], [autocorr], [maximum], [minimum]).  Its
    [get_results] wraps each statistic into a one-column [DataFrame] through
    the generator [save], merges the columns by outer joins on the index,
    and is itself wrapped by the logging decorator [function_logger].  The
    unit tests are in [test_module/tests_module.py].  The script
    [src/first_lab_work/lab1.py] is a separate program: it reads six
    parameters [n0, h, nk, a, b, c] from [config.yaml] or the command line
    and writes [a*exp(-b*x^2+c*x)] at the points of
    [np.linspace(n0, nk, int((nk-n0)/h))] to [results.txt]; it shares
    nothing with the analyser but this file's error monad and [Num].

    ** Program code and library code

    The definitions that translate the repository's own lines are
    [StockAnalysis] and its constructor, the five statistics, [save] and
    its generator object, [statistics], [join_columns], [get_results] and
    its statement-level [step], [function_logger], the test methods, and
    the functions of [lab1.py].  They call pandas, numpy and Python
    library routines, which are modelled as separate definitions written
    from the libraries' own algorithms ([shift], [dropna], [corrcoef],
    pandas' [roll_mean] kernel, [DataFrame.join], [np.linspace],
    [str.split], dict assignment, the [unittest] assertions, binary64
    arithmetic): they are the semantics of the calls, not code of this
    repository.

    ** Layout (one file per component, in dependency order)

    - [Prelude] (this file): the numeric interface [Num] through which every
      statistic does its arithmetic, the laws [NumLaws] the structural
      theorems rely on, the [result] error monad for Python exceptions,
      integer ranges ([range]/[np.arange]), mask selection ([compress]),
      element-wise operations ([zip_with]) and the [stats] hint databases.
    - [Float64]: the binary64 instance of [Num] on Rocq's primitive floats,
      with [NumLaws] proved from the kernel's float specification.  Concrete
      runs evaluate with [vm_compute] on it.
    - [Series]: a pandas [Series] as (label, value) pairs; [pd.Series(data)],
      [shift], mask selection, [dropna], label lookup; the [StockAnalysis]
      record and its constructor.
    - [Extrema]: [maximum] and [minimum], written with the two shifted copies
      and the mask exactly as the code is.
    - [Diff]: [diff] = [Series.diff()].
    - [OnlineMean]: pandas' Cython kernel [roll_mean] behind
      [rolling(window).mean()]: the running state ([nobs], Kahan-compensated
      [sum_x], [neg_ct], the run of equal values) as a record, [add_mean],
      [remove_mean] and [calc_mean] (the [min_periods] guard, the rule for a
      run of equal values, the sign corrections), the window bounds of
      [FixedWindowIndexer], the monotonic-bounds check that resets the
      state, and a simulation principle: every output is [calc_mean] of a
      state satisfying any invariant that setup and one slide preserve.
    - [Rolling]: [moving_average] = [rolling(window).mean()] on the kernel,
      with pandas' [ValueError] for a negative window; the textbook window
      mean [rolling_mean] is kept as the reference.
    - [Autocorr]: [autocorr] over pandas' [Series.autocorr], [Series.corr],
      [nancorr] and numpy's [corrcoef].
    - [ExactReal]: the instance of [Num] on real numbers with one NaN, and
      the theorems that need exact arithmetic, among them the exact
      invariant of the running state of [roll_mean].
    - [Correlation]: numpy's [corrcoef] in closed form over the reals, the
      Pearson coefficient, and the transport of [autocorr] along an affine
      change of the prices.
    - [Frame]: a [DataFrame] (index and named columns), the outer join of
      [DataFrame.join(how='outer')], and the generator object of [save]
      with its three states (created, suspended at the [yield], finished)
      and Python's [next] on it.
    - [Analysis]: [get_results] (the fold of outer joins) and
      [function_logger], whose two [print] calls append their lines to an
      explicit standard output.
    - [Tests]: [setUp], the five test methods and the test case
      [TestStockAnalysis] as the runner collects it, the methods as
      [result unit] values (an [AssertionError] when an assertion fails),
      with the assertions of [unittest] and [pandas.testing], run on
      binary64.
    - [Lab1]: every function of [lab1.py].  The file system is explicit
      state (a list of path and lines), [open]/[readlines]/[write] are
      [fs_read]/[fs_write]; a Python [dict] is an association list with
      in-place assignment; [str.split]/[str.replace] are written out;
      Python's [float()], [str()] and numpy's [exp] are section variables,
      so its theorems hold for any parser, printer and exponential;
      [np.linspace] follows numpy's code (both of its branches); every
      exception the script can raise is a [result] value.
    - [Packaging]: the arguments of [setup(...)] in [setup.py] as a
      record, with the imports of the analyser's two modules.

    Components interact through definitions: every statistic reads the
    [StockAnalysis] record of [Series]; [Analysis] calls the five statistics
    and [Frame]'s join, drawing each statistic's frame from its [save]
    generator with [next]; [Tests] calls the
    statistics through the class.  Arithmetic goes through the [Num] interface, which
    [Float64] and [ExactReal] implement; the generic theorems are proved once
    against [NumLaws] and hold for both.

    ** What the theorems show

    - Extrema: [maximum]/[minimum] select exactly the interior positions
      strictly above/below both neighbours (boundaries are excluded by the
      NaN the shifts introduce), and no label is both.
    - Rolling (any instance): [moving_average] is NaN at the labels before
      a full window, where the window holds a NaN, and everywhere for a
      window longer than the series or of size 0; a negative window raises
      [ValueError].
    - Rolling (exact): [moving_average] refines the abstract mean of the
      non-NaN prices of each window (through pandas' [roll_mean], whose
      state invariant [exact_inv] is preserved by [add_mean],
      [remove_mean] and the reset, for any nondecreasing bounds); hence it
      equals the textbook [rolling_mean], a complete NaN-free window gives
      its sum over [w], and every value lies between the bounds of its
      window.
    - Diff: NaN first, then [x[i] - x[i-1]]; in exact arithmetic the
      differences add back up to the series.
    - Autocorr: labels [1..n-1], the lag argument ignored, the pairs each lag
      correlates, NaN for every lag at or beyond the number of non-NaN
      values, and NaN at the last lag with a pair.  In exact arithmetic, on
      prices without NaN, each lag with two pairs or more is Pearson's
      coefficient (numpy's [corrcoef] in closed form), and [autocorr] is unchanged by an
      affine change [a x + b] of the prices with [a <> 0].
    - Frame: a [save] generator yields one frame, then raises
      [StopIteration]; the outer join keeps every label exactly once and in
      order, every cell holds the originating value or NaN, overlapping
      column names raise [ValueError], every column is as long as the
      index.
    - Analysis: the loop of [get_results] keeps every label of the first
      frame and of the statistics exactly once and in order, and builds a
      well-formed frame whose columns are the statistics in the code's
      order; [get_results] never fails and its whole table is computed;
      the logger returns the undecorated result and prints the call line
      and, on success, the result line; two calls give the same table and
      the same lines.
    - Packaging: the third-party imports are declared requirements; the
      tests' import path is not a declared package.
    - Tests (lemmas, not claims): the five test methods pass on the
      binary64 model, the assertions reject wrong results, and a constant
      series shows the float artefact below.
    - Lab1: the dispatch of [main] on the argument count; the parameters of
      the command line and their [IndexError]; [read_properties] keeps the
      last value written for each key; the [IndexError] of a
      configuration line without [':']; the [ZeroDivisionError] of [h = 0]
      and the [ValueError] of a negative count; [results.txt] gets exactly
      [int((nk-n0)/h)] lines and no other file changes; in exact arithmetic
      the script's grid is spaced by [k h / (k - 1)] rather than [h].

    ** Bounds and fuel

    Every function is structurally recursive or a [map] over a finite
    range: [roll_mean] is a fold over its list of window bounds, and each
    window a fold over [seq]; no definition takes fuel.  Python's [int()] of a float is exact
    truncation in both instances ([f64_to_int] reads the binary64 mantissa
    and exponent).  Labels are [Z] and positions [nat]; the only
    machine-integer conversion, [f64_of_Z], is exact below [2^53], far above
    any length the theorems use.

    ** Findings

    - [autocorr] iterates lags up to [n - 1] with [n] taken before [dropna]:
      with NaNs in the data, lags [m..n-1] are reported as NaN, where the
      specification says the domain ends at [m - 1].
    - [moving_average] accepts a window of 0 (all NaN); the specification
      asks for an error.
    - The [lag] parameter of [autocorr] is shadowed and ignored.
    - A single NaN price makes [moving_average] NaN at every window that
      contains it (pandas' default [min_periods = window]); the
      specification does not say what a missing price does.
    - In binary64 the kernel's running sum and the textbook window mean
      differ in the last bit on the constant series [0.1] ([0.1] against
      [0.10000000000000002]); they are equal in exact arithmetic.
    - In binary64 the constant series [0.1, 0.1, 0.1, 0.1] has
      autocorrelation 1.0 at lag 1, not the NaN the specification gives for
      zero variance.
    - [lab1.py] tabulates on [int((nk-n0)/h)] points from [n0] to [nk], so
      the grid step is [(nk-n0)/(n-1)], not [h] ([n0 = 0], [nk = 1],
      [h = 0.25] gives [0, 1/3, 2/3, 1]); a blank line in [config.yaml]
      raises [IndexError]; [nk < n0] raises [ValueError] and [h = 0]
      [ZeroDivisionError], none of them handled.
    - [setup.py] installs the package [operations], while the tests import
      [analitica.operations.statistic_operations], a path the installed
      distribution does not provide.

    ** What is not modelled and why

    - In the lines [function_logger] prints, Python's [str] of the argument
      tuple and of the DataFrame are parameters: the [repr] of the object
      holds its memory address, and the DataFrame's text layout is pandas'
      display code, which the program only prints.
    - The order of float additions inside numpy (pairwise summation, BLAS
      dot products) is modelled as a left-to-right fold: on the exact
      instance the order is irrelevant; on binary64 a result may differ from
      numpy in the last bit (the autocorrelation at lag 2 of the test series
      does), which is why that test is checked with its own tolerance.
      pandas' rolling kernel, by contrast, is modelled operation by
      operation, Kahan compensation included.
    - pandas' dispatch around [roll_mean] (the [Rolling] object, numba and
      the variable-window indexers) is not modelled: the program only uses a
      fixed integer window.
    - [DataFrame.join] is modelled for the strictly increasing indexes the
      program builds (pandas' monotonic merge path), and [dropna] on the
      [RangeIndex] of [pd.Series(data)]: the program never joins a
      non-monotonic index nor drops NaN from another index, so pandas' other
      paths are not reached.
    - [warnings.filterwarnings] in the tests' [setUp]: it silences
      warnings and changes no value.
    - In [lab1.py], Python's float parser and printer and numpy's [exp] are
      left abstract; the [ValueError] message of [linspace] omits the count
      it prints.

    ** Further work

    Every function and method of the repository is modelled.  Properties
    that would extend the development without new modelling: the
    autocorrelation 1 of an arithmetic progression and the symmetry of
    [corrcoef] over [ExactReal]; bounds on the rounding error of the
    binary64 moving average against the exact one. *)

From Stdlib Require Import String.
From Stdlib Require Import ZArith List Bool Lia.
Import ListNotations.

Create HintDb stats.
Create Rewrite HintDb stats.

(** ** Python exceptions as an error monad *)

Inductive py_error :=
| ValueError (msg : string)
| StopIteration
| IndexError (msg : string)
| KeyError (key : string)
| ZeroDivisionError (msg : string)
| OverflowError (msg : string)
| FileNotFoundError (path : string)
| AssertionError (msg : string).

Inductive result (A : Type) :=
| Ok (a : A)
| Err (e : py_error).
Arguments Ok {A} a.
Arguments Err {A} e.

Definition bind {A B} (r : result A) (k : A -> result B) : result B :=
  match r with Ok a => k a | Err e => Err e end.

Declare Scope result_scope.
Delimit Scope result_scope with result.
Notation "x <- r ;; k" := (bind r (fun x => k))
  (at level 61, r at next level, right associativity) : result_scope.

Lemma bind_ok {A B} (a : A) (k : A -> result B) : bind (Ok a) k = k a.
Proof. reflexivity. Qed.
#[export] Hint Rewrite @bind_ok : stats.

(** ** The numeric interface

    Every statistic of the program is computed by pandas or numpy in IEEE
    binary64; [to_int] is Python's [int(x)] of a float (truncation toward
    zero, an exception for NaN and infinities).  The model does its
    arithmetic through this class ([signbit] is C's [signbit], true on
    negative numbers and on [-0.0]), so that the same definitions run on
    primitive floats ([Float64]) and are reasoned about over any domain
    satisfying [NumLaws]. *)

Class Num (F : Type) := {
  nan : F;
  is_nan : F -> bool;
  fadd : F -> F -> F;
  fsub : F -> F -> F;
  fmul : F -> F -> F;
  fdiv : F -> F -> F;
  fopp : F -> F;
  fsqrt : F -> F;
  flt : F -> F -> bool;
  signbit : F -> bool;
  of_Z : Z -> F;
  to_int : F -> result Z
}.

Declare Scope num_scope.
Delimit Scope num_scope with num.
Notation "x + y" := (fadd x y) : num_scope.
Notation "x - y" := (fsub x y) : num_scope.
Notation "x * y" := (fmul x y) : num_scope.
Notation "x / y" := (fdiv x y) : num_scope.
Notation "x <? y" := (flt x y) : num_scope.

(** Laws shared by binary64 and by exact arithmetic with a NaN: NaN is one
    value, it is never comparable, strict comparison is asymmetric, and NaN
    is absorbing for the operations the statistics use. *)
Class NumLaws (F : Type) `{Num F} := {
  is_nan_iff : forall x, is_nan x = true <-> x = nan;
  flt_nan_l : forall x, flt nan x = false;
  flt_nan_r : forall x, flt x nan = false;
  flt_asym : forall x y, flt x y = true -> flt y x = false;
  fadd_nan_l : forall x, fadd nan x = nan;
  fadd_nan_r : forall x, fadd x nan = nan;
  fsub_nan_l : forall x, fsub nan x = nan;
  fsub_nan_r : forall x, fsub x nan = nan;
  fmul_nan_l : forall x, fmul nan x = nan;
  fdiv_nan_l : forall x, fdiv nan x = nan
}.

(** IEEE equality [x == y]: neither is NaN and neither is below the
    other ([0.0 == -0.0]). *)
Definition feq {F} `{Num F} (x y : F) : bool :=
  negb (is_nan x) && negb (is_nan y) && negb (flt x y) && negb (flt y x).

(** numpy's and pandas' sum: the values added into an accumulator that
    starts at [0.0]. *)
Definition fsum {F} `{Num F} (xs : list F) : F := fold_left fadd xs (of_Z 0).


Section NumFacts.
Context {F : Type} `{NumLaws F}.

Lemma is_nan_nan : is_nan nan = true.
Proof. apply is_nan_iff; reflexivity. Qed.

Lemma flt_irrefl x : flt x x = false.
Proof.
  destruct (flt x x) eqn:E; [|reflexivity].
  pose proof (flt_asym _ _ E) as E'; congruence.
Qed.

Lemma flt_not_nan_l x y : flt x y = true -> is_nan x = false.
Proof.
  intros Hlt; destruct (is_nan x) eqn:E; [|reflexivity].
  apply is_nan_iff in E; subst; rewrite flt_nan_l in Hlt; discriminate.
Qed.
End NumFacts.

#[export] Hint Rewrite @flt_nan_l @flt_nan_r @fadd_nan_l @fadd_nan_r
  @fsub_nan_l @fsub_nan_r @fmul_nan_l @fdiv_nan_l @flt_irrefl : stats.
#[export] Hint Resolve is_nan_nan : stats.

(** ** Integer ranges: Python's [range(a, b)] and numpy's [arange(a, b)] *)

Definition zrange (a b : Z) : list Z :=
  map (fun k => a + Z.of_nat k)%Z (seq 0 (Z.to_nat (b - a))).

Lemma length_zrange a b : length (zrange a b) = Z.to_nat (b - a).
Proof. unfold zrange; now rewrite length_map, length_seq. Qed.

Lemma in_zrange a b k : In k (zrange a b) <-> (a <= k < b)%Z.
Proof.
  unfold zrange; rewrite in_map_iff; split.
  - intros [j [<- Hj]]; apply in_seq in Hj; lia.
  - intros Hk; exists (Z.to_nat (k - a)); rewrite in_seq; lia.
Qed.

Lemma zrange_nil a : zrange a a = [].
Proof. unfold zrange; now rewrite Z.sub_diag. Qed.

Lemma zrange_cons a n :
  zrange a (a + Z.of_nat (S n)) = a :: zrange (a + 1) (a + 1 + Z.of_nat n).
Proof.
  unfold zrange.
  replace (Z.to_nat (a + Z.of_nat (S n) - a)) with (S n) by lia.
  replace (Z.to_nat (a + 1 + Z.of_nat n - (a + 1))) with n by lia.
  simpl; f_equal; [lia|].
  rewrite <- seq_shift, map_map; apply map_ext; intros; lia.
Qed.

(** ** List helpers *)

Lemma nth_map_seq_from {A} (f : nat -> A) k n i d :
  i < n -> nth i (map f (seq k n)) d = f (k + i).
Proof.
  intros Hi.
  rewrite nth_indep with (d' := f 0) by (rewrite length_map, length_seq; lia).
  rewrite map_nth, seq_nth by lia; reflexivity.
Qed.

Lemma nth_map_lt {A B} (f : A -> B) l i d d0 :
  i < length l -> nth i (map f l) d = f (nth i l d0).
Proof.
  intros Hi; rewrite nth_indep with (d' := f d0) by (rewrite length_map; exact Hi).
  apply map_nth.
Qed.

Lemma nth_map_seq {A} (f : nat -> A) n i d :
  i < n -> nth i (map f (seq 0 n)) d = f i.
Proof. intros Hi; now rewrite nth_map_seq_from. Qed.

Lemma length_map_seq {A} (f : nat -> A) n : length (map f (seq 0 n)) = n.
Proof. now rewrite length_map, length_seq. Qed.

#[export] Hint Rewrite @length_map_seq @length_zrange : stats.

Lemma map_fst_combine {A B} (a : list A) (b : list B) :
  length a = length b -> map fst (combine a b) = a.
Proof.
  revert b; induction a as [|x a IH]; intros [|y b] Hl; simpl in *;
    try discriminate; f_equal; auto.
Qed.

Lemma map_snd_combine {A B} (a : list A) (b : list B) :
  length a = length b -> map snd (combine a b) = b.
Proof.
  revert b; induction a as [|x a IH]; intros [|y b] Hl; simpl in *;
    try discriminate; f_equal; auto.
Qed.

(** Element-wise binary operation of two aligned sequences. *)
Fixpoint zip_with {A B C} (f : A -> B -> C) (a : list A) (b : list B) : list C :=
  match a, b with
  | x :: a', y :: b' => f x y :: zip_with f a' b'
  | _, _ => []
  end.

Lemma length_zip_with {A B C} (f : A -> B -> C) a b :
  length (zip_with f a b) = Nat.min (length a) (length b).
Proof.
  revert b; induction a as [|x a IH]; intros [|y b]; simpl; auto.
Qed.

Lemma nth_zip_with {A B C} (f : A -> B -> C) a b i da db dc :
  i < length a -> i < length b ->
  nth i (zip_with f a b) dc = f (nth i a da) (nth i b db).
Proof.
  revert b i; induction a as [|x a IH]; intros [|y b] [|i] Ha Hb; simpl in *;
    try lia; auto.
  apply IH; lia.
Qed.

Lemma zip_with_map_seq {A B C} (f : A -> B -> C) (g : nat -> A) (h : nat -> B) k n :
  zip_with f (map g (seq k n)) (map h (seq k n)) = map (fun i => f (g i) (h i)) (seq k n).
Proof.
  revert k; induction n as [|n IH]; intros k; simpl; f_equal; auto.
Qed.

#[export] Hint Rewrite @length_zip_with : stats.

(** Boolean-mask selection of a sequence: numpy's [compress] and pandas'
    [s[mask]]. *)
Definition compress {A} (xs : list A) (mask : list bool) : list A :=
  map fst (filter snd (combine xs mask)).

Lemma compress_spec {A} (xs : list A) m d :
  length m = length xs ->
  compress xs m = map (fun i => nth i xs d) (filter (fun i => nth i m false) (seq 0 (length xs))).
Proof.
  revert m; induction xs as [|x xs IH]; intros [|b m] Hl; simpl in *; try lia; auto.
  unfold compress in *; destruct b; simpl;
    rewrite <- seq_shift, filter_map_swap, map_map; [f_equal|]; apply IH; lia.
Qed.

Lemma combine_app_eq {A B} (a1 a2 : list A) (b1 b2 : list B) :
  length a1 = length b1 -> combine (a1 ++ a2) (b1 ++ b2) = combine a1 b1 ++ combine a2 b2.
Proof.
  revert b1; induction a1 as [|x a1 IH]; intros [|y b1] Hl; simpl in *;
    try discriminate; f_equal; auto.
Qed.

Lemma compress_app {A} (a1 a2 : list A) m1 m2 :
  length a1 = length m1 ->
  compress (a1 ++ a2) (m1 ++ m2) = compress a1 m1 ++ compress a2 m2.
Proof.
  unfold compress; intros Hl; rewrite combine_app_eq by exact Hl.
  now rewrite filter_app, map_app.
Qed.

Lemma compress_all_false {A} (xs : list A) k : compress xs (repeat false k) = [].
Proof.
  unfold compress; revert k; induction xs as [|x xs IH]; intros [|k]; simpl; auto.
Qed.

Lemma compress_all_true {A} (xs : list A) :
  compress xs (repeat true (length xs)) = xs.
Proof. unfold compress; induction xs as [|x xs IH]; simpl; f_equal; auto. Qed.

Lemma zip_with_app {A B C} (f : A -> B -> C) a1 a2 b1 b2 :
  length a1 = length b1 ->
  zip_with f (a1 ++ a2) (b1 ++ b2) = zip_with f a1 b1 ++ zip_with f a2 b2.
Proof.
  revert b1; induction a1 as [|x a1 IH]; intros [|y b1] Hl; simpl in *;
    try discriminate; f_equal; auto.
Qed.

(** A mask that drops the first [k] entries and keeps the rest. *)
Lemma compress_drop_prefix {A} (xs : list A) k :
  k <= length xs ->
  compress xs (repeat false k ++ repeat true (length xs - k)) = skipn k xs.
Proof.
  intros Hk; rewrite <- (firstn_skipn k xs) at 1.
  rewrite compress_app by (rewrite length_firstn, repeat_length; lia).
  rewrite compress_all_false; simpl.
  replace (length xs - k) with (length (skipn k xs)) by (rewrite length_skipn; lia).
  apply compress_all_true.
Qed.

Lemma Forall_firstn_skipn {A} (P : A -> Prop) n l :
  Forall P l -> Forall P (firstn n l) /\ Forall P (skipn n l).
Proof. intros Hl; rewrite <- (firstn_skipn n l) in Hl; now apply Forall_app in Hl. Qed.
