(* ===== verification/Float64.v ===== *)
(** * Float64: IEEE binary64, the arithmetic pandas and numpy compute in

    The instance of [Prelude.Num] on Rocq's primitive floats: one NaN value,
    IEEE [+ - * / sqrt] and the IEEE strict comparison, under which NaN is
    unordered.  The laws [Prelude.NumLaws] are proved from the kernel's
    specification of the primitive operators (Corelib's [FloatAxioms], which
    relate each primitive to its [SpecFloat] counterpart). *)

From Stdlib Require Import String.
From Stdlib Require Import ZArith Lia.
From Stdlib Require Import Floats Uint63.
From S2P Require Import Prelude.

(** Python's [float(n)] of a machine integer, exact below [2^53]. *)
Definition f64_of_Z (z : Z) : float :=
  match z with
  | Z0 => PrimFloat.zero
  | Zpos p => of_uint63 (Uint63.of_Z (Zpos p))
  | Zneg p => PrimFloat.opp (of_uint63 (Uint63.of_Z (Zpos p)))
  end.

(** Python's [int(x)]: truncation toward zero of the exact binary value;
    NaN raises [ValueError], an infinity [OverflowError]. *)
Definition f64_to_int (x : float) : result Z :=
  match Prim2SF x with
  | S754_nan => Err (ValueError "cannot convert float NaN to integer")
  | S754_infinity _ => Err (OverflowError "cannot convert float infinity to integer")
  | S754_zero _ => Ok 0%Z
  | S754_finite s m e =>
      let z := if (0 <=? e)%Z then (Z.pos m * 2 ^ e)%Z else (Z.pos m / 2 ^ (- e))%Z in
      Ok (if s then (- z)%Z else z)
  end.

(** C's [signbit]: the sign bit of the binary64 encoding. *)
Definition f64_signbit (x : float) : bool :=
  match Prim2SF x with
  | S754_zero s | S754_infinity s | S754_finite s _ _ => s
  | S754_nan => false
  end.

#[export] Instance Num_float : Num float := {
  nan := PrimFloat.nan;
  is_nan := PrimFloat.is_nan;
  fadd := PrimFloat.add;
  fsub := PrimFloat.sub;
  fmul := PrimFloat.mul;
  fdiv := PrimFloat.div;
  fopp := PrimFloat.opp;
  fsqrt := PrimFloat.sqrt;
  flt := PrimFloat.ltb;
  signbit := f64_signbit;
  of_Z := f64_of_Z;
  to_int := f64_to_int
}.

(** ** The specification-level facts behind the laws *)

Lemma Prim2SF_nan : Prim2SF PrimFloat.nan = S754_nan.
Proof. vm_compute. reflexivity. Qed.

(** IEEE comparison is antisymmetric on [SpecFloat] values. *)
Lemma SFcompare_swap (a b : spec_float) :
  SFcompare b a = option_map CompOpp (SFcompare a b).
Proof.
  destruct a as [sa|sa| |sa ma ea], b as [sb|sb| |sb mb eb]; simpl; try reflexivity;
    repeat match goal with s : bool |- _ => destruct s end; simpl; try reflexivity.
  all: rewrite (Z.compare_antisym ea eb); destruct (Z.compare ea eb); simpl;
       try reflexivity;
       pose proof (Pos.compare_cont_antisym ma mb Eq) as Hc; simpl in Hc;
       rewrite Hc; now destruct (Pos.compare_cont Eq ma mb).
Qed.

Lemma SFcompare_refl_some (a : spec_float) :
  SFcompare a a = None -> a = S754_nan.
Proof. destruct a; simpl; congruence. Qed.

Lemma f64_eq_by_spec (x y : float) : Prim2SF x = Prim2SF y -> x = y.
Proof. apply Prim2SF_inj. Qed.

Ltac f64_nan_absorb spec :=
  intros x; apply f64_eq_by_spec; rewrite spec, Prim2SF_nan;
  destruct (Prim2SF x); reflexivity.

#[export] Instance NumLaws_float : NumLaws float.
Proof.
  constructor; simpl.
  - intros x; split; [|intros ->; reflexivity].
    unfold PrimFloat.is_nan; rewrite FloatAxioms.eqb_spec; unfold SFeqb.
    destruct (SFcompare (Prim2SF x) (Prim2SF x)) as [c|] eqn:E.
    + pose proof (SFcompare_swap (Prim2SF x) (Prim2SF x)) as Hs.
      rewrite E in Hs; destruct c; simpl in *; intros; congruence.
    + intros _; apply SFcompare_refl_some in E.
      rewrite <- (SF2Prim_Prim2SF x), E; reflexivity.
  - intros x; rewrite FloatAxioms.ltb_spec, Prim2SF_nan; reflexivity.
  - intros x; rewrite FloatAxioms.ltb_spec, Prim2SF_nan; unfold SFltb;
      destruct (Prim2SF x); reflexivity.
  - intros x y; rewrite !FloatAxioms.ltb_spec; unfold SFltb; rewrite (SFcompare_swap (Prim2SF x) (Prim2SF y)).
    destruct (SFcompare (Prim2SF x) (Prim2SF y)) as [[]|]; simpl; congruence.
  - f64_nan_absorb FloatAxioms.add_spec.
  - f64_nan_absorb FloatAxioms.add_spec.
  - f64_nan_absorb FloatAxioms.sub_spec.
  - f64_nan_absorb FloatAxioms.sub_spec.
  - f64_nan_absorb FloatAxioms.mul_spec.
  - f64_nan_absorb FloatAxioms.div_spec.
Qed.
