(* ===== verification/Series.v ===== *)
(** * Series: the pandas [Series] operations the statistics are built from

    A [Series] is a list of (label, value) pairs.  [series_of_array] is the
    constructor [pd.Series(data)] of [StockAnalysis.__init__] (labels
    [0..n-1]); [shift_values], [zip_with], [select] and [dropna] are the
    library operations that [maximum], [minimum] and [autocorr] call.  Two
    series are compared element-wise only when they carry the same labels,
    which holds at every use in the program, so comparisons and masks are
    positional lists here.  Values are floats: an integer array (the unit
    tests pass one) is modelled by its float values, exact below [2^53];
    pandas keeps it as int64 in [data], [maximum] and [minimum] and turns
    it to float64 where a shift or a statistic introduces NaN, which
    changes no value. *)

From Stdlib Require Import String.
From Stdlib Require Import ZArith List Bool Lia.
From S2P Require Import Prelude.
Import ListNotations.

Definition series (F : Type) := list (Z * F).

Section Series.
Context {F : Type} `{Num F}.

Definition index (s : series F) : list Z := map fst s.
Definition values (s : series F) : list F := map snd s.

(** [pd.Series(data)]: a [RangeIndex] [0..n-1] over the array's values. *)
Definition series_of_array (xs : list F) : series F :=
  combine (zrange 0 (Z.of_nat (length xs))) xs.

(** [Series.shift(p)]: values move [p] positions forward (backward when
    [p < 0]); vacated positions hold NaN; the labels stay. *)
Definition shift_values (p : Z) (xs : list F) : list F :=
  let n := length xs in
  if (0 <=? p)%Z then
    let k := Nat.min (Z.to_nat p) n in repeat nan k ++ firstn (n - k) xs
  else
    let k := Nat.min (Z.to_nat (- p)) n in skipn k xs ++ repeat nan k.

Definition shift (p : Z) (s : series F) : series F :=
  combine (index s) (shift_values p (values s)).

(** Boolean-mask indexing [s[mask]]: the entries whose mask is [True]. *)
Definition select (s : series F) (mask : list bool) : series F :=
  compress s mask.

(** [Series.dropna()]: entries holding NaN are removed, labels kept. *)
Definition dropna (s : series F) : series F :=
  filter (fun p => negb (is_nan (snd p))) s.

(** Label-based access [s[k]]: the value stored under label [k], if any. *)
Fixpoint lookup (s : series F) (k : Z) : option F :=
  match s with
  | [] => None
  | (k', v) :: s' => if Z.eqb k k' then Some v else lookup s' k
  end.

(** ** The analysed object

    [StockAnalysis.__init__] stores [pd.Series(data)]; every statistic
    method only reads [self.data]. *)
Record StockAnalysis := mkStockAnalysis { data : series F }.

Definition StockAnalysis_init (xs : list F) : StockAnalysis :=
  {| data := series_of_array xs |}.

(** ** Lemmas *)

Lemma length_series_of_array xs : length (series_of_array xs) = length xs.
Proof.
  unfold series_of_array; rewrite length_combine, length_zrange; lia.
Qed.

Lemma values_series_of_array xs : values (series_of_array xs) = xs.
Proof.
  unfold values, series_of_array; apply map_snd_combine.
  rewrite length_zrange; lia.
Qed.

Lemma index_series_of_array xs :
  index (series_of_array xs) = zrange 0 (Z.of_nat (length xs)).
Proof.
  unfold index, series_of_array; apply map_fst_combine.
  rewrite length_zrange; lia.
Qed.

Lemma nth_zrange0 n i d : i < n -> nth i (zrange 0 (Z.of_nat n)) d = Z.of_nat i.
Proof.
  intros Hi; unfold zrange; rewrite Z.sub_0_r, Nat2Z.id, nth_map_seq; lia.
Qed.

Lemma nth_series_of_array xs i d :
  i < length xs -> nth i (series_of_array xs) d = (Z.of_nat i, nth i xs nan).
Proof.
  intros Hi; unfold series_of_array.
  rewrite nth_indep with (d' := (0%Z, nan))
    by (rewrite length_combine, length_zrange; lia).
  rewrite combine_nth by (rewrite length_zrange; lia).
  now rewrite nth_zrange0.
Qed.

Lemma length_shift_values p xs : length (shift_values p xs) = length xs.
Proof.
  unfold shift_values; destruct (0 <=? p)%Z;
    rewrite length_app, repeat_length;
    [rewrite length_firstn | rewrite length_skipn]; lia.
Qed.

(** Shifting forward by [p >= 0]: the first [p] positions are NaN, position
    [i] holds what position [i - p] held. *)
Lemma nth_shift_values_fwd p xs i :
  (0 <= p)%Z -> i < length xs ->
  nth i (shift_values p xs) nan =
  if i <? Z.to_nat p then nan else nth (i - Z.to_nat p) xs nan.
Proof.
  intros Hp Hi; unfold shift_values.
  replace (0 <=? p)%Z with true by (symmetry; apply Z.leb_le; lia).
  destruct (Nat.ltb_spec i (Z.to_nat p)).
  - rewrite app_nth1 by (rewrite repeat_length; lia).
    apply nth_repeat.
  - rewrite app_nth2 by (rewrite repeat_length; lia).
    rewrite repeat_length, nth_firstn.
    replace (Nat.min (Z.to_nat p) (length xs)) with (Z.to_nat p) by lia.
    destruct (Nat.ltb_spec (i - Z.to_nat p) (length xs - Z.to_nat p)); [reflexivity | lia].
Qed.

(** Shifting backward by [p < 0]: position [i] holds what position
    [i + |p|] held, NaN past the end. *)
Lemma nth_shift_values_bwd p xs i :
  (p < 0)%Z -> i < length xs ->
  nth i (shift_values p xs) nan =
  if length xs <=? i + Z.to_nat (- p) then nan else nth (i + Z.to_nat (- p)) xs nan.
Proof.
  intros Hp Hi; unfold shift_values.
  replace (0 <=? p)%Z with false by (symmetry; apply Z.leb_gt; lia).
  destruct (Nat.leb_spec (length xs) (i + Z.to_nat (- p))).
  - rewrite app_nth2 by (rewrite length_skipn; lia).
    apply nth_repeat.
  - rewrite app_nth1 by (rewrite length_skipn; lia).
    rewrite nth_skipn; f_equal; lia.
Qed.

(** Mask selection keeps, in order, the entries at the positions where the
    mask is true. *)
Lemma select_spec (s : series F) m d :
  length m = length s ->
  select s m = map (fun i => nth i s d) (filter (fun i => nth i m false) (seq 0 (length s))).
Proof. apply compress_spec. Qed.

Lemma length_dropna_le s : length (dropna s) <= length s.
Proof. apply filter_length_le. Qed.

Lemma dropna_no_nan s : Forall (fun p => is_nan (snd p) = false) (dropna s).
Proof.
  apply Forall_forall; intros p Hp; apply filter_In in Hp.
  destruct (is_nan (snd p)); simpl in *; intuition congruence.
Qed.

Lemma lookup_zrange a vs k :
  lookup (combine (zrange a (a + Z.of_nat (length vs))) vs) k
  = if ((a <=? k) && (k <? a + Z.of_nat (length vs)))%Z
    then Some (nth (Z.to_nat (k - a)) vs nan) else None.
Proof.
  revert a; induction vs as [|v vs IH]; intros a; simpl length.
  - rewrite Z.add_0_r, zrange_nil; simpl.
    destruct (Z.leb_spec a k), (Z.ltb_spec k a); simpl; auto; lia.
  - rewrite zrange_cons; cbn [lookup combine].
    rewrite IH; destruct (Z.eqb_spec k a) as [->|Hk].
    + destruct (Z.leb_spec a a), (Z.ltb_spec a (a + Z.of_nat (S (length vs)))); try lia.
      now rewrite Z.sub_diag.
    + destruct (Z.leb_spec (a + 1) k), (Z.ltb_spec k (a + 1 + Z.of_nat (length vs))),
               (Z.leb_spec a k), (Z.ltb_spec k (a + Z.of_nat (S (length vs)))); simpl;
        try lia; try reflexivity.
      replace (Z.to_nat (k - a)) with (S (Z.to_nat (k - (a + 1)))) by lia; reflexivity.
Qed.

(** Label access [s[i]] on the series built by [pd.Series(data)]: the
    [i]-th value, and nothing beyond the data. *)
Lemma lookup_series_of_array_error xs i :
  lookup (series_of_array xs) (Z.of_nat i) = nth_error xs i.
Proof.
  unfold series_of_array.
  pose proof (lookup_zrange 0 xs (Z.of_nat i)) as E; rewrite Z.add_0_l in E; rewrite E.
  destruct (Z.leb_spec 0 (Z.of_nat i)), (Z.ltb_spec (Z.of_nat i) (Z.of_nat (length xs)));
    simpl; try lia.
  - rewrite Z.sub_0_r, Nat2Z.id; symmetry; apply nth_error_nth'; lia.
  - symmetry; apply nth_error_None; lia.
Qed.

Lemma lookup_series_of_array xs i :
  i < length xs -> lookup (series_of_array xs) (Z.of_nat i) = Some (nth i xs nan).
Proof. intros Hi; rewrite lookup_series_of_array_error; now apply nth_error_nth'. Qed.

(** A series tabulating [f] over the labels [a .. a+n-1]. *)
Lemma lookup_tabulate a n (f : Z -> F) k :
  lookup (combine (zrange a (a + Z.of_nat n)) (map f (zrange a (a + Z.of_nat n)))) k
  = if ((a <=? k) && (k <? a + Z.of_nat n))%Z then Some (f k) else None.
Proof.
  revert a; induction n as [|n IH]; intros a.
  - rewrite Z.add_0_r, zrange_nil; simpl.
    destruct (Z.leb_spec a k), (Z.ltb_spec k a); simpl; auto; lia.
  - rewrite zrange_cons; cbn [lookup combine map]; rewrite IH.
    destruct (Z.eqb_spec k a) as [->|Hk].
    + destruct (Z.leb_spec a a), (Z.ltb_spec a (a + Z.of_nat (S n))); simpl; auto; lia.
    + destruct (Z.leb_spec (a + 1) k), (Z.ltb_spec k (a + 1 + Z.of_nat n)),
               (Z.leb_spec a k), (Z.ltb_spec k (a + Z.of_nat (S n))); simpl; auto; lia.
Qed.

End Series.

#[export] Hint Rewrite @length_series_of_array @values_series_of_array
  @index_series_of_array @length_shift_values : stats.
