(* ===== verification/OnlineMean.v ===== *)
(** * OnlineMean: pandas' running-sum [roll_mean] behind [rolling(window).mean()]

    [moving_average] calls [self.data.rolling(window=window_size).mean()]
    ([statistic_operations.py], line 38).  pandas computes it with
    [FixedWindowIndexer.get_window_bounds], which gives every position [i]
    the window [[start_i, end_i)], and the Cython kernel [roll_mean] of
    [pandas/_libs/window/aggregations.pyx], which slides a running state
    over the windows: [add_mean] and [remove_mean] keep the count of non-NaN
    values, their Kahan-compensated sum, the count of negative ones and the
    run of equal values at the end of the stream; [calc_mean] turns the
    state into the mean, [NaN] below [min_periods = window].

    Here that algorithm is the record [mean_state] and the functions of the
    same names, generic over [Num] and executable on binary64.  The lemmas
    give a simulation principle: a property of a state and its window that
    the setup branch establishes and the sliding branch preserves holds of
    the state behind every output ([roll_mean_sim]).  Instantiated with the
    count of non-NaN values it gives the NaN pattern of the result for any
    number type; [ExactReal] instantiates it with the whole state over
    exact reals. *)

From Stdlib Require Import String.
From Stdlib Require Import ZArith List Bool Lia.
From S2P Require Import Prelude.
Import ListNotations.

Section OnlineMean.
Context {F : Type} `{Num F}.

(** The local variables of [roll_mean] that [add_mean] and [remove_mean]
    update through pointers. *)
Record mean_state := mkMeanState {
  nobs : Z;
  sum_x : F;
  neg_ct : Z;
  compensation_add : F;
  compensation_remove : F;
  num_consecutive_same_value : Z;
  prev_value : F
}.

(** [add_mean]: a non-NaN value ([val == val]) is counted and added with
    Kahan compensation; the run of equal trailing values is extended or
    restarted. *)
Definition add_mean (val : F) (st : mean_state) : mean_state :=
  if is_nan val then st
  else
    let y := fsub val (compensation_add st) in
    let t := fadd (sum_x st) y in
    {| nobs := (nobs st + 1)%Z;
       sum_x := t;
       neg_ct := if signbit val then (neg_ct st + 1)%Z else neg_ct st;
       compensation_add := fsub (fsub t (sum_x st)) y;
       compensation_remove := compensation_remove st;
       num_consecutive_same_value :=
         if feq val (prev_value st) then (num_consecutive_same_value st + 1)%Z else 1%Z;
       prev_value := val |}.

(** [remove_mean]: a non-NaN value leaving the window is uncounted and
    subtracted with its own compensation. *)
Definition remove_mean (val : F) (st : mean_state) : mean_state :=
  if is_nan val then st
  else
    let y := fsub (fopp val) (compensation_remove st) in
    let t := fadd (sum_x st) y in
    {| nobs := (nobs st - 1)%Z;
       sum_x := t;
       neg_ct := if signbit val then (neg_ct st - 1)%Z else neg_ct st;
       compensation_add := compensation_add st;
       compensation_remove := fsub (fsub t (sum_x st)) y;
       num_consecutive_same_value := num_consecutive_same_value st;
       prev_value := prev_value st |}.

(** [calc_mean]: the mean of the window, or NaN with fewer than [minp]
    observations; a run of equal values gives that value, and the sign of
    the mean is forced to agree with the signs of the values. *)
Definition calc_mean (minp : Z) (st : mean_state) : F :=
  if (minp <=? nobs st)%Z && (0 <? nobs st)%Z then
    let result := fdiv (sum_x st) (of_Z (nobs st)) in
    if (nobs st <=? num_consecutive_same_value st)%Z then prev_value st
    else if (neg_ct st =? 0)%Z && flt result (of_Z 0) then of_Z 0
    else if (neg_ct st =? nobs st)%Z && flt (of_Z 0) result then of_Z 0
    else result
  else nan.

(** [for j in range(a, b): f(values[j], ...)]. *)
Definition range_fold (f : F -> mean_state -> mean_state) (values : list F)
    (a b : nat) (st : mean_state) : mean_state :=
  fold_left (fun st j => f (nth j values nan) st) (seq a (b - a)) st.

(** The setup branch: the state reset, then the whole window added. *)
Definition setup_state (values : list F) (s : nat) : mean_state :=
  {| nobs := 0%Z; sum_x := of_Z 0; neg_ct := 0%Z;
     compensation_add := of_Z 0; compensation_remove := of_Z 0;
     num_consecutive_same_value := 0%Z; prev_value := nth s values nan |}.

(** The reset at the end of an iteration over non-monotonic bounds:
    [nobs = 0; neg_ct = 0; sum_x = 0.0; compensation_remove = 0.0]; the
    other variables keep their values (the next iteration's setup sets
    them again). *)
Definition reset_state (st : mean_state) : mean_state :=
  {| nobs := 0%Z; sum_x := of_Z 0; neg_ct := 0%Z;
     compensation_add := compensation_add st;
     compensation_remove := of_Z 0;
     num_consecutive_same_value := num_consecutive_same_value st;
     prev_value := prev_value st |}.

Fixpoint nondecreasing (l : list nat) : bool :=
  match l with
  | a :: (b :: _) as l' => (a <=? b) && nondecreasing l'
  | _ => true
  end.

(** [is_monotonic_increasing_start_end_bounds(start, end)]. *)
Definition monotonic_bounds (bounds : list (nat * nat)) : bool :=
  nondecreasing (map fst bounds) && nondecreasing (map snd bounds).

(** One iteration of the loop of [roll_mean] over [i]: [prev] holds
    [(start[i-1], end[i-1])], [None] when [i == 0]. *)
Definition roll_mean_step (values : list F) (minp : Z) (mono : bool)
    (acc : mean_state * option (nat * nat) * list F) (b : nat * nat)
    : mean_state * option (nat * nat) * list F :=
  let '(st, prev, output) := acc in
  let '(s, e) := b in
  let setup := range_fold add_mean values s e (setup_state values s) in
  let st :=
    match prev with
    | Some (s0, e0) =>
        if negb mono || (e0 <=? s) then setup
        else range_fold add_mean values e0 e (range_fold remove_mean values s0 s st)
    | None => setup
    end in
  let output := output ++ [calc_mean minp st] in
  ((if mono then st else reset_state st), Some (s, e), output).

(** [roll_mean(values, start, end, minp)]. *)
Definition roll_mean (values : list F) (bounds : list (nat * nat)) (minp : Z) : list F :=
  let mono := monotonic_bounds bounds in
  let '(_, _, output) :=
    fold_left (roll_mean_step values minp mono) bounds (setup_state values 0, None, []) in
  output.

(** [FixedWindowIndexer.get_window_bounds] with [center=False] and the
    default [closed]: [end = arange(1 + offset, n + 1 + offset)],
    [start = end - window], both clipped to [[0, n]], where [offset] is 0,
    or [(window - 1) // 2 = -1] for a window of 0. *)
Definition fixed_window_bounds (window n : nat) : list (nat * nat) :=
  map (fun i => if window =? 0 then (i, i) else (i + 1 - window, i + 1)) (seq 0 n).

(** [Series.rolling(window).mean()]: [min_periods] defaults to the
    window. *)
Definition rolling_mean_pandas (window : nat) (values : list F) : list F :=
  roll_mean values (fixed_window_bounds window (length values)) (Z.of_nat window).


(** ** Lemmas *)

Lemma range_fold_empty f values a st : range_fold f values a a st = st.
Proof. unfold range_fold; now rewrite Nat.sub_diag. Qed.

Lemma range_fold_snoc f values a b st :
  a <= b -> range_fold f values a (S b) st = f (nth b values nan) (range_fold f values a b st).
Proof.
  intros Hab; unfold range_fold.
  replace (S b - a) with (S (b - a)) by lia.
  rewrite seq_S, fold_left_app; simpl; now replace (a + (b - a)) with b by lia.
Qed.

Lemma range_fold_split f values a b c st :
  a <= b <= c -> range_fold f values a c st = range_fold f values b c (range_fold f values a b st).
Proof.
  intros Habc; unfold range_fold.
  replace (c - a) with ((b - a) + (c - b)) by lia.
  rewrite seq_app, fold_left_app; now replace (a + (b - a)) with b by lia.
Qed.

(** Induction over a range of a [for] loop. *)
Lemma range_fold_ind (f : F -> mean_state -> mean_state) values a
    (P : nat -> mean_state -> Prop) st b :
  P a st ->
  (forall k st', a <= k < b -> P k st' -> P (S k) (f (nth k values nan) st')) ->
  a <= b -> P b (range_fold f values a b st).
Proof.
  intros Ha Hstep Hab; induction b as [|b IH].
  - replace a with 0 in * by lia; now rewrite range_fold_empty.
  - destruct (Nat.eq_dec a (S b)) as [<-|Hne]; [now rewrite range_fold_empty|].
    rewrite range_fold_snoc by lia; apply Hstep; [lia|]; apply IH; [|lia].
    intros k st' Hk; apply Hstep; lia.
Qed.

Lemma nondecreasing_app l1 a b l2 :
  nondecreasing (l1 ++ a :: b :: l2) = true -> a <= b.
Proof.
  induction l1 as [|x l1 IH]; simpl.
  - now intros [Hab%Nat.leb_le _]%andb_prop.
  - destruct l1 as [|y l1]; simpl in *; intros Hx; apply andb_prop in Hx as [_ Hx]; auto.
Qed.

(** Consecutive bounds never move backwards. *)
Definition ordered_bounds (bs : list (nat * nat)) : Prop :=
  forall l1 b1 b2 l2, bs = l1 ++ b1 :: b2 :: l2 -> fst b1 <= fst b2 /\ snd b1 <= snd b2.

Lemma monotonic_bounds_ordered bs : monotonic_bounds bs = true -> ordered_bounds bs.
Proof.
  unfold monotonic_bounds; intros [Hs He]%andb_prop l1 b1 b2 l2 ->.
  rewrite map_app in Hs, He; simpl in Hs, He.
  split; eapply nondecreasing_app; eassumption.
Qed.

Lemma ordered_bounds_prefix bs b : ordered_bounds (bs ++ [b]) -> ordered_bounds bs.
Proof.
  intros Ho l1 b1 b2 l2 ->; apply (Ho l1 b1 b2 (l2 ++ [b])).
  now rewrite <- app_assoc.
Qed.

Lemma ordered_bounds_last bs b0 b : ordered_bounds (bs ++ [b0] ++ [b]) -> fst b0 <= fst b /\ snd b0 <= snd b.
Proof. intros Ho; apply (Ho bs b0 b []); reflexivity. Qed.

(** ** The simulation principle

    [Inv s e st]: the state [st] summarises the window [[s, e)].  The setup
    branch must establish it, and the sliding branch (deletes from
    [start[i-1]] to [start[i]], then adds from [end[i-1]] to [end[i]]) must
    preserve it. *)
Section Simulation.
Variable values : list F.
Variable minp : Z.
Variable Inv : nat -> nat -> mean_state -> Prop.
Hypothesis Inv_setup : forall s e,
  s <= e <= length values -> Inv s e (range_fold add_mean values s e (setup_state values s)).
Hypothesis Inv_slide : forall s0 e0 s e st,
  Inv s0 e0 st -> s0 <= s < e0 -> e0 <= e <= length values ->
  Inv s e (range_fold add_mean values e0 e (range_fold remove_mean values s0 s st)).

Definition valid_bounds (bs : list (nat * nat)) : Prop :=
  Forall (fun b => fst b <= snd b <= length values) bs.

Definition simulated (bs : list (nat * nat)) (out : list F) : Prop :=
  Forall2 (fun b y => exists st, Inv (fst b) (snd b) st /\ y = calc_mean minp st) bs out.

Lemma roll_mean_fold (mono : bool) bs :
  valid_bounds bs -> (mono = true -> ordered_bounds bs) ->
  let '(st, prev, out) :=
    fold_left (roll_mean_step values minp mono) bs (setup_state values 0, None, []) in
  simulated bs out /\ prev = last (map Some bs) None /\
  (mono = true -> forall s e, prev = Some (s, e) -> Inv s e st).
Proof.
  induction bs as [|b bs IH] using rev_ind; intros Hv Ho.
  - simpl; repeat split; [constructor | discriminate].
  - unfold valid_bounds in Hv; apply Forall_app in Hv as [Hv [Hb _]%Forall_cons_iff].
    specialize (IH Hv (fun Hm => ordered_bounds_prefix _ _ (Ho Hm))).
    rewrite fold_left_app; simpl.
    destruct (fold_left _ bs _) as [[st prev] out]; destruct IH as (Hsim & Hprev & Hinv).
    destruct b as [s e]; simpl in Hb.
    unfold roll_mean_step; cbn beta iota.
    match goal with |- context [calc_mean minp ?x] => set (st' := x) end.
    assert (Hst' : Inv s e st').
    { subst st'; destruct prev as [[s0 e0]|]; [|now apply Inv_setup].
      destruct (negb mono || (e0 <=? s)) eqn:Hc; [now apply Inv_setup|].
      apply orb_false_iff in Hc as [Hm%negb_false_iff Hc%Nat.leb_gt].
      destruct bs as [|b0 bs _] using rev_ind; [discriminate|].
      rewrite map_app in Hprev; cbn [map] in Hprev; rewrite last_last in Hprev.
      injection Hprev as <-; specialize (Hinv Hm s0 e0 eq_refl).
      pose proof (ordered_bounds_last bs (s0, e0) (s, e)) as Hl.
      rewrite app_assoc in Hl; destruct (Hl (Ho Hm)) as [H1 H2]; simpl in H1, H2.
      apply Inv_slide with (s0 := s0) (e0 := e0); [exact Hinv | lia | lia]. }
    repeat split.
    + apply Forall2_app; [exact Hsim|]; constructor; [|constructor].
      exists st'; split; [exact Hst'|reflexivity].
    + rewrite map_app; cbn [map]; rewrite last_last; reflexivity.
    + intros Hm s1 e1 Heq; injection Heq as <- <-; rewrite Hm; exact Hst'.
Qed.

(** [roll_mean] simulates: every output is [calc_mean] of a state that
    satisfies the invariant for its window. *)
Lemma roll_mean_sim bs :
  valid_bounds bs -> simulated bs (roll_mean values bs minp).
Proof.
  intros Hv; unfold roll_mean.
  pose proof (roll_mean_fold (monotonic_bounds bs) bs Hv (monotonic_bounds_ordered bs)) as Hf.
  destruct (fold_left _ _ _) as [[st prev] out]; apply Hf.
Qed.

End Simulation.

(** ** The count of observations, for any number type *)

(** The number of non-NaN values in [values[s:e]]. *)
Definition count_valid (values : list F) (s e : nat) : nat :=
  length (filter (fun j => negb (is_nan (nth j values nan))) (seq s (e - s))).

Lemma count_valid_snoc values s e :
  s <= e ->
  count_valid values s (S e)
  = count_valid values s e + (if is_nan (nth e values nan) then 0 else 1).
Proof.
  intros Hse; unfold count_valid.
  replace (S e - s) with (S (e - s)) by lia.
  rewrite seq_S, filter_app, length_app; replace (s + (e - s)) with e by lia.
  simpl; now destruct (is_nan (nth e values nan)).
Qed.

Lemma count_valid_empty values s : count_valid values s s = 0.
Proof. unfold count_valid; now rewrite Nat.sub_diag. Qed.

Lemma count_valid_split values a b c :
  a <= b <= c -> count_valid values a c = count_valid values a b + count_valid values b c.
Proof.
  intros Habc; unfold count_valid.
  replace (c - a) with ((b - a) + (c - b)) by lia.
  rewrite seq_app, filter_app, length_app; now replace (a + (b - a)) with b by lia.
Qed.

Lemma count_valid_le values s e : count_valid values s e <= e - s.
Proof.
  unfold count_valid; etransitivity; [apply filter_length_le|]; now rewrite length_seq.
Qed.

(** A NaN at position [j] of the window leaves out one observation. *)
Lemma count_valid_nan values s e j :
  s <= j < e -> is_nan (nth j values nan) = true -> count_valid values s e < e - s.
Proof.
  intros Hj Hn.
  rewrite (count_valid_split values s j e), (count_valid_split values j (S j) e) by lia.
  rewrite count_valid_snoc, Hn, count_valid_empty by lia.
  pose proof (count_valid_le values s j); pose proof (count_valid_le values (S j) e); lia.
Qed.

Definition nobs_inv (values : list F) (s e : nat) (st : mean_state) : Prop :=
  nobs st = Z.of_nat (count_valid values s e).

Lemma nobs_add v st : nobs (add_mean v st) = (nobs st + if is_nan v then 0 else 1)%Z.
Proof. unfold add_mean; destruct (is_nan v); simpl; lia. Qed.

Lemma nobs_remove v st : nobs (remove_mean v st) = (nobs st - if is_nan v then 0 else 1)%Z.
Proof. unfold remove_mean; destruct (is_nan v); simpl; lia. Qed.

Lemma nobs_inv_add values s b c st :
  s <= b <= c -> nobs_inv values s b st -> nobs_inv values s c (range_fold add_mean values b c st).
Proof.
  intros Hbc Hst; apply (range_fold_ind add_mean values b (fun k st' => nobs_inv values s k st'));
    [exact Hst| |lia].
  intros k st' Hk Hk'; unfold nobs_inv in *; rewrite nobs_add, Hk', count_valid_snoc by lia.
  destruct (is_nan _); lia.
Qed.

Lemma nobs_inv_remove values a b e st :
  a <= b <= e -> nobs_inv values a e st -> nobs_inv values b e (range_fold remove_mean values a b st).
Proof.
  intros Hab Hst; apply (range_fold_ind remove_mean values a (fun k st' => nobs_inv values k e st'));
    [exact Hst| |lia].
  intros k st' Hk Hk'; unfold nobs_inv in *; rewrite nobs_remove, Hk'.
  rewrite (count_valid_split values k (S k) e), count_valid_snoc by lia.
  rewrite count_valid_empty; destruct (is_nan _); lia.
Qed.

Lemma nobs_inv_roll values minp bs :
  valid_bounds values bs -> simulated minp (nobs_inv values) bs (roll_mean values bs minp).
Proof.
  apply roll_mean_sim.
  - intros s e Hse; apply nobs_inv_add; [lia|].
    unfold nobs_inv; now rewrite count_valid_empty.
  - intros s0 e0 s e st Hst Hs He; apply nobs_inv_add; [lia|].
    apply nobs_inv_remove; [lia|exact Hst].
Qed.

Lemma calc_mean_few minp st : (nobs st < minp \/ nobs st <= 0)%Z -> calc_mean minp st = nan.
Proof.
  intros Hf; unfold calc_mean.
  destruct (Z.leb_spec minp (nobs st)), (Z.ltb_spec 0 (nobs st)); simpl; try reflexivity; lia.
Qed.

Lemma simulated_nth minp Inv bs out i :
  simulated minp Inv bs out -> i < length bs ->
  exists st, Inv (fst (nth i bs (0, 0))) (snd (nth i bs (0, 0))) st /\
             nth i out nan = calc_mean minp st.
Proof.
  intros Hsim; revert i; induction Hsim as [|b y bs out Hb _ IH]; intros [|i] Hi;
    simpl in *; try lia; [exact Hb|apply IH; lia].
Qed.

(** ** Fixed windows *)

Lemma length_fixed_window_bounds w n : length (fixed_window_bounds w n) = n.
Proof. unfold fixed_window_bounds; now rewrite length_map, length_seq. Qed.

Lemma nth_fixed_window_bounds w n i :
  i < n -> nth i (fixed_window_bounds w n) (0, 0)
           = if w =? 0 then (i, i) else (i + 1 - w, i + 1).
Proof.
  intros Hi; unfold fixed_window_bounds; now rewrite nth_map_seq.
Qed.

Lemma fixed_window_bounds_valid (values : list F) w :
  valid_bounds values (fixed_window_bounds w (length values)).
Proof.
  unfold valid_bounds, fixed_window_bounds; apply Forall_map, Forall_forall.
  intros i Hi%in_seq; destruct (w =? 0); simpl; lia.
Qed.

Lemma length_rolling_mean_pandas w (values : list F) :
  length (rolling_mean_pandas w values) = length values.
Proof.
  unfold rolling_mean_pandas.
  rewrite <- (Forall2_length (nobs_inv_roll values (Z.of_nat w) _ (fixed_window_bounds_valid values w))).
  apply length_fixed_window_bounds.
Qed.

(** The result is NaN wherever fewer than [window] observations are
    available, and everywhere for a window of 0. *)
Lemma rolling_mean_pandas_nan w (values : list F) i :
  i < length values -> (w = 0 \/ count_valid values (i + 1 - w) (i + 1) < w) ->
  nth i (rolling_mean_pandas w values) nan = nan.
Proof.
  intros Hi Hw; unfold rolling_mean_pandas.
  destruct (simulated_nth _ _ _ _ i (nobs_inv_roll values (Z.of_nat w) _
              (fixed_window_bounds_valid values w))) as [st [Hst ->]];
    [now rewrite length_fixed_window_bounds|].
  rewrite nth_fixed_window_bounds in Hst by exact Hi; unfold nobs_inv in Hst.
  apply calc_mean_few; destruct (Nat.eqb_spec w 0) as [->|Hw0]; simpl in Hst.
  - rewrite count_valid_empty in Hst; lia.
  - destruct Hw as [|Hw]; [lia|]; rewrite Hst; left; lia.
Qed.

End OnlineMean.
