(* ===== verification/Extrema.v ===== *)
(** * Extrema: [StockAnalysis.maximum] and [StockAnalysis.minimum]

    Both methods compare the series with its two shifted copies and select
    by the conjunction of the comparisons:
    [data[(data.shift(1) < data) & (data.shift(-1) < data)]] for maxima and
    the same with [>] for minima.  The theorems show that this is the
    specification's predicate -- an interior position strictly above (below)
    both neighbours -- with the boundary positions excluded by the NaN the
    shifts put there, and that no label is both a maximum and a minimum. *)

From Stdlib Require Import ZArith List Bool Lia.
From Stdlib Require Import Floats.
From S2P Require Import Prelude Float64 Series.
Import ListNotations.

Section Extrema.
Context {F : Type} `{NumLaws F}.

(** [maximum]: [statistic_operations.py], lines 55-58. *)
Definition maximum (self : StockAnalysis) : series F :=
  let d := values (data self) in
  select (data self)
    (zip_with andb (zip_with flt (shift_values 1 d) d)
                   (zip_with flt (shift_values (-1) d) d)).

(** [minimum]: [statistic_operations.py], lines 60-63; [a > b] is IEEE's
    [b < a]. *)
Definition minimum (self : StockAnalysis) : series F :=
  let d := values (data self) in
  select (data self)
    (zip_with andb (zip_with (fun a b => flt b a) (shift_values 1 d) d)
                   (zip_with (fun a b => flt b a) (shift_values (-1) d) d)).

(** The specification's predicate: position [i] is interior and its value
    stands in the strict relation [R] to both neighbours. *)
Definition strict_peak (R : F -> F -> bool) (xs : list F) (i : nat) : bool :=
  (1 <=? i) && (i + 1 <? length xs)
  && R (nth (i - 1) xs nan) (nth i xs nan)
  && R (nth (i + 1) xs nan) (nth i xs nan).

Definition is_local_max (xs : list F) : nat -> bool := strict_peak flt xs.
Definition is_local_min (xs : list F) : nat -> bool :=
  strict_peak (fun a b => flt b a) xs.

(** ** The shift-and-mask selection, for any comparison that is false
    against NaN *)
Section Mask.
Variable R : F -> F -> bool.
Hypothesis R_nan : forall y, R nan y = false.

Lemma nth_neighbour_mask xs i :
  i < length xs ->
  nth i (zip_with andb (zip_with R (shift_values 1 xs) xs)
                       (zip_with R (shift_values (-1) xs) xs)) false
  = strict_peak R xs i.
Proof.
  intros Hi; unfold strict_peak.
  rewrite (nth_zip_with _ _ _ _ false false) by (autorewrite with stats; lia).
  rewrite !(nth_zip_with _ _ _ _ nan nan) by (autorewrite with stats; lia).
  rewrite nth_shift_values_fwd, nth_shift_values_bwd by lia.
  change (Z.to_nat 1) with 1; change (Z.to_nat (- -1)) with 1.
  destruct (Nat.ltb_spec i 1) as [Hi0|Hi0].
  - rewrite R_nan; destruct (Nat.leb_spec 1 i); [lia|reflexivity].
  - destruct (Nat.leb_spec (length xs) (i + 1)) as [Hn|Hn].
    + rewrite R_nan, andb_false_r.
      destruct (Nat.ltb_spec (i + 1) (length xs)); [lia|].
      now rewrite !andb_false_r, andb_false_l.
    + destruct (Nat.leb_spec 1 i); [|lia].
      destruct (Nat.ltb_spec (i + 1) (length xs)); [|lia].
      reflexivity.
Qed.

Lemma select_neighbour_mask xs :
  select (series_of_array xs)
    (zip_with andb (zip_with R (shift_values 1 xs) xs)
                   (zip_with R (shift_values (-1) xs) xs))
  = map (fun i => (Z.of_nat i, nth i xs nan))
        (filter (strict_peak R xs) (seq 0 (length xs))).
Proof.
  rewrite (select_spec _ _ (0%Z, nan)) by (autorewrite with stats; lia).
  rewrite length_series_of_array.
  rewrite (filter_ext_in _ (strict_peak R xs))
    by (intros i Hi; apply in_seq in Hi; apply nth_neighbour_mask; lia).
  apply map_ext_in; intros i Hi.
  apply filter_In in Hi as [Hi _]; apply in_seq in Hi.
  apply nth_series_of_array; lia.
Qed.
End Mask.

Lemma maximum_positions xs :
  maximum (StockAnalysis_init xs)
  = map (fun i => (Z.of_nat i, nth i xs nan))
        (filter (is_local_max xs) (seq 0 (length xs))).
Proof.
  unfold maximum, StockAnalysis_init; simpl; rewrite values_series_of_array.
  apply select_neighbour_mask, flt_nan_l.
Qed.

Lemma minimum_positions xs :
  minimum (StockAnalysis_init xs)
  = map (fun i => (Z.of_nat i, nth i xs nan))
        (filter (is_local_min xs) (seq 0 (length xs))).
Proof.
  unfold minimum, StockAnalysis_init; simpl; rewrite values_series_of_array.
  apply select_neighbour_mask; intros y; apply flt_nan_r.
Qed.

(** ** Theorems *)

(** C1. [maximum] returns exactly the interior positions whose value is
    strictly greater than both neighbours, in increasing order, each with
    its label (its position) and its unchanged value. *)
Theorem maximum_spec xs :
  maximum (StockAnalysis_init xs)
  = map (fun i => (Z.of_nat i, nth i xs nan))
        (filter (is_local_max xs) (seq 0 (length xs))).
Proof. apply maximum_positions. Qed.

(** C2. [minimum] returns exactly the interior positions whose value is
    strictly less than both neighbours, in order, with unchanged values. *)
Theorem minimum_spec xs :
  minimum (StockAnalysis_init xs)
  = map (fun i => (Z.of_nat i, nth i xs nan))
        (filter (is_local_min xs) (seq 0 (length xs))).
Proof. apply minimum_positions. Qed.

Lemma in_index_peak R xs k :
  In k (index (map (fun i => (Z.of_nat i, nth i xs nan))
                   (filter (strict_peak R xs) (seq 0 (length xs))))) <->
  exists i, k = Z.of_nat i /\ strict_peak R xs i = true.
Proof.
  unfold index; rewrite map_map; simpl; rewrite in_map_iff; split.
  - intros [i [<- Hi]]; apply filter_In in Hi as [_ Hi]; eauto.
  - intros [i [-> Hi]]; exists i; split; [reflexivity|].
    apply filter_In; split; [|exact Hi].
    unfold strict_peak in Hi.
    apply andb_prop in Hi as [Hi _]; apply andb_prop in Hi as [Hi _].
    apply andb_prop in Hi as [_ Hi]; apply Nat.ltb_lt in Hi.
    apply in_seq; lia.
Qed.

(** C12. No label is reported both as a local maximum and as a local
    minimum. *)
Theorem extrema_disjoint xs k :
  In k (index (maximum (StockAnalysis_init xs))) ->
  ~ In k (index (minimum (StockAnalysis_init xs))).
Proof.
  rewrite maximum_positions, minimum_positions; unfold is_local_max, is_local_min.
  rewrite !in_index_peak; intros [i [-> Hmax]] [j [Hj Hmin]].
  apply Nat2Z.inj in Hj; subst j; unfold strict_peak in *.
  apply andb_prop in Hmax as [_ Hmax]; apply andb_prop in Hmin as [_ Hmin].
  apply flt_asym in Hmax; congruence.
Qed.

End Extrema.

(** Witness of C12 at the test series [2, 1, 3, 4, 7, 6, 5]: label 4 is a
    maximum and therefore not a minimum. *)
Lemma extrema_disjoint_witness :
  In 4%Z (index (maximum (StockAnalysis_init [2; 1; 3; 4; 7; 6; 5]%float))) /\
  ~ In 4%Z (index (minimum (StockAnalysis_init [2; 1; 3; 4; 7; 6; 5]%float))).
Proof.
  split; [vm_compute; auto|].
  apply (extrema_disjoint [2; 1; 3; 4; 7; 6; 5]%float 4%Z); vm_compute; auto.
Defined.

(** Witnesses of C1 and C2 at the test series. *)
Lemma maximum_spec_witness :
  maximum (StockAnalysis_init [2; 1; 3; 4; 7; 6; 5]%float)
  = map (fun i => (Z.of_nat i, nth i [2; 1; 3; 4; 7; 6; 5]%float nan))
        (filter (is_local_max [2; 1; 3; 4; 7; 6; 5]%float) (seq 0 7)).
Proof. apply (maximum_spec [2; 1; 3; 4; 7; 6; 5]%float). Defined.

Lemma minimum_spec_witness :
  minimum (StockAnalysis_init [2; 1; 3; 4; 7; 6; 5]%float)
  = map (fun i => (Z.of_nat i, nth i [2; 1; 3; 4; 7; 6; 5]%float nan))
        (filter (is_local_min [2; 1; 3; 4; 7; 6; 5]%float) (seq 0 7)).
Proof. apply (minimum_spec [2; 1; 3; 4; 7; 6; 5]%float). Defined.
