(* ===== verification/Diff.v ===== *)
(** * Diff: [StockAnalysis.diff], i.e. pandas' [Series.diff()]

    The first difference of the series, keeping its labels: position 0 has
    no predecessor and holds NaN, position [i] holds [x[i] - x[i-1]]. *)

From Stdlib Require Import ZArith List Bool Lia.
From Stdlib Require Import Floats.
From S2P Require Import Prelude Float64 Series.
Import ListNotations.

Section Diff.
Context {F : Type} `{NumLaws F}.

(** pandas' [diff] kernel: each value minus the one before it. *)
Fixpoint diff_from (prev : F) (xs : list F) : list F :=
  match xs with
  | [] => []
  | x :: xs' => fsub x prev :: diff_from x xs'
  end.

Definition diff_values (xs : list F) : list F :=
  match xs with
  | [] => []
  | x :: xs' => nan :: diff_from x xs'
  end.

(** [diff]: [statistic_operations.py], lines 40-42. *)
Definition diff (self : StockAnalysis) : series F :=
  combine (index (data self)) (diff_values (values (data self))).

Lemma length_diff_from p xs : length (diff_from p xs) = length xs.
Proof. revert p; induction xs; simpl; auto. Qed.

Lemma length_diff_values xs : length (diff_values xs) = length xs.
Proof. destruct xs; simpl; auto using length_diff_from. Qed.

Lemma nth_diff_from p xs i :
  i < length xs ->
  nth i (diff_from p xs) nan = fsub (nth i xs nan) (nth i (p :: xs) nan).
Proof.
  revert p i; induction xs as [|x xs IH]; intros p [|i] Hi; simpl in *; try lia; auto.
  rewrite IH by lia; reflexivity.
Qed.

Lemma diff_init xs : diff (StockAnalysis_init xs) = series_of_array (diff_values xs).
Proof.
  unfold diff, series_of_array, StockAnalysis_init; cbn [data].
  rewrite index_series_of_array, values_series_of_array, length_diff_values; reflexivity.
Qed.

(** ** Theorems *)

(** C13. [diff] keeps the labels of the series; its first value is NaN and
    the value at every later position [i] is [x[i] - x[i-1]]. *)
Theorem diff_spec xs :
  index (diff (StockAnalysis_init xs)) = index (data (StockAnalysis_init xs)) /\
  values (diff (StockAnalysis_init xs))
  = map (fun i => if i =? 0 then nan else fsub (nth i xs nan) (nth (i - 1) xs nan))
        (seq 0 (length xs)).
Proof.
  unfold diff, StockAnalysis_init; simpl.
  rewrite values_series_of_array, index_series_of_array.
  split.
  - apply map_fst_combine; rewrite length_zrange, length_diff_values; lia.
  - unfold values; rewrite map_snd_combine by (rewrite length_zrange, length_diff_values; lia).
    apply nth_ext with (d := nan) (d' := nan).
    { rewrite length_diff_values; autorewrite with stats; reflexivity. }
    intros i Hi; rewrite length_diff_values in Hi; rewrite nth_map_seq by lia.
    destruct xs as [|x xs]; simpl in *; [lia|].
    destruct i as [|i]; simpl; [reflexivity|].
    rewrite nth_diff_from by lia; rewrite Nat.sub_0_r; reflexivity.
Qed.

End Diff.

#[export] Hint Rewrite @length_diff_values @length_diff_from : stats.

(** Witness of C13 at the test series. *)
Lemma diff_spec_witness :
  let xs := [2; 1; 3; 4; 7; 6; 5]%float in
  index (diff (StockAnalysis_init xs)) = index (data (StockAnalysis_init xs)) /\
  values (diff (StockAnalysis_init xs))
  = map (fun i => if i =? 0 then nan else fsub (nth i xs nan) (nth (i - 1) xs nan))
        (seq 0 (length xs)).
Proof. apply (diff_spec [2; 1; 3; 4; 7; 6; 5]%float). Defined.
