(* ===== verification/Rolling.v ===== *)
(** * Rolling: [StockAnalysis.moving_average], i.e. [rolling(window).mean()]

    pandas validates the window (a negative one raises [ValueError]), takes
    [min_periods = window] and runs the kernel [OnlineMean.roll_mean] over
    the fixed windows [x[i-w+1..i]].  The result is NaN where fewer than
    [w] non-NaN values are available: where the window is cut by the start
    of the series or holds a NaN, and always when [w = 0].  Those facts
    depend only on which values are NaN and are proved here for any number
    type.

    [window_mean] and [rolling_mean] are the textbook definition of the
    rolling mean, the sum of the window divided by [w].  They are the
    reference that [ExactReal] proves pandas' kernel equal to in exact
    arithmetic; in binary64 the kernel's compensated sum and its rule for
    runs of equal values can differ from it in the last bit. *)

From Stdlib Require Import String.
From Stdlib Require Import ZArith List Bool Lia.
From Stdlib Require Import Floats.
From S2P Require Import Prelude Float64 Series OnlineMean.
Import ListNotations.

Section Rolling.
Context {F : Type} `{NumLaws F}.

(** The trailing window ending at position [i]. *)
Definition window (w : nat) (xs : list F) (i : nat) : list F :=
  firstn w (skipn (i + 1 - w) xs).

(** The reference mean at position [i]: NaN without [w] values or with a
    NaN among them, the sum over [w] otherwise. *)
Definition window_mean (w : nat) (xs : list F) (i : nat) : F :=
  if (w =? 0) || (i + 1 <? w) then nan
  else
    let win := window w xs i in
    if existsb is_nan win then nan
    else fdiv (fsum win) (of_Z (Z.of_nat w)).

Definition rolling_mean (w : nat) (xs : list F) : list F :=
  map (window_mean w xs) (seq 0 (length xs)).

(** [moving_average]: [statistic_operations.py], lines 32-38 (default
    window 3 in [get_results]). *)
Definition moving_average (self : StockAnalysis) (window_size : Z) : result (series F) :=
  if (window_size <? 0)%Z then Err (ValueError "window must be an integer 0 or greater")
  else Ok (combine (index (data self))
                   (rolling_mean_pandas (Z.to_nat window_size) (values (data self)))).

(** ** Lemmas *)

Lemma length_rolling_mean w xs : length (rolling_mean w xs) = length xs.
Proof. apply length_map_seq. Qed.

Lemma nth_rolling_mean w xs i :
  i < length xs -> nth i (rolling_mean w xs) nan = window_mean w xs i.
Proof. apply nth_map_seq. Qed.

(** The window as the code slices it is the list of the values at
    positions [i-w+1 .. i]. *)
Lemma window_by_index w xs i :
  w <= i + 1 -> i < length xs ->
  window w xs i = map (fun j => nth j xs nan) (seq (i + 1 - w) w).
Proof.
  intros Hw Hi; apply nth_ext with (d := nan) (d' := nan).
  - unfold window; rewrite length_firstn, length_skipn, length_map, length_seq; lia.
  - intros j Hj; unfold window in *.
    rewrite length_firstn, length_skipn in Hj.
    rewrite nth_firstn; destruct (Nat.ltb_spec j w); [|lia].
    rewrite nth_skipn, nth_map_seq_from by lia; reflexivity.
Qed.

Lemma moving_average_ok self w :
  (0 <= w)%Z ->
  moving_average self w
  = Ok (combine (index (data self)) (rolling_mean_pandas (Z.to_nat w) (values (data self)))).
Proof.
  intros Hw; unfold moving_average.
  destruct (Z.ltb_spec w 0); [lia | reflexivity].
Qed.

Lemma moving_average_init xs w :
  (0 <= w)%Z ->
  moving_average (StockAnalysis_init xs) w
  = Ok (series_of_array (rolling_mean_pandas (Z.to_nat w) xs)).
Proof.
  intros Hw; rewrite moving_average_ok by exact Hw; simpl.
  rewrite index_series_of_array, values_series_of_array.
  unfold series_of_array; rewrite length_rolling_mean_pandas; reflexivity.
Qed.

(** The reference mean where the window [x[i-w+1..i]] is complete and
    holds no NaN: the sum of the window divided by [w]. *)
Lemma rolling_mean_window_ref w xs i :
  0 < w -> w <= i + 1 -> i < length xs ->
  (forall j, i + 1 - w <= j <= i -> is_nan (nth j xs nan) = false) ->
  nth i (rolling_mean w xs) nan
  = fdiv (fsum (map (fun j => nth j xs nan) (seq (i + 1 - w) w))) (of_Z (Z.of_nat w)).
Proof.
  intros Hw0 Hw Hi Hnan; rewrite nth_rolling_mean by exact Hi; unfold window_mean.
  destruct (Nat.eqb_spec w 0); [lia|]; destruct (Nat.ltb_spec (i + 1) w); [lia|].
  simpl; rewrite window_by_index by lia.
  replace (existsb is_nan _) with false; [reflexivity|].
  symmetry; apply not_true_iff_false; rewrite existsb_exists.
  intros [y [Hy Hny]]; apply in_map_iff in Hy as [j [<- Hj]]; apply in_seq in Hj.
  rewrite Hnan in Hny by lia; discriminate.
Qed.

(** Position [i] of [moving_average] read by label, as [ma[i]]. *)
Lemma moving_average_lookup xs w s i :
  moving_average (StockAnalysis_init xs) (Z.of_nat w) = Ok s -> i < length xs ->
  lookup s (Z.of_nat i) = Some (nth i (rolling_mean_pandas w xs) nan).
Proof.
  intros Hm Hi; rewrite moving_average_init in Hm by lia; injection Hm as <-.
  rewrite Nat2Z.id; apply lookup_series_of_array.
  now rewrite length_rolling_mean_pandas.
Qed.

(** The kernel is NaN everywhere when no window can hold [w] values. *)
Lemma rolling_mean_pandas_all_nan w xs :
  (forall i, i < length xs -> w = 0 \/ count_valid xs (i + 1 - w) (i + 1) < w) ->
  rolling_mean_pandas w xs = repeat nan (length xs).
Proof.
  intros Hw; apply nth_ext with (d := nan) (d' := nan).
  - now rewrite length_rolling_mean_pandas, repeat_length.
  - intros i Hi; rewrite length_rolling_mean_pandas in Hi; rewrite nth_repeat.
    apply rolling_mean_pandas_nan; auto.
Qed.

(** ** Theorems *)

(** C10. A negative window is rejected with pandas' [ValueError]. *)
Theorem moving_average_negative_window self w :
  (w < 0)%Z ->
  moving_average self w = Err (ValueError "window must be an integer 0 or greater").
Proof.
  intros Hw; unfold moving_average; destruct (Z.ltb_spec w 0); [reflexivity | lia].
Qed.

(** C9. Leading NaNs: every label [i < w - 1] of the moving average is
    NaN (the window is cut by the start of the series). *)
Theorem moving_average_leading_nan xs w s i :
  moving_average (StockAnalysis_init xs) (Z.of_nat w) = Ok s ->
  i < length xs -> i + 1 < w -> lookup s (Z.of_nat i) = Some nan.
Proof.
  intros Hm Hi Hw; rewrite (moving_average_lookup xs w s i Hm Hi); f_equal.
  apply rolling_mean_pandas_nan; [exact Hi|right].
  pose proof (count_valid_le xs (i + 1 - w) (i + 1)); lia.
Qed.

(** C15. A NaN price anywhere in the window [x[i-w+1..i]] makes the moving
    average NaN at label [i]. *)
Theorem moving_average_nan_in_window xs w s i j :
  moving_average (StockAnalysis_init xs) (Z.of_nat w) = Ok s ->
  i < length xs -> i + 1 - w <= j <= i -> is_nan (nth j xs nan) = true ->
  lookup s (Z.of_nat i) = Some nan.
Proof.
  intros Hm Hi Hj Hn; rewrite (moving_average_lookup xs w s i Hm Hi); f_equal.
  apply rolling_mean_pandas_nan; [exact Hi|].
  destruct (Nat.eq_dec w 0) as [|Hw]; [now left|right].
  pose proof (count_valid_nan xs (i + 1 - w) (i + 1) j ltac:(lia) Hn); lia.
Qed.

(** C16. A window longer than the series gives NaN at every label. *)
Theorem moving_average_long_window xs w :
  length xs < w ->
  moving_average (StockAnalysis_init xs) (Z.of_nat w)
  = Ok (series_of_array (repeat nan (length xs))).
Proof.
  intros Hw; rewrite moving_average_init, Nat2Z.id by lia; do 2 f_equal.
  apply rolling_mean_pandas_all_nan; intros i Hi; right.
  pose proof (count_valid_le xs (i + 1 - w) (i + 1)); lia.
Qed.

(** C11. A window of size 0 is accepted and yields only NaNs: the code
    does not reject it, although the specification counts it as a
    contract violation to be reported. *)
Theorem moving_average_zero_window xs :
  moving_average (StockAnalysis_init xs) 0
  = Ok (series_of_array (repeat nan (length xs))).
Proof.
  rewrite moving_average_init by lia; do 2 f_equal.
  apply rolling_mean_pandas_all_nan; now left.
Qed.

End Rolling.

(** ** Witnesses, on the test series [2, 1, 3, 4, 7, 6, 5] *)

Definition test_series : list float := [2; 1; 3; 4; 7; 6; 5]%float.

Lemma moving_average_negative_window_witness :
  (-1 < 0)%Z /\
  moving_average (StockAnalysis_init test_series) (-1)
  = Err (ValueError "window must be an integer 0 or greater").
Proof. split; [lia | apply (moving_average_negative_window _ (-1)); lia]. Defined.

Lemma moving_average_leading_nan_witness :
  moving_average (StockAnalysis_init test_series) (Z.of_nat 3)
  = Ok (series_of_array (rolling_mean_pandas 3 test_series)) /\
  lookup (series_of_array (rolling_mean_pandas 3 test_series)) (Z.of_nat 1) = Some nan.
Proof.
  split; [vm_compute; reflexivity|].
  apply (moving_average_leading_nan test_series 3 _ 1); [vm_compute; reflexivity | simpl; lia | lia].
Defined.

Definition gap_series : list float := [2; nan; 3]%float.

Lemma moving_average_nan_in_window_witness :
  moving_average (StockAnalysis_init gap_series) (Z.of_nat 2)
  = Ok (series_of_array (rolling_mean_pandas 2 gap_series)) /\
  is_nan (nth 1 gap_series nan) = true /\
  lookup (series_of_array (rolling_mean_pandas 2 gap_series)) (Z.of_nat 2) = Some nan.
Proof.
  split; [vm_compute; reflexivity | split; [vm_compute; reflexivity|]].
  apply (moving_average_nan_in_window gap_series 2 _ 2 1);
    [vm_compute; reflexivity | simpl; lia | lia | vm_compute; reflexivity].
Defined.

Lemma moving_average_long_window_witness :
  length test_series < 8 /\
  moving_average (StockAnalysis_init test_series) (Z.of_nat 8)
  = Ok (series_of_array (repeat nan (length test_series))).
Proof. split; [simpl; lia | apply moving_average_long_window; simpl; lia]. Defined.

#[export] Hint Rewrite @length_rolling_mean @length_rolling_mean_pandas : stats.

Lemma moving_average_zero_window_witness :
  moving_average (StockAnalysis_init test_series) 0
  = Ok (series_of_array (repeat nan (length test_series))).
Proof. apply (moving_average_zero_window test_series). Defined.
