(* ===== verification/Autocorr.v ===== *)
(** * Autocorr: [StockAnalysis.autocorr]

    The method drops the NaN entries of the series, then for every lag
    [1 .. n-1] -- [n] the length BEFORE dropping -- calls pandas'
    [Series.autocorr(lag)], which is [self.corr(self.shift(lag))]: pandas'
    [nancorr] keeps the pairs where neither side is NaN and hands them to
    numpy's [corrcoef], the covariance with [ddof = 1] divided by the two
    standard deviations and clipped to [[-1, 1]].  The [lag] argument of the
    method is shadowed by the loop variable and never used.

    The theorems give the labels of the result, the pairs each lag
    correlates, and the NaN every lag at or beyond the post-drop length
    yields. *)

From Stdlib Require Import ZArith List Bool Lia.
From Stdlib Require Import Floats.
From S2P Require Import Prelude Float64 Series.
Import ListNotations.

Section Autocorr.
Context {F : Type} `{NumLaws F}.

(** ** numpy *)

Definition np_mean (xs : list F) : F := fdiv (fsum xs) (of_Z (Z.of_nat (length xs))).

Definition np_dot (xs ys : list F) : F := fsum (zip_with fmul xs ys).

(** [np.clip(x, lo, hi)]; NaN passes through. *)
Definition np_clip (x lo hi : F) : F :=
  if flt x lo then lo else if flt hi x then hi else x.

(** [np.corrcoef(a, b)[0, 1]]: [np.cov] centres both rows, multiplies the
    Gram matrix by [1 / fact] with [fact = N - 1] (0 when [N <= 1]), then
    [corrcoef] divides by [sqrt] of the diagonal twice and clips. *)
Definition corrcoef (a b : list F) : F :=
  let da := map (fun x => fsub x (np_mean a)) a in
  let db := map (fun y => fsub y (np_mean b)) b in
  let fact := Z.max 0 (Z.of_nat (length a) - 1) in
  let inv := fdiv (of_Z 1) (of_Z fact) in
  let c01 := fmul (np_dot da db) inv in
  let c00 := fmul (np_dot da da) inv in
  let c11 := fmul (np_dot db db) inv in
  np_clip (fdiv (fdiv c01 (fsqrt c00)) (fsqrt c11)) (of_Z (-1)) (of_Z 1).

(** ** pandas *)

(** [nanops.nancorr] with [min_periods = 1]. *)
Definition nancorr (a b : list F) : F :=
  let valid := zip_with (fun x y => negb (is_nan x) && negb (is_nan y)) a b in
  let a' := compress a valid in
  let b' := compress b valid in
  if length a' <? 1 then nan else corrcoef a' b'.

(** [Series.corr(other)] on two series with the same labels. *)
Definition series_corr (this other : list F) : F :=
  if length this =? 0 then nan else nancorr this other.

(** [Series.autocorr(lag)] = [self.corr(self.shift(lag))]. *)
Definition series_autocorr (s : series F) (lag : Z) : F :=
  series_corr (values s) (shift_values lag (values s)).

(** [autocorr]: [statistic_operations.py], lines 44-53. *)
Definition autocorr (self : StockAnalysis) (lag : Z) : series F :=
  let maxumum_lag := (Z.of_nat (length (data self)) - 1)%Z in
  let data_without_nan := dropna (data self) in
  let lags := zrange 1 (maxumum_lag + 1) in
  combine lags (map (fun l => series_autocorr data_without_nan l) lags).

(** ** Lemmas *)

Definition not_nan (x : F) : Prop := is_nan x = false.

Lemma zip_with_nan_r (f : F -> F -> bool) a k :
  (forall x, f x nan = false) ->
  zip_with f a (repeat nan k) = repeat false (Nat.min (length a) k).
Proof.
  intros Hf; revert k; induction a as [|x a IH]; intros [|k]; simpl; auto.
  now rewrite Hf, IH.
Qed.

Lemma zip_with_valid a b :
  Forall not_nan a -> Forall not_nan b -> length a = length b ->
  zip_with (fun x y => negb (is_nan x) && negb (is_nan y)) a b = repeat true (length a).
Proof.
  intros Ha; revert b; induction Ha as [|x a Hx Ha IH]; intros [|y b] Hb Hl;
    simpl in *; try discriminate; auto.
  inversion Hb; subst; unfold not_nan in *.
  rewrite Hx, H3; simpl; f_equal; auto.
Qed.

Lemma shift_values_fwd_split (L : nat) xs :
  L <= length xs ->
  shift_values (Z.of_nat L) xs = repeat nan L ++ firstn (length xs - L) xs.
Proof.
  intros HL; unfold shift_values.
  replace (0 <=? Z.of_nat L)%Z with true by (symmetry; apply Z.leb_le; lia).
  now replace (Nat.min (Z.to_nat (Z.of_nat L)) (length xs)) with L by lia.
Qed.

(** The NaN-validity mask of a NaN-free series against itself shifted by
    [L]: false on the [L] vacated positions, true after them. *)
Lemma valid_mask_shift xs (L : nat) :
  Forall not_nan xs -> L <= length xs ->
  zip_with (fun x y => negb (is_nan x) && negb (is_nan y)) xs
           (shift_values (Z.of_nat L) xs)
  = repeat false L ++ repeat true (length xs - L).
Proof.
  intros Hs HL; rewrite shift_values_fwd_split by exact HL.
  rewrite <- (firstn_skipn L xs) at 1.
  assert (Hf : length (firstn L xs) = L) by (rewrite length_firstn; lia).
  rewrite zip_with_app by (rewrite Hf, repeat_length; reflexivity).
  rewrite zip_with_nan_r by (intros x; rewrite is_nan_nan, andb_false_r; reflexivity).
  rewrite zip_with_valid.
  - rewrite Hf, Nat.min_id, length_skipn; reflexivity.
  - apply (Forall_firstn_skipn _ L _ Hs).
  - apply (Forall_firstn_skipn _ (length xs - L) _ Hs).
  - rewrite length_skipn, length_firstn; lia.
Qed.

(** The pairs [nancorr] keeps when a NaN-free series is set against itself
    shifted by [L < m]: [x[L..m-1]] against [x[0..m-L-1]]. *)
Lemma series_autocorr_pairs s (L : nat) :
  Forall not_nan (values s) -> 1 <= L < length (values s) ->
  series_autocorr s (Z.of_nat L)
  = corrcoef (skipn L (values s)) (firstn (length (values s) - L) (values s)).
Proof.
  intros Hs HL; unfold series_autocorr, series_corr, nancorr; cbv zeta.
  set (xs := values s) in *.
  destruct (Nat.eqb_spec (length xs) 0); [lia|].
  rewrite valid_mask_shift by (auto; lia).
  rewrite compress_drop_prefix by lia.
  rewrite shift_values_fwd_split by lia.
  rewrite compress_app by (rewrite !repeat_length; reflexivity).
  rewrite compress_all_false; simpl.
  replace (length xs - L) with (length (firstn (length xs - L) xs)) at 2
    by (rewrite length_firstn; lia).
  rewrite compress_all_true, length_skipn.
  destruct (Nat.ltb_spec (length xs - L) 1); [lia | reflexivity].
Qed.

(** At a lag no shorter than the NaN-free series, no pair remains. *)
Lemma series_autocorr_beyond s (L : nat) :
  length (values s) <= L -> series_autocorr s (Z.of_nat L) = nan.
Proof.
  intros HL; unfold series_autocorr, series_corr, nancorr.
  destruct (Nat.eqb (length (values s)) 0); [reflexivity|].
  unfold shift_values.
  replace (0 <=? Z.of_nat L)%Z with true by (symmetry; apply Z.leb_le; lia).
  replace (Nat.min (Z.to_nat (Z.of_nat L)) (length (values s))) with (length (values s)) by lia.
  rewrite Nat.sub_diag, firstn_O, app_nil_r.
  rewrite zip_with_nan_r by (intros x; rewrite is_nan_nan, andb_false_r; reflexivity).
  now rewrite compress_all_false.
Qed.

(** Reading the result of [autocorr] at label [k]. *)
Lemma lookup_autocorr self lag k :
  lookup (autocorr self lag) k
  = if ((1 <=? k) && (k <? Z.of_nat (length (data self))))%Z
    then Some (series_autocorr (dropna (data self)) k) else None.
Proof.
  unfold autocorr; cbv zeta.
  destruct (length (data self)) as [|n] eqn:En.
  - simpl.
    destruct (Z.leb_spec 1 k), (Z.ltb_spec k 0); simpl; auto; lia.
  - replace (Z.of_nat (S n) - 1 + 1)%Z with (1 + Z.of_nat n)%Z by lia.
    rewrite lookup_tabulate.
    destruct (Z.leb_spec 1 k), (Z.ltb_spec k (1 + Z.of_nat n)),
             (Z.ltb_spec k (Z.of_nat (S n))); simpl; auto; lia.
Qed.

Lemma values_dropna_not_nan s : Forall not_nan (values (dropna s)).
Proof.
  unfold values; apply Forall_map.
  eapply Forall_impl; [|apply dropna_no_nan]; auto.
Qed.

Lemma length_values_dropna s : length (values (dropna s)) <= length s.
Proof. unfold values; rewrite length_map; apply length_dropna_le. Qed.

Lemma index_autocorr_init xs lag :
  index (autocorr (StockAnalysis_init xs) lag) = zrange 1 (Z.of_nat (length xs)).
Proof.
  unfold autocorr, StockAnalysis_init, index; cbn [data]; cbv zeta.
  rewrite length_series_of_array, Z.sub_add.
  apply map_fst_combine; now rewrite length_map.
Qed.

Lemma lookup_autocorr_pairs xs lag (L : nat) :
  let d := values (dropna (series_of_array xs)) in
  1 <= L < length d ->
  lookup (autocorr (StockAnalysis_init xs) lag) (Z.of_nat L)
  = Some (corrcoef (skipn L d) (firstn (length d - L) d)).
Proof.
  intros d HL; unfold d in *; rewrite lookup_autocorr; cbn [data StockAnalysis_init].
  pose proof (length_values_dropna (series_of_array xs)) as Hm.
  rewrite length_series_of_array in *.
  destruct (Z.leb_spec 1 (Z.of_nat L)), (Z.ltb_spec (Z.of_nat L) (Z.of_nat (length xs)));
    simpl; try lia.
  f_equal; apply series_autocorr_pairs; [apply values_dropna_not_nan | exact HL].
Qed.

(** ** Theorems *)

(** The result of [autocorr] is labelled by the lags [1 .. n-1],
    [n] the length of the stored series (empty when [n <= 1]). *)
Theorem autocorr_labels xs lag :
  index (autocorr (StockAnalysis_init xs) lag) = zrange 1 (Z.of_nat (length xs)).
Proof. apply index_autocorr_init. Qed.

(** The [lag] argument has no effect on the result. *)
Theorem autocorr_ignores_lag self lag lag' :
  autocorr self lag = autocorr self lag'.
Proof. reflexivity. Qed.

(** C5. For a lag [L] below the number [m] of non-NaN values, the value
    at label [L] is numpy's Pearson coefficient of the NaN-free values
    [d[L..m-1]] against [d[0..m-L-1]]. *)
Theorem autocorr_pairs xs lag (L : nat) :
  let d := values (dropna (series_of_array xs)) in
  1 <= L < length d ->
  lookup (autocorr (StockAnalysis_init xs) lag) (Z.of_nat L)
  = Some (corrcoef (skipn L d) (firstn (length d - L) d)).
Proof. apply lookup_autocorr_pairs. Qed.

(** C6. Every lag [L] with [m <= L <= n-1] -- at or beyond the number [m]
    of non-NaN values, but within the pre-drop range the code iterates --
    is present in the result with value NaN. *)
Theorem autocorr_nan_beyond_dropped xs lag (L : nat) :
  length (values (dropna (series_of_array xs))) <= L < length xs ->
  1 <= L ->
  lookup (autocorr (StockAnalysis_init xs) lag) (Z.of_nat L) = Some nan.
Proof.
  intros HL H1; rewrite lookup_autocorr; cbn [data StockAnalysis_init].
  rewrite length_series_of_array.
  destruct (Z.leb_spec 1 (Z.of_nat L)), (Z.ltb_spec (Z.of_nat L) (Z.of_nat (length xs)));
    simpl; try lia.
  f_equal; apply series_autocorr_beyond; lia.
Qed.

End Autocorr.

(** ** Witnesses *)

Lemma autocorr_pairs_witness :
  let d := values (dropna (series_of_array [2; 1; 3; 4; 7; 6; 5]%float)) in
  1 <= 1 < length d /\
  lookup (autocorr (StockAnalysis_init [2; 1; 3; 4; 7; 6; 5]%float) 1) (Z.of_nat 1)
  = Some (corrcoef (skipn 1 d) (firstn (length d - 1) d)).
Proof.
  intros d; split; [vm_compute; lia|].
  apply (autocorr_pairs [2; 1; 3; 4; 7; 6; 5]%float 1 1); vm_compute; lia.
Defined.

(** With one NaN among four values, [m = 3]: label 3 is reported, as NaN. *)
Lemma autocorr_nan_beyond_dropped_witness :
  length (values (dropna (series_of_array [1; nan; 2; 3]%float))) <= 3 < length [1; nan; 2; 3]%float /\
  1 <= 3 /\
  lookup (autocorr (StockAnalysis_init [1; nan; 2; 3]%float) 1) (Z.of_nat 3) = Some nan.
Proof.
  split; [vm_compute; lia | split; [lia|]].
  apply (autocorr_nan_beyond_dropped [1; nan; 2; 3]%float 1 3); vm_compute; lia.
Defined.

Lemma autocorr_labels_witness :
  index (autocorr (StockAnalysis_init [2; 1; 3; 4; 7; 6; 5]%float) 1) = zrange 1 7.
Proof. apply (autocorr_labels [2; 1; 3; 4; 7; 6; 5]%float 1). Defined.

Lemma autocorr_ignores_lag_witness :
  autocorr (StockAnalysis_init [2; 1; 3; 4; 7; 6; 5]%float) 1
  = autocorr (StockAnalysis_init [2; 1; 3; 4; 7; 6; 5]%float) 5.
Proof. apply autocorr_ignores_lag. Defined.
