(* ===== verification/ExactReal.v ===== *)
(** * ExactReal: the statistics in exact real arithmetic

    The instance of [Prelude.Num] on real numbers extended with one NaN:
    the four operations of [R], division by zero and the square root of a
    negative number giving NaN, NaN absorbing, and the strict order of [R]
    (false against NaN).  On the inputs the program meets it agrees with
    binary64 up to rounding: where IEEE would produce an infinity (a
    non-zero number divided by zero) the program's formulas only ever
    divide zero by zero, which is NaN in both.

    The theorems here are the numeric facts that rounding would spoil: the
    differences of [diff] add back up to the series; the last lag of
    [autocorr] correlates a single pair and is NaN; and pandas' running
    kernel [OnlineMean.roll_mean] computes exactly the mean of each window.
    The last group proves that kernel against the abstract windowed mean
    [window_obs_mean] through the invariant [exact_inv], and from it, for
    [moving_average] itself, that it returns the windowed mean of the
    non-NaN prices (a refinement), that it equals the textbook
    [Rolling.rolling_mean], that a complete window gives its sum over [w],
    and that each value lies within the bounds of its window's prices. *)

From Stdlib Require Import String.
From Stdlib Require Import ZArith Reals Lra List Bool Lia.
From S2P Require Import Prelude Series Diff Autocorr OnlineMean Rolling.
Import ListNotations.

Inductive xreal :=
| Fin (r : R)
| NaN.

Definition xr_lift2 (f : R -> R -> R) (a b : xreal) : xreal :=
  match a, b with Fin x, Fin y => Fin (f x y) | _, _ => NaN end.

Definition xr_div (a b : xreal) : xreal :=
  match a, b with
  | Fin x, Fin y => if Req_EM_T y 0 then NaN else Fin (x / y)
  | _, _ => NaN
  end.

Definition xr_sqrt (a : xreal) : xreal :=
  match a with
  | Fin x => if Rlt_dec x 0 then NaN else Fin (sqrt x)
  | NaN => NaN
  end.

Definition xr_lt (a b : xreal) : bool :=
  match a, b with
  | Fin x, Fin y => if Rlt_dec x y then true else false
  | _, _ => false
  end.

(** Python's [int(x)]: truncation toward zero. *)
Definition xr_to_int (a : xreal) : result Z :=
  match a with
  | Fin x => Ok (if Rle_dec 0 x then Int_part x else (- Int_part (- x))%Z)
  | NaN => Err (ValueError "cannot convert float NaN to integer")
  end.

#[export] Instance Num_xreal : Num xreal := {
  nan := NaN;
  is_nan := fun a => match a with NaN => true | Fin _ => false end;
  fadd := xr_lift2 Rplus;
  fsub := xr_lift2 Rminus;
  fmul := xr_lift2 Rmult;
  fdiv := xr_div;
  fopp := fun a => match a with Fin x => Fin (- x) | NaN => NaN end;
  fsqrt := xr_sqrt;
  flt := xr_lt;
  signbit := fun a => xr_lt a (Fin 0);
  of_Z := fun z => Fin (IZR z);
  to_int := xr_to_int
}.

#[export] Instance NumLaws_xreal : NumLaws xreal.
Proof.
  constructor; simpl.
  - intros [x|]; split; congruence.
  - reflexivity.
  - intros [x|]; reflexivity.
  - intros [x|] [y|]; simpl; try discriminate.
    destruct (Rlt_dec x y), (Rlt_dec y x); auto; lra.
  - reflexivity.
  - intros [x|]; reflexivity.
  - reflexivity.
  - intros [x|]; reflexivity.
  - reflexivity.
  - reflexivity.
Qed.

(** ** Lemmas *)

Local Open Scope R_scope.

(** A series of real prices, as the exact instance sees it. *)
Definition prices (rs : list R) : list xreal := map Fin rs.

Lemma fsum_fin_acc (rs : list R) (acc : R) :
  fold_left fadd (map Fin rs) (Fin acc) = Fin (fold_left Rplus rs acc).
Proof. revert acc; induction rs as [|r rs IH]; intros acc; simpl; auto. Qed.

Lemma fold_left_Rplus_acc (rs : list R) (acc : R) :
  fold_left Rplus rs acc = (acc + fold_left Rplus rs 0)%R.
Proof.
  revert acc; induction rs as [|r rs IH]; intros acc; simpl; [lra|].
  rewrite IH, (IH (0 + r)); lra.
Qed.

Lemma fold_left_Rplus_app (a b : list R) :
  fold_left Rplus (a ++ b) 0%R = (fold_left Rplus a 0 + fold_left Rplus b 0)%R.
Proof. rewrite fold_left_app, fold_left_Rplus_acc; reflexivity. Qed.

(** The first differences of a list of reals, as [diff_from] computes them. *)
Lemma diff_from_fin (p : R) (rs : list R) :
  diff_from (Fin p) (map Fin rs)
  = map Fin (map (fun '(x, y) => (x - y)%R) (combine rs (p :: rs))).
Proof.
  revert p; induction rs as [|r rs IH]; intros p; simpl; auto.
  f_equal; apply IH.
Qed.

(** Telescoping: the first [i] differences after [p] add up to [r_i - p]. *)
Lemma sum_diffs (p : R) (rs : list R) i :
  (i <= length rs)%nat ->
  fold_left Rplus (firstn i (map (fun '(x, y) => (x - y)%R) (combine rs (p :: rs)))) 0%R
  = (nth i (p :: rs) 0 - p)%R.
Proof.
  revert p i; induction rs as [|r rs IH]; intros p [|i] Hi; simpl in *; try lia; try lra.
  rewrite fold_left_Rplus_acc, IH by lia.
  destruct i; simpl; lra.
Qed.

Lemma xr_div_fin x y : y <> 0 -> xr_div (Fin x) (Fin y) = Fin (x / y).
Proof. intros Hy; unfold xr_div; now destruct (Req_EM_T y 0). Qed.

Lemma xr_lift2_nan_r f d : xr_lift2 f d NaN = NaN.
Proof. now destruct d. Qed.

Lemma xr_div_nan_l d : xr_div NaN d = NaN.
Proof. reflexivity. Qed.

Lemma np_clip_nan lo hi : np_clip NaN lo hi = NaN.
Proof. unfold np_clip; simpl; now destruct hi. Qed.

(** numpy's correlation of a single pair: the covariance is scaled by
    [1 / (N - 1) = 1 / 0], so every entry of the matrix is NaN. *)
Lemma corrcoef_single (a b : list xreal) :
  length a = 1%nat -> corrcoef a b = NaN.
Proof.
  destruct a as [|x [|]]; simpl; try discriminate; intros _.
  unfold corrcoef; cbn - [IZR].
  destruct (Req_EM_T (IZR 0) 0) as [_|Hne]; [|exfalso; apply Hne; reflexivity].
  now rewrite !xr_lift2_nan_r, !xr_div_nan_l, np_clip_nan.
Qed.

Lemma skipn_last_one {A} (l : list A) :
  (1 <= length l)%nat -> length (skipn (length l - 1) l) = 1%nat.
Proof. intros Hl; rewrite length_skipn; lia. Qed.

(** ** Theorems *)

(** C14. Round trip of [diff]: on a series of real numbers, adding up the
    first [i] differences after position 0 gives back [x_i - x_0]. *)
Theorem diff_cumsum xs i :
  (i < length xs)%nat ->
  fsum (firstn i (tl (values (diff (StockAnalysis_init (prices xs))))))
  = Fin (nth i xs 0 - nth 0 xs 0).
Proof.
  intros Hi; unfold prices; rewrite diff_init, values_series_of_array.
  destruct xs as [|x0 rs]; simpl in Hi; [lia|].
  simpl; rewrite diff_from_fin, firstn_map; unfold fsum; simpl.
  rewrite fsum_fin_acc, sum_diffs by lia; reflexivity.
Qed.

(** Witness of C14 at the test series. *)
Lemma diff_cumsum_witness :
  (3 < length [2; 1; 3; 4; 7; 6; 5])%nat /\
  fsum (firstn 3 (tl (values (diff (StockAnalysis_init (prices [2; 1; 3; 4; 7; 6; 5])))))) = Fin (4 - 2).
Proof.
  split; [simpl; lia|].
  apply (diff_cumsum [2; 1; 3; 4; 7; 6; 5] 3); simpl; lia.
Defined.

(** C7. The last lag of [autocorr] that still has a pair, [m - 1] for [m]
    non-NaN values, correlates a single pair and is NaN. *)
Theorem autocorr_last_lag_nan (xs : list xreal) lag :
  let m := length (values (dropna (series_of_array xs))) in
  (2 <= m)%nat ->
  lookup (autocorr (StockAnalysis_init xs) lag) (Z.of_nat (m - 1)) = Some NaN.
Proof.
  intros m Hm; unfold m in *.
  rewrite lookup_autocorr_pairs by lia; f_equal.
  apply corrcoef_single, skipn_last_one; lia.
Qed.

(** Witness of C7: a series of four values, one of them NaN. *)
Lemma autocorr_last_lag_nan_witness :
  (2 <= length (values (dropna (series_of_array [Fin 1; Fin 2; NaN; Fin 4]))))%nat /\
  lookup (autocorr (StockAnalysis_init [Fin 1; Fin 2; NaN; Fin 4]) 1)
    (Z.of_nat (length (values (dropna (series_of_array [Fin 1; Fin 2; NaN; Fin 4]))) - 1))
  = Some NaN.
Proof.
  split; [simpl; lia|].
  apply (autocorr_last_lag_nan [Fin 1; Fin 2; NaN; Fin 4] 1); simpl; lia.
Defined.

(** * pandas' [roll_mean] in exact arithmetic

    Over exact reals the state of pandas' kernel [OnlineMean.roll_mean] is
    a summary of its window: [nobs] the number of non-NaN values, [sum_x]
    their sum (both Kahan compensations stay 0), [neg_ct] the number of
    negative ones, and the trailing run of [num_consecutive_same_value]
    values equal to [prev_value] in the stream added since the last setup.
    [exact_inv] states this; the simulation principle of [OnlineMean] lifts
    it to every output; and [calc_mean] then returns the plain mean of the
    window's values, since its special cases for runs of equal values and
    for signs return that same mean. *)

Local Close Scope R_scope.

(** ** The abstract windowed mean *)

(** The real values of the non-NaN entries of [values[s:e]]. *)
Definition obs (xs : list xreal) (s e : nat) : list R :=
  flat_map (fun j => match nth j xs NaN with Fin r => [r] | NaN => [] end) (seq s (e - s)).

Definition sumR (rs : list R) : R := fold_right Rplus 0%R rs.

Definition negs (rs : list R) : nat :=
  length (filter (fun r => if Rlt_dec r 0 then true else false) rs).

(** The mean of the observations of a window, NaN with fewer than [minp]
    or no observation. *)
Definition window_obs_mean (minp : Z) (rs : list R) : xreal :=
  if (minp <=? Z.of_nat (length rs))%Z && (0 <? Z.of_nat (length rs))%Z
  then Fin (sumR rs / IZR (Z.of_nat (length rs)))
  else NaN.

(** [exact_inv s e st]: [st] summarises the window [[s, e)], and the
    stream added since the setup at [s0 <= s] ends with
    [num_consecutive_same_value] copies of [prev_value]. *)
Definition exact_inv (xs : list xreal) (s e : nat) (st : mean_state) : Prop :=
  exists s0, s0 <= s <= e /\
    nobs st = Z.of_nat (length (obs xs s e)) /\
    sum_x st = Fin (sumR (obs xs s e)) /\
    neg_ct st = Z.of_nat (negs (obs xs s e)) /\
    compensation_add st = Fin 0 /\ compensation_remove st = Fin 0 /\
    (0 <= num_consecutive_same_value st)%Z /\
    Z.to_nat (num_consecutive_same_value st) <= length (obs xs s0 e) /\
    (forall j, length (obs xs s0 e) - Z.to_nat (num_consecutive_same_value st) <= j
               < length (obs xs s0 e) ->
               Fin (nth j (obs xs s0 e) 0%R) = prev_value st).

(** ** Lemmas on windows of observations *)

Definition cell (xs : list xreal) (j : nat) : list R :=
  match nth j xs NaN with Fin r => [r] | NaN => [] end.

Lemma obs_empty xs s : obs xs s s = [].
Proof. unfold obs; now rewrite Nat.sub_diag. Qed.

Lemma obs_snoc xs s e : s <= e -> obs xs s (S e) = obs xs s e ++ cell xs e.
Proof.
  intros Hse; unfold obs; replace (S e - s) with (S (e - s)) by lia.
  rewrite seq_S, flat_map_app; simpl; rewrite app_nil_r.
  now replace (s + (e - s)) with e by lia.
Qed.

Lemma obs_split xs a b c : a <= b <= c -> obs xs a c = obs xs a b ++ obs xs b c.
Proof.
  intros Habc; unfold obs; replace (c - a) with ((b - a) + (c - b)) by lia.
  rewrite seq_app, flat_map_app; now replace (a + (b - a)) with b by lia.
Qed.

Lemma obs_cons xs s e : s < e -> obs xs s e = cell xs s ++ obs xs (S s) e.
Proof.
  intros Hse; rewrite (obs_split xs s (S s) e) by lia.
  rewrite obs_snoc, obs_empty by lia; reflexivity.
Qed.

Lemma length_cell xs j : length (cell xs j) <= 1.
Proof. unfold cell; destruct (nth j xs NaN); simpl; lia. Qed.

Lemma length_obs xs s e : length (obs xs s e) <= e - s.
Proof.
  induction e as [|e IH]; [unfold obs; simpl; lia|].
  destruct (Nat.le_gt_cases s e) as [Hse|Hse].
  - rewrite obs_snoc, length_app by exact Hse; pose proof (length_cell xs e); lia.
  - replace (S e - s) with 0 by lia; unfold obs; now replace (S e - s) with 0 by lia.
Qed.

(** Every observation comes from a position of the window. *)
Lemma in_obs xs s e r : In r (obs xs s e) -> exists j, s <= j < e /\ nth j xs NaN = Fin r.
Proof.
  unfold obs; intros [j [Hj Hr]]%in_flat_map; apply in_seq in Hj.
  exists j; split; [lia|]; destruct (nth j xs NaN); simpl in Hr; [|tauto].
  now destruct Hr as [->|[]].
Qed.

(** A window without NaN observes every value. *)
Lemma obs_no_nan xs s e :
  (forall j, s <= j < e -> is_nan (nth j xs NaN) = false) ->
  map Fin (obs xs s e) = map (fun j => nth j xs NaN) (seq s (e - s)).
Proof.
  induction e as [|e IH]; intros Hn; [unfold obs; reflexivity|].
  destruct (Nat.le_gt_cases s e) as [Hse|Hse].
  - rewrite obs_snoc, map_app, IH by (auto || (intros j Hj; apply Hn; lia)).
    replace (S e - s) with (S (e - s)) by lia; rewrite seq_S, map_app.
    replace (s + (e - s)) with e by lia; f_equal; unfold cell.
    specialize (Hn e ltac:(lia)); simpl; destruct (nth e xs NaN); [reflexivity|discriminate].
  - unfold obs; now replace (S e - s) with 0 by lia.
Qed.

(** A NaN in the window leaves out one observation. *)
Lemma length_obs_nan xs s e j :
  s <= j < e -> nth j xs NaN = NaN -> length (obs xs s e) < e - s.
Proof.
  intros Hj Hn; rewrite (obs_split xs s j e), (obs_cons xs j e) by lia.
  unfold cell at 1; rewrite Hn, !length_app; simpl.
  pose proof (length_obs xs s j); pose proof (length_obs xs (S j) e); lia.
Qed.

Lemma sumR_app a b : sumR (a ++ b) = (sumR a + sumR b)%R.
Proof. induction a as [|x a IH]; simpl; [lra | rewrite IH; lra]. Qed.

Lemma fold_left_Rplus_sumR rs : fold_left Rplus rs 0%R = sumR rs.
Proof.
  induction rs as [|r rs IH] using rev_ind; simpl; [reflexivity|].
  rewrite fold_left_app, sumR_app, IH; simpl; lra.
Qed.

Lemma negs_app a b : negs (a ++ b) = negs a + negs b.
Proof. unfold negs; now rewrite filter_app, length_app. Qed.

#[export] Hint Rewrite obs_empty sumR_app negs_app length_app : stats.

(** ** The kernel's steps preserve the exact summary *)

Lemma feq_fin_true r v : feq (Fin r) v = true -> v = Fin r.
Proof.
  unfold feq; destruct v as [p|]; simpl; [|discriminate].
  destruct (Rlt_dec r p), (Rlt_dec p r); simpl; try discriminate.
  intros _; f_equal; lra.
Qed.

Lemma negs_single r : negs [r] = if Rlt_dec r 0 then 1 else 0.
Proof. unfold negs; simpl; now destruct (Rlt_dec r 0). Qed.

Lemma exact_inv_add xs s e st :
  exact_inv xs s e st -> exact_inv xs s (S e) (add_mean (nth e xs NaN) st).
Proof.
  intros (s0 & Hs & Hn & Hsum & Hneg & Hca & Hcr & Hc0 & Hcl & Hrun).
  exists s0; rewrite !obs_snoc by lia; unfold cell.
  destruct (nth e xs NaN) as [r|]; cbn [add_mean is_nan Num_xreal negb]; rewrite ?app_nil_r;
    [|repeat split; auto; lia].
  cbn [nobs sum_x neg_ct compensation_add compensation_remove
       num_consecutive_same_value prev_value].
  rewrite Hsum, Hca, sumR_app, negs_app, negs_single, length_app; simpl.
  split; [lia|]; split; [lia|]; split; [f_equal; lra|].
  split; [destruct (Rlt_dec r 0); lia|]; split; [f_equal; lra|]; split; [exact Hcr|].
  set (L := obs xs s0 e) in *; rewrite !length_app; simpl length.
  destruct (feq (Fin r) (prev_value st)) eqn:Hfeq.
  - apply feq_fin_true in Hfeq; rewrite Hfeq in Hrun.
    split; [lia|]; split; [lia|]; intros j Hj.
    destruct (Nat.lt_ge_cases j (length L)).
    + rewrite app_nth1 by lia; apply Hrun; lia.
    + rewrite app_nth2 by lia; replace (j - length L) with 0 by lia; reflexivity.
  - split; [lia|]; split; [lia|]; intros j Hj.
    rewrite app_nth2 by lia; replace (j - length L) with 0 by lia; reflexivity.
Qed.

Lemma exact_inv_remove xs k e st :
  k < e -> exact_inv xs k e st -> exact_inv xs (S k) e (remove_mean (nth k xs NaN) st).
Proof.
  intros Hk (s0 & Hs & Hn & Hsum & Hneg & Hca & Hcr & Hc0 & Hcl & Hrun).
  exists s0; rewrite (obs_cons xs k e) in Hn, Hsum, Hneg by exact Hk; unfold cell in *.
  destruct (nth k xs NaN) as [r|]; cbn [remove_mean is_nan Num_xreal negb];
    [|repeat split; auto; lia].
  cbn [nobs sum_x neg_ct compensation_add compensation_remove
       num_consecutive_same_value prev_value].
  rewrite Hsum, Hcr; rewrite negs_app, negs_single in Hneg; simpl in Hn, Hneg |- *.
  split; [lia|]; split; [lia|]; split; [f_equal; lra|].
  split; [destruct (Rlt_dec r 0); lia|]; split; [exact Hca|]; split; [f_equal; lra|].
  auto.
Qed.

Lemma exact_inv_setup xs s : exact_inv xs s s (setup_state xs s).
Proof.
  exists s; rewrite !obs_empty; simpl.
  repeat split; try reflexivity; try lia.
Qed.

Lemma exact_inv_roll xs minp bs :
  valid_bounds xs bs -> simulated minp (exact_inv xs) bs (roll_mean xs bs minp).
Proof.
  apply roll_mean_sim.
  - intros s e Hse.
    apply (range_fold_ind add_mean xs s (fun k st => exact_inv xs s k st));
      [apply exact_inv_setup | | lia].
    intros k st _ Hst; now apply exact_inv_add.
  - intros s0 e0 s e st Hst Hs He.
    apply (range_fold_ind add_mean xs e0 (fun k st => exact_inv xs s k st)); [| |lia].
    + apply (range_fold_ind remove_mean xs s0 (fun k st => exact_inv xs k e0 st));
        [exact Hst | | lia].
      intros k st' Hk Hst'; apply exact_inv_remove; [lia|exact Hst'].
    + intros k st' _ Hst'; now apply exact_inv_add.
Qed.

(** ** [calc_mean] returns the mean of the window *)

Lemma negs_le rs : negs rs <= length rs.
Proof. apply filter_length_le. Qed.

Lemma sumR_nonneg rs : negs rs = 0 -> (0 <= sumR rs)%R.
Proof.
  induction rs as [|r rs IH]; simpl; [lra|]; unfold negs in *; simpl.
  destruct (Rlt_dec r 0); simpl; [discriminate|]; intros Hn; specialize (IH Hn); lra.
Qed.

Lemma sumR_neg rs : negs rs = length rs -> rs <> [] -> (sumR rs < 0)%R.
Proof.
  induction rs as [|r rs IH]; [congruence|]; intros Hn _; simpl.
  unfold negs in Hn; simpl in Hn; destruct (Rlt_dec r 0) as [Hr|Hr]; simpl in Hn.
  - assert (Hn' : negs rs = length rs) by (unfold negs; lia).
    destruct rs as [|r' rs]; [simpl; lra|].
    assert (sumR (r' :: rs) < 0)%R by (apply IH; [exact Hn' | discriminate]).
    simpl in *; lra.
  - pose proof (negs_le rs); unfold negs in *; lia.
Qed.

(** A list of [n] copies of [p] sums to [n p]. *)
Lemma sumR_const rs p : (forall k, k < length rs -> nth k rs 0%R = p) ->
  sumR rs = (IZR (Z.of_nat (length rs)) * p)%R.
Proof.
  induction rs as [|r rs IH]; intros Hk; [simpl; lra|].
  change (length (r :: rs)) with (S (length rs)); rewrite Nat2Z.inj_succ, succ_IZR.
  change (sumR (r :: rs)) with (r + sumR rs)%R.
  rewrite IH by (intros k Hlt; apply (Hk (S k)); simpl; lia).
  assert (Hr : r = p) by exact (Hk 0 ltac:(simpl; lia)).
  rewrite Hr; lra.
Qed.

Lemma IZR_length_pos (rs : list R) : (0 < Z.of_nat (length rs))%Z -> IZR (Z.of_nat (length rs)) <> 0%R.
Proof. intros Hl; apply not_0_IZR; lia. Qed.

(** The run of equal values covers the whole window: its mean is that
    value. *)
Lemma run_covers_window xs s0 s e c p :
  s0 <= s <= e -> (0 < Z.of_nat (length (obs xs s e)))%Z ->
  length (obs xs s e) <= c <= length (obs xs s0 e) ->
  (forall j, length (obs xs s0 e) - c <= j < length (obs xs s0 e) ->
             Fin (nth j (obs xs s0 e) 0%R) = p) ->
  p = Fin (sumR (obs xs s e) / IZR (Z.of_nat (length (obs xs s e)))).
Proof.
  intros Hs Hpos Hc Hrun; rewrite (obs_split xs s0 s e) in Hc, Hrun by lia.
  set (A := obs xs s0 s) in *; set (W := obs xs s e) in *.
  rewrite length_app in Hc, Hrun.
  assert (Hall : forall k, k < length W -> Fin (nth k W 0%R) = p).
  { intros k Hk; rewrite <- (Hrun (length A + k)) by lia.
    now rewrite app_nth2, Nat.add_comm, Nat.add_sub by lia. }
  assert (Hk0 : forall k, k < length W -> nth k W 0%R = nth 0 W 0%R).
  { intros k Hk.
    assert (Heq : Fin (nth k W 0%R) = Fin (nth 0 W 0%R))
      by (rewrite (Hall k Hk), (Hall 0); [reflexivity|lia]).
    now injection Heq. }
  rewrite <- (Hall 0) by lia; f_equal.
  rewrite (sumR_const W (nth 0 W 0%R) Hk0); field; apply IZR_length_pos; exact Hpos.
Qed.

Lemma calc_mean_exact xs s e st minp :
  exact_inv xs s e st -> calc_mean minp st = window_obs_mean minp (obs xs s e).
Proof.
  intros (s0 & Hs & Hn & Hsum & Hneg & Hca & Hcr & Hc0 & Hcl & Hrun).
  unfold calc_mean, window_obs_mean; rewrite Hn.
  destruct ((minp <=? _)%Z && (0 <? _)%Z) eqn:G; [|reflexivity].
  apply andb_true_iff in G as [_ G%Z.ltb_lt].
  destruct (Z.leb_spec (Z.of_nat (length (obs xs s e))) (num_consecutive_same_value st)).
  - apply (run_covers_window xs s0 s e (Z.to_nat (num_consecutive_same_value st))); auto; lia.
  - rewrite Hsum, Hneg; cbn [fdiv of_Z flt Num_xreal]; rewrite xr_div_fin by now apply IZR_length_pos.
    set (W := obs xs s e) in *; set (m := (sumR W / IZR (Z.of_nat (length W)))%R).
    assert (HW : W <> []) by (intros HW; rewrite HW in G; simpl in G; lia).
    assert (Hlen : (0 < IZR (Z.of_nat (length W)))%R) by (apply IZR_lt; lia).
    destruct (Z.eqb_spec (Z.of_nat (negs W)) 0) as [Hz|_]; cbn [andb].
    + assert (0 <= m)%R.
      { unfold m, Rdiv; apply Rmult_le_pos; [apply sumR_nonneg; lia|].
        apply Rlt_le, Rinv_0_lt_compat, Hlen. }
      unfold xr_lt; destruct (Rlt_dec m (IZR 0)); [lra|]; cbn [andb].
      destruct (Z.eqb_spec (Z.of_nat (negs W)) (Z.of_nat (length W))); cbn [andb]; [|reflexivity].
      destruct (Rlt_dec (IZR 0) m); [|reflexivity].
      exfalso; clear -G Hz e0; lia.
    + destruct (Z.eqb_spec (Z.of_nat (negs W)) (Z.of_nat (length W))) as [Ha|_]; cbn [andb];
        [|reflexivity].
      assert (m < 0)%R.
      { pose proof (sumR_neg W ltac:(lia) HW); pose proof (Rinv_0_lt_compat _ Hlen).
        unfold m, Rdiv; nra. }
      unfold xr_lt; destruct (Rlt_dec (IZR 0) m); [lra|reflexivity].
Qed.

Lemma simulated_map (minp : Z) xs bs out (f : nat * nat -> xreal) :
  simulated minp (exact_inv xs) bs out ->
  (forall b, f b = window_obs_mean minp (obs xs (fst b) (snd b))) ->
  out = map f bs.
Proof.
  intros Hsim Hf; induction Hsim as [|b y bs out [st [Hst ->]] _ IH]; [reflexivity|].
  simpl; rewrite IH, Hf, (calc_mean_exact xs _ _ st minp Hst); reflexivity.
Qed.

(** pandas' window at position [i] for [min_periods = window] matches the
    reference [window_mean]. *)
Lemma window_obs_mean_ref w xs i :
  i < length xs ->
  window_obs_mean (Z.of_nat w)
    (obs xs (fst (if w =? 0 then (i, i) else (i + 1 - w, i + 1)))
            (snd (if w =? 0 then (i, i) else (i + 1 - w, i + 1))))
  = window_mean w xs i.
Proof.
  intros Hi; unfold window_mean.
  destruct (Nat.eqb_spec w 0) as [->|Hw]; simpl fst; simpl snd.
  - rewrite obs_empty; reflexivity.
  - destruct (Nat.ltb_spec (i + 1) w) as [Hlt|Hge]; cbn [orb].
    + unfold window_obs_mean; pose proof (length_obs xs (i + 1 - w) (i + 1)).
      destruct (Z.leb_spec (Z.of_nat w) (Z.of_nat (length (obs xs (i + 1 - w) (i + 1))))); [lia|].
      reflexivity.
    + rewrite window_by_index by lia; cbv zeta.
      destruct (existsb is_nan _) eqn:Ex.
      * apply existsb_exists in Ex as [y [Hy Hny]]; apply in_map_iff in Hy as [j [<- Hj]].
        apply in_seq in Hj; apply is_nan_iff in Hny.
        pose proof (length_obs_nan xs (i + 1 - w) (i + 1) j ltac:(lia) Hny).
        unfold window_obs_mean.
        destruct (Z.leb_spec (Z.of_nat w) (Z.of_nat (length (obs xs (i + 1 - w) (i + 1))))); [lia|].
        reflexivity.
      * assert (Hno : forall j, i + 1 - w <= j < i + 1 -> is_nan (nth j xs NaN) = false).
        { intros j Hj; destruct (is_nan (nth j xs NaN)) eqn:Hj'; [|reflexivity].
          exfalso; apply not_true_iff_false in Ex; apply Ex, existsb_exists.
          exists (nth j xs nan); split; [apply (in_map (fun j => nth j xs nan)), in_seq; lia|exact Hj']. }
        pose proof (obs_no_nan xs (i + 1 - w) (i + 1) Hno) as Hobs.
        replace (i + 1 - (i + 1 - w)) with w in Hobs by lia.
        assert (Hl : length (obs xs (i + 1 - w) (i + 1)) = w)
          by (apply (f_equal (@length xreal)) in Hobs; now rewrite !length_map, length_seq in Hobs).
        change (@nan xreal Num_xreal) with NaN; rewrite <- Hobs; unfold fsum; cbn [of_Z Num_xreal].
        rewrite fsum_fin_acc, fold_left_Rplus_acc, fold_left_Rplus_sumR; cbn [fdiv Num_xreal].
        rewrite xr_div_fin by (apply not_0_IZR; lia).
        unfold window_obs_mean; rewrite Hl.
        destruct (Z.leb_spec (Z.of_nat w) (Z.of_nat w)); [|lia].
        destruct (Z.ltb_spec 0 (Z.of_nat w)); [|lia]; simpl; f_equal; lra.
Qed.

Lemma roll_mean_obs xs bs minp :
  valid_bounds xs bs ->
  roll_mean xs bs minp = map (fun b => window_obs_mean minp (obs xs (fst b) (snd b))) bs.
Proof. intros Hv; exact (simulated_map minp xs bs _ _ (exact_inv_roll xs minp bs Hv) (fun _ => eq_refl)). Qed.

Lemma rolling_mean_pandas_ref w xs : rolling_mean_pandas w xs = rolling_mean w xs.
Proof.
  unfold rolling_mean_pandas; rewrite roll_mean_obs by apply fixed_window_bounds_valid.
  unfold fixed_window_bounds, rolling_mean; rewrite map_map.
  apply map_ext_in; intros i Hi%in_seq; apply window_obs_mean_ref; lia.
Qed.

(** Bounds on the values bound their mean. *)
Lemma sumR_bounds rs lo hi :
  Forall (fun r => lo <= r <= hi)%R rs ->
  (IZR (Z.of_nat (length rs)) * lo <= sumR rs <= IZR (Z.of_nat (length rs)) * hi)%R.
Proof.
  induction 1 as [|r rs Hr _ IH]; [simpl; lra|].
  change (length (r :: rs)) with (S (length rs)); rewrite Nat2Z.inj_succ, succ_IZR.
  change (sumR (r :: rs)) with (r + sumR rs)%R; lra.
Qed.

Lemma mean_bounds rs lo hi :
  Forall (fun r => lo <= r <= hi)%R rs -> (0 < Z.of_nat (length rs))%Z ->
  (lo <= sumR rs / IZR (Z.of_nat (length rs)) <= hi)%R.
Proof.
  intros Hb Hl; pose proof (sumR_bounds rs lo hi Hb) as [H1 H2].
  assert (HL : (0 < IZR (Z.of_nat (length rs)))%R) by (apply IZR_lt; lia).
  set (L := IZR (Z.of_nat (length rs))) in *.
  split; [apply Rmult_le_reg_r with L | apply Rmult_le_reg_r with L]; auto;
    unfold Rdiv; rewrite Rmult_assoc, Rinv_l by lra; lra.
Qed.

(** ** Theorems *)

(** The moving average in exact arithmetic, window by window: the mean
    of the non-NaN prices of [x[i-w+1..i]] (an empty window for [w = 0]). *)
Lemma moving_average_obs (xs : list xreal) w :
  moving_average (StockAnalysis_init xs) (Z.of_nat w)
  = Ok (series_of_array
          (map (fun i => window_obs_mean (Z.of_nat w) (obs xs (i + 1 - w) (i + 1)))
               (seq 0 (length xs)))).
Proof.
  rewrite moving_average_init, Nat2Z.id by lia; do 2 f_equal.
  unfold rolling_mean_pandas; rewrite roll_mean_obs by apply fixed_window_bounds_valid.
  unfold fixed_window_bounds; rewrite map_map; apply map_ext; intros i.
  destruct (Nat.eqb_spec w 0) as [->|]; cbn [fst snd]; [now rewrite Nat.sub_0_r, !obs_empty | reflexivity].
Qed.

Lemma moving_average_real (xs : list xreal) w s i m :
  moving_average (StockAnalysis_init xs) (Z.of_nat w) = Ok s ->
  lookup s (Z.of_nat i) = Some (Fin m) ->
  i < length xs /\ window_obs_mean (Z.of_nat w) (obs xs (i + 1 - w) (i + 1)) = Fin m.
Proof.
  rewrite moving_average_obs; intros Hs; injection Hs as <-.
  rewrite lookup_series_of_array_error, nth_error_map, nth_error_seq; intros Hm.
  destruct (Nat.ltb_spec i (length xs)); [|discriminate].
  split; [assumption | now injection Hm].
Qed.

(** C17. Equivalence: in exact arithmetic [moving_average], i.e. pandas'
    [rolling(w).mean()], is the textbook rolling mean
    [Rolling.rolling_mean] (the sum of the window over [w], NaN without a
    full NaN-free window). *)
Theorem moving_average_exact (xs : list xreal) w :
  moving_average (StockAnalysis_init xs) (Z.of_nat w)
  = Ok (series_of_array (rolling_mean w xs)).
Proof. rewrite moving_average_init, Nat2Z.id by lia; now rewrite rolling_mean_pandas_ref. Qed.

(** C8. Where the window [x[i-w+1..i]] is complete and holds no NaN, the
    moving average at label [i] is, in exact arithmetic, the sum of the
    window divided by [w]. *)
Theorem moving_average_window (xs : list xreal) w s i :
  moving_average (StockAnalysis_init xs) (Z.of_nat w) = Ok s ->
  0 < w -> w <= i + 1 -> i < length xs ->
  (forall j, i + 1 - w <= j <= i -> is_nan (nth j xs nan) = false) ->
  lookup s (Z.of_nat i)
  = Some (fdiv (fsum (map (fun j => nth j xs nan) (seq (i + 1 - w) w))) (of_Z (Z.of_nat w))).
Proof.
  intros Hs Hw0 Hw Hi Hn; rewrite moving_average_init, Nat2Z.id in Hs by lia.
  injection Hs as <-; rewrite lookup_series_of_array by (now rewrite length_rolling_mean_pandas).
  f_equal; rewrite rolling_mean_pandas_ref; now apply rolling_mean_window_ref.
Qed.

(** C21. Bounds: every value of the moving average lies within any bounds
    that hold for the prices of its window. *)
Theorem moving_average_bounds (xs : list xreal) w s i m lo hi :
  moving_average (StockAnalysis_init xs) (Z.of_nat w) = Ok s ->
  lookup s (Z.of_nat i) = Some (Fin m) ->
  (forall j x, i + 1 - w <= j <= i -> nth j xs NaN = Fin x -> (lo <= x <= hi)%R) ->
  (lo <= m <= hi)%R.
Proof.
  intros Hs Hm Hb; destruct (moving_average_real xs w s i m Hs Hm) as [Hi Hw].
  unfold window_obs_mean in Hw.
  destruct (_ && _)%bool eqn:G; [|discriminate]; injection Hw as <-.
  apply andb_true_iff in G as [_ G%Z.ltb_lt]; apply mean_bounds; [|exact G].
  apply Forall_forall; intros r Hr; apply in_obs in Hr as [j [Hj Hx]].
  exact (Hb j r ltac:(lia) Hx).
Qed.

(** ** Witnesses, on the test series [2, 1, 3, 4, 7, 6, 5] as reals *)

Definition test_prices : list xreal := prices [2; 1; 3; 4; 7; 6; 5]%R.

(** Witness of C8: the window [x[1..3]] with [w = 3]. *)
Lemma moving_average_window_witness :
  moving_average (StockAnalysis_init test_prices) (Z.of_nat 3)
  = Ok (series_of_array (rolling_mean_pandas 3 test_prices)) /\
  (forall j, 3 + 1 - 3 <= j <= 3 -> is_nan (nth j test_prices nan) = false) /\
  lookup (series_of_array (rolling_mean_pandas 3 test_prices)) (Z.of_nat 3)
  = Some (fdiv (fsum (map (fun j => nth j test_prices nan) (seq (3 + 1 - 3) 3)))
               (of_Z (Z.of_nat 3))).
Proof.
  assert (Hj : forall j, 3 + 1 - 3 <= j <= 3 -> is_nan (nth j test_prices nan) = false).
  { intros j Hj; destruct j as [|[|[|[|j]]]]; try lia; reflexivity. }
  assert (Hs : moving_average (StockAnalysis_init test_prices) (Z.of_nat 3)
               = Ok (series_of_array (rolling_mean_pandas 3 test_prices)))
    by (apply moving_average_init; lia).
  split; [exact Hs | split; [exact Hj|]].
  apply (moving_average_window test_prices 3 _ 3 Hs); [lia | lia | simpl; lia | exact Hj].
Defined.

(** Witness of C21: the mean of [x[1..3] = 1, 3, 4] lies in [[1, 4]]. *)
Lemma moving_average_bounds_witness :
  moving_average (StockAnalysis_init test_prices) (Z.of_nat 3)
  = Ok (series_of_array (rolling_mean 3 test_prices)) /\
  lookup (series_of_array (rolling_mean 3 test_prices)) (Z.of_nat 3) = Some (Fin ((1 + 3 + 4) / 3)) /\
  (1 <= (1 + 3 + 4) / 3 <= 4)%R.
Proof.
  assert (Hs : moving_average (StockAnalysis_init test_prices) (Z.of_nat 3)
               = Ok (series_of_array (rolling_mean 3 test_prices)))
    by (rewrite moving_average_init by lia; now rewrite rolling_mean_pandas_ref).
  assert (Hm : lookup (series_of_array (rolling_mean 3 test_prices)) (Z.of_nat 3)
               = Some (Fin ((1 + 3 + 4) / 3))).
  { rewrite lookup_series_of_array by (simpl; lia); unfold rolling_mean; cbn - [IZR Rplus Rdiv].
    unfold window_mean; cbn - [IZR Rplus Rdiv].
    destruct (Req_EM_T _ _) as [Hz|_]; [exfalso; lra|]; do 2 f_equal; lra. }
  split; [exact Hs | split; [exact Hm|]].
  apply (moving_average_bounds test_prices 3 _ 3 _ 1 4 Hs Hm).
  intros j x Hj Hx; destruct j as [|[|[|[|j]]]]; try lia;
    cbn in Hx; injection Hx as <-; lra.
Defined.
