(* ===== verification/Correlation.v ===== *)
(** * Correlation: numpy's [corrcoef] and [autocorr] in exact arithmetic

    [autocorr] hands each lag's NaN-free pairs to [np.corrcoef] (see
    [Autocorr]).  Over exact reals with NaN ([ExactReal]), for [n >= 2]
    pairs, [corrcoef] evaluates to the closed form [corr_form] of the three
    centred sums of products and [1 / (n - 1)].  From it:

    - [corrcoef] is the textbook Pearson coefficient [pearson] when both
      rows vary, and numpy's clip to [[-1, 1]] never acts (Cauchy-Schwarz),
      so on prices without NaN [autocorr] reports Pearson's coefficient of
      each lag's pairs;
    - the autocorrelation is unchanged when every price goes through the
      same affine map [x -> a x + b] with [a <> 0], a change of currency or
      of origin. *)

From Stdlib Require Import ZArith List Bool Lia Reals Lra.
From S2P Require Import Prelude Series Autocorr ExactReal.
Import ListNotations.

(** ** The textbook definitions *)

Definition meanR (xs : list R) : R := sumR xs / IZR (Z.of_nat (length xs)).

Definition centered (xs : list R) : list R := map (fun x => x - meanR xs)%R xs.

Definition dotR (xs ys : list R) : R := sumR (zip_with Rmult xs ys).

(** Pearson's correlation coefficient of two samples. *)
Definition pearson (xs ys : list R) : R :=
  dotR (centered xs) (centered ys)
  / (sqrt (dotR (centered xs) (centered xs)) * sqrt (dotR (centered ys) (centered ys))).

(** The same affine map applied to every price; NaN stays NaN. *)
Definition xr_affine (a b : R) (v : xreal) : xreal :=
  match v with Fin x => Fin (a * x + b) | NaN => NaN end.

(** [np.corrcoef] once the sums are known: [c01 / sqrt c00 / sqrt c11],
    each [c] a sum of centred products times [k = 1 / (n - 1)], clipped. *)
Definition corr_form (sxy sxx syy k : R) : xreal :=
  np_clip (xr_div (xr_div (Fin (sxy * k)) (xr_sqrt (Fin (sxx * k)))) (xr_sqrt (Fin (syy * k))))
          (of_Z (-1)) (of_Z 1).

(** ** Lemmas: numpy's sums over real samples *)

Local Open Scope R_scope.

Lemma fsum_fin xs : fsum (map Fin xs) = Fin (sumR xs).
Proof. unfold fsum; cbn [of_Z Num_xreal]; now rewrite fsum_fin_acc, fold_left_Rplus_sumR. Qed.

Lemma zip_with_map {A B C D E} (f : C -> D -> E) (g : A -> C) (h : B -> D) a b :
  zip_with f (map g a) (map h b) = zip_with (fun x y => f (g x) (h y)) a b.
Proof. revert b; induction a as [|x a IH]; intros [|y b]; simpl; f_equal; auto. Qed.

Lemma zip_with_ext {A B C} (f g : A -> B -> C) a b :
  (forall x y, f x y = g x y) -> zip_with f a b = zip_with g a b.
Proof. intros Hfg; revert b; induction a as [|x a IH]; intros [|y b]; simpl; f_equal; auto. Qed.

Lemma np_mean_fin xs : (length xs > 0)%nat -> np_mean (map Fin xs) = Fin (meanR xs).
Proof.
  intros Hn; unfold np_mean, meanR; rewrite fsum_fin, length_map; cbn [fdiv of_Z Num_xreal].
  apply xr_div_fin, not_0_IZR; lia.
Qed.

Lemma np_dot_fin u v : np_dot (map Fin u) (map Fin v) = Fin (dotR u v).
Proof.
  unfold np_dot, dotR; rewrite zip_with_map.
  rewrite (zip_with_ext _ (fun x y => Fin (x * y))) by reflexivity.
  rewrite <- fsum_fin; f_equal; clear; revert v; induction u as [|x u IH]; intros [|y v];
    simpl; f_equal; auto.
Qed.

Lemma centered_fin xs : (length xs > 0)%nat ->
  map (fun x => fsub x (np_mean (map Fin xs))) (map Fin xs) = map Fin (centered xs).
Proof.
  intros Hn; rewrite np_mean_fin by exact Hn; unfold centered; rewrite !map_map; reflexivity.
Qed.

(** numpy's [corrcoef] of two real rows of [n >= 2] values. *)
Lemma corrcoef_fin xs ys :
  length xs = length ys -> (2 <= length xs)%nat ->
  corrcoef (map Fin xs) (map Fin ys)
  = corr_form (dotR (centered xs) (centered ys)) (dotR (centered xs) (centered xs))
              (dotR (centered ys) (centered ys)) (1 / IZR (Z.of_nat (length xs) - 1)).
Proof.
  intros Hl Hn; unfold corrcoef; cbv zeta.
  rewrite !centered_fin, !np_dot_fin, length_map by lia.
  rewrite Z.max_r by lia; cbn [fdiv fmul of_Z Num_xreal xr_lift2].
  rewrite xr_div_fin by (apply not_0_IZR; lia); reflexivity.
Qed.

Lemma length_centered xs : length (centered xs) = length xs.
Proof. apply length_map. Qed.

(** ** Cauchy-Schwarz *)

Lemma quad_form t u v :
  length u = length v ->
  sumR (zip_with (fun x y => (t * x - y) * (t * x - y)) u v)
  = t * t * dotR u u - 2 * t * dotR u v + dotR v v.
Proof.
  unfold dotR; revert v; induction u as [|x u IH]; intros [|y v] Hl; simpl in *;
    try discriminate; [ring|].
  rewrite IH by congruence; ring.
Qed.

Lemma sum_squares_nonneg t u v :
  0 <= sumR (zip_with (fun x y => (t * x - y) * (t * x - y)) u v).
Proof.
  unfold sumR; revert v; induction u as [|x u IH]; intros [|y v]; simpl; try lra.
  specialize (IH v); pose proof (Rle_0_sqr (t * x - y)); unfold Rsqr in *; lra.
Qed.

Lemma cauchy_schwarz u v :
  length u = length v -> 0 < dotR u u -> dotR u v * dotR u v <= dotR u u * dotR v v.
Proof.
  intros Hl Hu; set (t := dotR u v / dotR u u).
  pose proof (sum_squares_nonneg t u v) as Hq; rewrite quad_form in Hq by exact Hl.
  assert (Ht : t * t * dotR u u - 2 * t * dotR u v + dotR v v
               = dotR v v - dotR u v * dotR u v / dotR u u) by (unfold t; field; lra).
  rewrite Ht in Hq.
  assert (Hd : dotR u v * dotR u v = dotR u v * dotR u v / dotR u u * dotR u u)
    by (field; lra).
  assert (Hq' : dotR u v * dotR u v / dotR u u <= dotR v v) by lra.
  apply (Rmult_le_compat_r (dotR u u)) in Hq'; [|lra].
  rewrite Hd; nra.
Qed.

(** ** The closed form *)

Lemma np_clip_inside q : -1 <= q <= 1 -> np_clip (Fin q) (of_Z (-1)) (of_Z 1) = Fin q.
Proof.
  intros Hq; unfold np_clip; cbn [flt of_Z Num_xreal xr_lt].
  destruct (Rlt_dec q (IZR (-1))); [lra|]; destruct (Rlt_dec (IZR 1) q); [lra|]; reflexivity.
Qed.

(** With [k > 0] and both rows varying, the closed form is Pearson's
    ratio, already within [[-1, 1]]. *)
Lemma corr_form_pearson sxy sxx syy k :
  0 < k -> 0 < sxx -> 0 < syy -> sxy * sxy <= sxx * syy ->
  corr_form sxy sxx syy k = Fin (sxy / (sqrt sxx * sqrt syy)).
Proof.
  intros Hk Hx Hy Hcs; unfold corr_form, xr_sqrt.
  destruct (Rlt_dec (sxx * k) 0); [nra|]; destruct (Rlt_dec (syy * k) 0); [nra|].
  pose proof (sqrt_lt_R0 sxx Hx); pose proof (sqrt_lt_R0 syy Hy); pose proof (sqrt_lt_R0 k Hk).
  rewrite !sqrt_mult_alt by lra.
  rewrite xr_div_fin by nra; rewrite xr_div_fin by nra.
  assert (Hk2 : sqrt k * sqrt k = k) by (apply sqrt_sqrt; lra).
  replace (sxy * k / (sqrt sxx * sqrt k) / (sqrt syy * sqrt k))
    with (sxy / (sqrt sxx * sqrt syy)).
  2: { transitivity (sxy * (sqrt k * sqrt k) / (sqrt sxx * sqrt k) / (sqrt syy * sqrt k));
       [field; repeat split; lra | now rewrite Hk2]. }
  apply np_clip_inside.
  set (d := sqrt sxx * sqrt syy).
  assert (Hd : d * d = sxx * syy)
    by (unfold d; replace (sqrt sxx * sqrt syy * (sqrt sxx * sqrt syy))
                   with ((sqrt sxx * sqrt sxx) * (sqrt syy * sqrt syy)) by ring;
        rewrite !sqrt_sqrt by lra; reflexivity).
  assert (Hd0 : 0 < d) by (unfold d; nra).
  assert (Hs : - d <= sxy <= d) by nra.
  pose proof (Rinv_0_lt_compat d Hd0); assert (d * / d = 1) by (field; lra).
  unfold Rdiv; split; nra.
Qed.

Lemma xr_div_nan_r a : xr_div a NaN = NaN.
Proof. now destruct a. Qed.

(** Scaling every sum of products by [c > 0] leaves the result unchanged:
    the square roots scale by [sqrt c] and the ratio does not move. *)
Lemma corr_form_scale c sxy sxx syy k :
  0 < c -> corr_form (c * sxy) (c * sxx) (c * syy) k = corr_form sxy sxx syy k.
Proof.
  intros Hc; unfold corr_form.
  replace (c * sxy * k) with (c * (sxy * k)) by ring.
  replace (c * sxx * k) with (c * (sxx * k)) by ring.
  replace (c * syy * k) with (c * (syy * k)) by ring.
  generalize (sxy * k) (sxx * k) (syy * k); intros U V W.
  pose proof (sqrt_lt_R0 c Hc) as Hsc; unfold xr_sqrt.
  destruct (Rlt_dec (c * V) 0), (Rlt_dec V 0); try (exfalso; nra);
    [now rewrite !xr_div_nan_r, !xr_div_nan_l|].
  destruct (Rlt_dec (c * W) 0), (Rlt_dec W 0); try (exfalso; nra);
    [now rewrite !xr_div_nan_r|].
  rewrite !sqrt_mult_alt by lra; unfold xr_div.
  destruct (Req_EM_T (sqrt c * sqrt V) 0), (Req_EM_T (sqrt V) 0); try (exfalso; nra);
    [reflexivity|].
  destruct (Req_EM_T (sqrt c * sqrt W) 0), (Req_EM_T (sqrt W) 0); try (exfalso; nra);
    [reflexivity|].
  replace (c * U / (sqrt c * sqrt V) / (sqrt c * sqrt W)) with (U / sqrt V / sqrt W);
    [reflexivity|rewrite <- (sqrt_sqrt c) at 1 by lra; field; repeat split; lra].
Qed.

(** ** An affine change of the prices *)

Lemma sumR_affine a b xs :
  sumR (map (fun x => a * x + b) xs) = a * sumR xs + IZR (Z.of_nat (length xs)) * b.
Proof.
  induction xs as [|x xs IH]; [simpl; lra|].
  change (length (x :: xs)) with (S (length xs)); rewrite Nat2Z.inj_succ, succ_IZR.
  change (sumR (map (fun x => a * x + b) (x :: xs))) with (a * x + b + sumR (map (fun x => a * x + b) xs)).
  change (sumR (x :: xs)) with (x + sumR xs); rewrite IH; ring.
Qed.

Lemma centered_affine a b xs :
  centered (map (fun x => a * x + b) xs) = map (fun x => a * x) (centered xs).
Proof.
  destruct xs as [|x0 xs0] eqn:Hx; [reflexivity|]; rewrite <- Hx.
  assert (Hn : IZR (Z.of_nat (length xs)) <> 0) by (apply not_0_IZR; subst; simpl; lia).
  unfold centered, meanR; rewrite sumR_affine, length_map, !map_map.
  apply map_ext; intros x; field; exact Hn.
Qed.

Lemma dotR_scale a u v :
  dotR (map (fun x => a * x) u) (map (fun x => a * x) v) = a * a * dotR u v.
Proof.
  unfold dotR; revert v; induction u as [|x u IH]; intros [|y v]; simpl; try ring.
  unfold sumR in *; simpl; rewrite IH; ring.
Qed.

Lemma corrcoef_short (a b : list xreal) : (length a <= 1)%nat -> corrcoef a b = NaN.
Proof.
  destruct a as [|x [|]]; simpl; intros Ha; try lia; [|now apply corrcoef_single].
  unfold corrcoef; cbn - [IZR].
  destruct (Req_EM_T (IZR 0) 0) as [_|Hne]; [|exfalso; apply Hne; reflexivity].
  now rewrite !xr_lift2_nan_r, !xr_div_nan_l, np_clip_nan.
Qed.

(** [corrcoef] of two real rows is unchanged when both go through the
    same affine map with [a <> 0]. *)
Lemma corrcoef_affine a b xs ys :
  a <> 0 -> length xs = length ys ->
  corrcoef (map (xr_affine a b) (map Fin xs)) (map (xr_affine a b) (map Fin ys))
  = corrcoef (map Fin xs) (map Fin ys).
Proof.
  intros Ha Hl; rewrite !map_map; cbn [xr_affine].
  rewrite <- (map_map (fun x => a * x + b) Fin xs), <- (map_map (fun x => a * x + b) Fin ys).
  destruct (Nat.le_gt_cases (length xs) 1) as [Hs|Hs].
  - rewrite !corrcoef_short by (rewrite ?length_map; lia); reflexivity.
  - rewrite !corrcoef_fin by (rewrite ?length_map; lia).
    rewrite !centered_affine, !dotR_scale, length_map.
    apply corr_form_scale; nra.
Qed.

(** The real values of a NaN-free list. *)
Definition xr_val (v : xreal) : R := match v with Fin r => r | NaN => 0 end.

Lemma fin_list l : Forall (fun v => is_nan v = false) l -> l = map Fin (map xr_val l).
Proof.
  induction 1 as [|v l Hv _ IH]; [reflexivity|]; simpl.
  destruct v as [r|]; [|discriminate]; simpl; f_equal; exact IH.
Qed.

Local Close Scope R_scope.

Lemma compress_map {A B} (f : A -> B) xs m : compress (map f xs) m = map f (compress xs m).
Proof.
  unfold compress; revert m; induction xs as [|x xs IH]; intros [|c m]; simpl; auto.
  destruct c; simpl; f_equal; apply IH.
Qed.

(** ** A NaN-preserving map of the prices commutes with the series
    operations *)
Section MapValues.
Variable g : xreal -> xreal.
Hypothesis g_nan : g nan = nan.
Hypothesis g_is_nan : forall v, is_nan (g v) = is_nan v.

Definition map_values (s : series xreal) : series xreal := map (fun p => (fst p, g (snd p))) s.

Lemma series_of_array_map xs : series_of_array (map g xs) = map_values (series_of_array xs).
Proof.
  unfold series_of_array, map_values; rewrite length_map.
  generalize (zrange 0 (Z.of_nat (length xs))) as l; intros l.
  revert xs; induction l as [|k l IH]; intros [|x xs]; simpl; f_equal; auto.
Qed.

Lemma dropna_map s : dropna (map_values s) = map_values (dropna s).
Proof.
  unfold dropna, map_values; induction s as [|[k v] s IH]; [reflexivity|].
  cbn [map filter fst snd]; rewrite g_is_nan.
  destruct (is_nan v); cbn [negb filter map]; rewrite ?IH; reflexivity.
Qed.

Lemma values_map s : values (map_values s) = map g (values s).
Proof. unfold values, map_values; now rewrite !map_map. Qed.

Lemma shift_values_map p vs : shift_values p (map g vs) = map g (shift_values p vs).
Proof.
  unfold shift_values; rewrite length_map.
  destruct (0 <=? p)%Z; rewrite map_app, ?firstn_map, ?skipn_map, map_repeat, g_nan; reflexivity.
Qed.

Lemma valid_mask_map a b :
  zip_with (fun x y => negb (is_nan x) && negb (is_nan y)) (map g a) (map g b)
  = zip_with (fun x y => negb (is_nan x) && negb (is_nan y)) a b.
Proof. rewrite zip_with_map; apply zip_with_ext; intros x y; now rewrite !g_is_nan. Qed.

End MapValues.

(** ** The pairs [nancorr] keeps *)

Definition valid_mask (a b : list xreal) : list bool :=
  zip_with (fun x y => negb (is_nan x) && negb (is_nan y)) a b.

Lemma compress_valid_l a b : Forall (fun v => is_nan v = false) (compress a (valid_mask a b)).
Proof.
  unfold valid_mask, compress; revert b; induction a as [|x a IH]; intros [|y b]; simpl;
    try constructor.
  destruct x, y; simpl; try constructor; auto.
Qed.

Lemma compress_valid_r a b : Forall (fun v => is_nan v = false) (compress b (valid_mask a b)).
Proof.
  unfold valid_mask, compress; revert b; induction a as [|x a IH]; intros [|y b]; simpl;
    try constructor.
  destruct x, y; simpl; try constructor; auto.
Qed.

Lemma length_compress_valid a b :
  length a = length b -> length (compress a (valid_mask a b)) = length (compress b (valid_mask a b)).
Proof.
  unfold valid_mask, compress; revert b; induction a as [|x a IH]; intros [|y b] Hl; simpl in *;
    try discriminate; auto.
  destruct x, y; simpl; auto.
Qed.

Lemma xr_affine_nan a b : xr_affine a b nan = nan.
Proof. reflexivity. Qed.

Lemma xr_affine_is_nan a b v : is_nan (xr_affine a b v) = is_nan v.
Proof. now destruct v. Qed.

Lemma nancorr_affine a b u v :
  (a <> 0)%R -> length u = length v ->
  nancorr (map (xr_affine a b) u) (map (xr_affine a b) v) = nancorr u v.
Proof.
  intros Ha Hl; unfold nancorr.
  rewrite (valid_mask_map (xr_affine a b) (xr_affine_is_nan a b)), !compress_map, !length_map.
  fold (valid_mask u v); destruct (length (compress u (valid_mask u v)) <? 1); [reflexivity|].
  pose proof (fin_list _ (compress_valid_l u v)) as Hu.
  pose proof (fin_list _ (compress_valid_r u v)) as Hv.
  pose proof (length_compress_valid u v Hl) as Hc.
  rewrite Hu, Hv; apply corrcoef_affine; [exact Ha|].
  now rewrite !length_map.
Qed.

Lemma series_autocorr_affine a b s lag :
  (a <> 0)%R ->
  series_autocorr (map_values (xr_affine a b) s) lag = series_autocorr s lag.
Proof.
  intros Ha; unfold series_autocorr, series_corr.
  rewrite values_map, (shift_values_map _ (xr_affine_nan a b)), length_map.
  destruct (length (values s) =? 0); [reflexivity|].
  apply nancorr_affine; [exact Ha|]; now rewrite length_shift_values.
Qed.

(** ** Theorems *)

(** numpy's [corrcoef] of two rows of [n >= 2] real values that both
    vary is Pearson's correlation coefficient; numpy's [ddof] factor
    cancels and its clip to [[-1, 1]] never acts. *)
Lemma corrcoef_pearson xs ys :
  length xs = length ys -> 2 <= length xs ->
  (0 < dotR (centered xs) (centered xs))%R -> (0 < dotR (centered ys) (centered ys))%R ->
  corrcoef (map Fin xs) (map Fin ys) = Fin (pearson xs ys).
Proof.
  intros Hl Hn Hx Hy; rewrite corrcoef_fin by assumption.
  apply corr_form_pearson; try assumption.
  - apply Rdiv_lt_0_compat; [lra|]; apply IZR_lt; lia.
  - apply cauchy_schwarz; [now rewrite !length_centered|exact Hx].
Qed.

Lemma dropna_id (s : series xreal) :
  Forall (fun p => is_nan (snd p) = false) s -> dropna s = s.
Proof.
  unfold dropna; induction 1 as [|[k v] s Hv _ IH]; [reflexivity|].
  simpl in *; rewrite Hv; simpl; f_equal; exact IH.
Qed.

(** Prices without NaN survive [dropna] unchanged. *)
Lemma dropna_fin (xs : list R) :
  values (dropna (series_of_array (map Fin xs))) = map Fin xs.
Proof.
  rewrite dropna_id; [apply values_series_of_array|].
  apply Forall_forall; intros [k v] Hkv; apply in_combine_r, in_map_iff in Hkv as [r [<- _]].
  reflexivity.
Qed.

(** C18. Equivalence: in exact arithmetic, on prices without NaN,
    [autocorr] reports at each lag [L] with at least two pairs Pearson's
    correlation coefficient of [x[L..n-1]] against [x[0..n-L-1]], when
    both vary. *)
Theorem autocorr_pearson (xs : list R) lag L :
  1 <= L -> L + 2 <= length xs ->
  (0 < dotR (centered (skipn L xs)) (centered (skipn L xs)))%R ->
  (0 < dotR (centered (firstn (length xs - L) xs)) (centered (firstn (length xs - L) xs)))%R ->
  lookup (autocorr (StockAnalysis_init (map Fin xs)) lag) (Z.of_nat L)
  = Some (Fin (pearson (skipn L xs) (firstn (length xs - L) xs))).
Proof.
  intros H1 H2 Hx Hy; pose proof (lookup_autocorr_pairs (map Fin xs) lag L) as E.
  cbv zeta in E; rewrite dropna_fin, length_map in E; rewrite E by lia.
  rewrite skipn_map, firstn_map; f_equal; apply corrcoef_pearson; auto.
  - rewrite length_skipn, length_firstn; lia.
  - rewrite length_skipn; lia.
Qed.

(** C20. Invariance: applying one affine map [x -> a x + b] with
    [a <> 0] to every price (a change of currency or of origin, NaN kept
    as NaN) leaves the whole result of [autocorr] unchanged, in exact
    arithmetic. *)
Theorem autocorr_affine_invariant a b (xs : list xreal) lag :
  (a <> 0)%R ->
  autocorr (StockAnalysis_init (map (xr_affine a b) xs)) lag = autocorr (StockAnalysis_init xs) lag.
Proof.
  intros Ha; unfold autocorr, StockAnalysis_init; cbn [data].
  rewrite (series_of_array_map _), (dropna_map _ (xr_affine_is_nan a b)).
  replace (length (map_values (xr_affine a b) (series_of_array xs)))
    with (length (series_of_array xs)) by (symmetry; apply length_map).
  f_equal; apply map_ext; intros l; now apply series_autocorr_affine.
Qed.

(** ** Witnesses *)

Local Open Scope R_scope.

(** Witness of C18: the prices [1, 2, 4, 3] at lag 1. *)
Lemma autocorr_pearson_witness :
  (1 <= 1)%nat /\ (1 + 2 <= length [1; 2; 4; 3])%nat /\
  0 < dotR (centered (skipn 1 [1; 2; 4; 3])) (centered (skipn 1 [1; 2; 4; 3])) /\
  0 < dotR (centered (firstn (length [1; 2; 4; 3] - 1) [1; 2; 4; 3]))
           (centered (firstn (length [1; 2; 4; 3] - 1) [1; 2; 4; 3])) /\
  lookup (autocorr (StockAnalysis_init (map Fin [1; 2; 4; 3])) 1) (Z.of_nat 1)
  = Some (Fin (pearson (skipn 1 [1; 2; 4; 3]) (firstn (length [1; 2; 4; 3] - 1) [1; 2; 4; 3]))).
Proof.
  assert (H1 : 0 < dotR (centered (skipn 1 [1; 2; 4; 3])) (centered (skipn 1 [1; 2; 4; 3])))
    by (unfold dotR, centered, meanR, sumR; simpl; field_simplify; lra).
  assert (H2 : 0 < dotR (centered (firstn (length [1; 2; 4; 3] - 1) [1; 2; 4; 3]))
                        (centered (firstn (length [1; 2; 4; 3] - 1) [1; 2; 4; 3])))
    by (unfold dotR, centered, meanR, sumR; simpl; field_simplify; lra).
  split; [lia | split; [simpl; lia | split; [exact H1 | split; [exact H2|]]]].
  apply autocorr_pearson; [lia | simpl; lia | exact H1 | exact H2].
Defined.

(** Witness of C20: prices [1, 2, NaN, 4] converted by [x -> 2 x + 1]. *)
Lemma autocorr_affine_invariant_witness :
  2 <> 0 /\
  autocorr (StockAnalysis_init (map (xr_affine 2 1) [Fin 1; Fin 2; NaN; Fin 4])) 1
  = autocorr (StockAnalysis_init [Fin 1; Fin 2; NaN; Fin 4]) 1.
Proof. split; [lra|apply autocorr_affine_invariant; lra]. Defined.
