(* ===== verification/Frame.v ===== *)
(** * Frame: the DataFrame, its outer join, and the generator [save]

    A [DataFrame] is an index and a list of named columns, each as long as
    the index.  [pd.DataFrame({name: s})] makes a one-column frame with the
    labels of [s].  [DataFrame.join(other, how='outer')], on the strictly
    increasing indexes this program builds, takes the sorted merge of the
    two indexes (pandas' [outer_join_indexer]) and reindexes every column on
    it, with NaN where a column has no value; overlapping column names are
    rejected with a [ValueError] since no suffix is given.

    The generator [save] is a Python generator object with its three
    states: created (the body has not run), suspended at its [yield], and
    finished; [next] runs the body to the [yield] and returns the frame,
    and raises [StopIteration] once the body has ended.

    The lemmas show the join keeps every label of either side exactly once
    and in order (outer-join completeness), what each cell holds, that it
    fails exactly on overlapping column names, and that it only builds
    well-formed frames; [Analysis] lifts them to the loop of
    [get_results]. *)

From Stdlib Require Import String.
From Stdlib Require Import ZArith List Bool Lia Sorted.
From Stdlib Require Import Floats.
From S2P Require Import Prelude Float64 Series.
Import ListNotations.

(** The sorted merge of two label lists; equal labels are taken once. *)
Fixpoint union_sorted (l : list Z) : list Z -> list Z :=
  match l with
  | [] => fun r => r
  | a :: l' =>
      fix go (r : list Z) : list Z :=
        match r with
        | [] => l
        | b :: r' =>
            if (a <? b)%Z then a :: union_sorted l' r
            else if (b <? a)%Z then b :: go r'
            else a :: union_sorted l' r'
        end
  end.

Lemma union_sorted_nil_r l : union_sorted l [] = l.
Proof. destruct l; reflexivity. Qed.

(** Every label of the merge comes from one side, and every label of
    either side is in the merge. *)
Lemma in_union_sorted l r k : In k (union_sorted l r) <-> In k l \/ In k r.
Proof.
  revert r; induction l as [|a l IH]; intros r; simpl; [tauto|].
  induction r as [|b r IHr]; simpl; [tauto|].
  destruct (Z.ltb_spec a b); [|destruct (Z.ltb_spec b a)]; simpl.
  - rewrite IH; simpl; tauto.
  - rewrite IHr; simpl; tauto.
  - assert (a = b) by lia; subst; rewrite IH; tauto.
Qed.

Definition strictly_sorted (l : list Z) : Prop := StronglySorted Z.lt l.

Lemma strictly_sorted_cons a l :
  strictly_sorted (a :: l) <-> Forall (Z.lt a) l /\ strictly_sorted l.
Proof.
  split; [intros Hs; inversion Hs; auto|].
  intros [Hf Hs]; now constructor.
Qed.

Lemma union_sorted_cons a l b r :
  union_sorted (a :: l) (b :: r) =
  if (a <? b)%Z then a :: union_sorted l (b :: r)
  else if (b <? a)%Z then b :: union_sorted (a :: l) r
  else a :: union_sorted l r.
Proof. reflexivity. Qed.

Lemma Forall_union_sorted (P : Z -> Prop) l r :
  Forall P l -> Forall P r -> Forall P (union_sorted l r).
Proof.
  rewrite !Forall_forall; intros Hl Hr k Hk.
  apply in_union_sorted in Hk as [Hk|Hk]; auto.
Qed.

Lemma Forall_lt_weaken a b l : (a < b)%Z -> Forall (Z.lt b) l -> Forall (Z.lt a) l.
Proof. intros Hab; apply Forall_impl; lia. Qed.

(** The merge of two strictly increasing label lists is strictly
    increasing: no label is duplicated. *)
Lemma union_sorted_sorted l r :
  strictly_sorted l -> strictly_sorted r -> strictly_sorted (union_sorted l r).
Proof.
  revert r; induction l as [|a l IH]; intros r Hl Hr; [exact Hr|].
  induction r as [|b r IHr]; [exact Hl|].
  pose proof Hl as Hl0; pose proof Hr as Hr0.
  apply strictly_sorted_cons in Hl as [Hla Hl'].
  apply strictly_sorted_cons in Hr as [Hrb Hr'].
  rewrite union_sorted_cons.
  destruct (Z.ltb_spec a b); [|destruct (Z.ltb_spec b a)];
    apply strictly_sorted_cons; split.
  - apply Forall_union_sorted; [exact Hla|].
    constructor; [lia | eapply Forall_lt_weaken; eauto].
  - apply IH; auto.
  - apply Forall_union_sorted; [|exact Hrb].
    constructor; [lia | eapply Forall_lt_weaken; eauto].
  - apply IHr; auto.
  - assert (a = b) by lia; subst b; apply Forall_union_sorted; auto.
  - apply IH; auto.
Qed.

(** Merging in a strictly increasing list of labels already present leaves
    the index unchanged. *)
Lemma union_sorted_incl l r :
  strictly_sorted l -> strictly_sorted r -> incl r l -> union_sorted l r = l.
Proof.
  revert r; induction l as [|a l IH]; intros r Hl Hr Hinc.
  - destruct r as [|b r]; [reflexivity|].
    exfalso; apply (Hinc b); left; reflexivity.
  - destruct r as [|b r]; [reflexivity|].
    apply strictly_sorted_cons in Hl as [Hla Hl'].
    pose proof Hr as Hr0; apply strictly_sorted_cons in Hr as [Hrb Hr'].
    rewrite Forall_forall in Hla, Hrb.
    assert (Hb : b = a \/ In b l) by (destruct (Hinc b (or_introl eq_refl)); auto).
    rewrite union_sorted_cons.
    destruct (Z.ltb_spec a b); [|destruct (Z.ltb_spec b a)].
    + f_equal; apply IH; auto.
      intros c [<-|Hc]; [destruct Hb as [->|]; [lia|auto]|].
      destruct (Hinc c (or_intror Hc)) as [<-|]; auto.
      specialize (Hrb a Hc); lia.
    + destruct Hb as [->|Hb]; [lia|]; specialize (Hla b Hb); lia.
    + assert (a = b) by lia; subst b; f_equal; apply IH; auto.
      intros c Hc; destruct (Hinc c (or_intror Hc)) as [<-|]; auto.
      specialize (Hrb a Hc); lia.
Qed.

Section Frame.
Context {F : Type} `{NumLaws F}.

(** A [DataFrame]: its index and its named columns. *)
Record frame := mkFrame {
  findex : list Z;
  fcols : list (string * list F)
}.

Definition column_names (df : frame) : list string := map fst (fcols df).

(** [pd.DataFrame({name: s})]. *)
Definition frame_of_series (name : string) (s : series F) : frame :=
  {| findex := index s; fcols := [(name, values s)] |}.

(** The value a column holds under label [k] once reindexed: its own value
    if it has one, NaN otherwise. *)
Definition value_or_nan (idx : list Z) (vals : list F) (k : Z) : F :=
  match lookup (combine idx vals) k with Some v => v | None => nan end.

(** Reindexing a column from [idx] to [new]. *)
Definition reindex (idx : list Z) (vals : list F) (new : list Z) : list F :=
  map (value_or_nan idx vals) new.

(** [DataFrame.join(other, how='outer')] without suffixes. *)
Definition join_outer (left right : frame) : result frame :=
  if existsb (fun c => existsb (String.eqb c) (column_names left)) (column_names right)
  then Err (ValueError "columns overlap but no suffix specified")
  else
    let idx := union_sorted (findex left) (findex right) in
    Ok {| findex := idx;
          fcols := map (fun c => (fst c, reindex (findex left) (snd c) idx)) (fcols left)
                   ++ map (fun c => (fst c, reindex (findex right) (snd c) idx)) (fcols right) |}.

(** A generator object of [save]: [statistic_operations.py], lines
    66-72.  [SaveCreated] holds the arguments of the call, whose body has
    not started; [SaveSuspended] is paused at the [yield]; [SaveFinished]
    has run past it. *)
Inductive save_gen :=
| SaveCreated (result : series F) (name : string)
| SaveSuspended
| SaveFinished.

(** Calling [self.save(result, name)] creates the generator; the body does
    not run yet. *)
Definition save (result : series F) (name : string) : save_gen :=
  SaveCreated result name.

(** Python's [next] on a [save] generator: the first call runs the body up
    to [yield pd.DataFrame({name: result})]; the next one resumes after the
    [yield], reaches the end of the body and raises [StopIteration]. *)
Definition next (g : save_gen) : Prelude.result frame * save_gen :=
  match g with
  | SaveCreated result name => (Ok (frame_of_series name result), SaveSuspended)
  | SaveSuspended | SaveFinished => (Err StopIteration, SaveFinished)
  end.

(** A frame is well formed when every column is as long as the index. *)
Definition frame_wf (df : frame) : Prop :=
  Forall (fun c => length (snd c) = length (findex df)) (fcols df).

(** The first column of that name. *)
Fixpoint column (cols : list (string * list F)) (name : string) : option (list F) :=
  match cols with
  | [] => None
  | (n, c) :: cols' => if String.eqb name n then Some c else column cols' name
  end.

(** The cell of column [name] at label [k]: [df.loc[k, name]]. *)
Definition cell (df : frame) (name : string) (k : Z) : option F :=
  match column (fcols df) name with
  | Some c => lookup (combine (findex df) c) k
  | None => None
  end.

(** ** Lemmas *)

Lemma column_app cols1 cols2 name :
  column (cols1 ++ cols2) name
  = match column cols1 name with Some c => Some c | None => column cols2 name end.
Proof.
  induction cols1 as [|[n c] cols1 IH]; simpl; [now destruct (column cols2 name)|].
  destruct (String.eqb name n); auto.
Qed.

Lemma column_reindex idx new cols name :
  column (map (fun c => (fst c, reindex idx (snd c) new)) cols) name
  = option_map (fun v => reindex idx v new) (column cols name).
Proof.
  induction cols as [|[n c] cols IH]; simpl; auto.
  destruct (String.eqb name n); auto.
Qed.

Lemma lookup_cons_other k a v (s : series F) :
  k <> a -> lookup ((a, v) :: s) k = lookup s k.
Proof. intros Hk; simpl; destruct (Z.eqb_spec k a); [congruence | reflexivity]. Qed.

(** Reindexing a column on its own strictly increasing index is the
    identity. *)
Lemma reindex_self idx vals :
  strictly_sorted idx -> length vals = length idx -> reindex idx vals idx = vals.
Proof.
  unfold reindex, value_or_nan.
  revert vals; induction idx as [|a idx IH]; intros [|v vals] Hs Hl;
    simpl in *; try discriminate; auto.
  apply strictly_sorted_cons in Hs as [Ha Hs].
  rewrite Z.eqb_refl; f_equal.
  etransitivity; [|apply (IH vals); auto].
  apply map_ext_in; intros k Hk.
  rewrite Forall_forall in Ha; specialize (Ha k Hk).
  destruct (Z.eqb_spec k a); [lia | reflexivity].
Qed.

Lemma length_reindex idx vals new : length (reindex idx vals new) = length new.
Proof. apply length_map. Qed.

(** Reading a reindexed column at a label of its new, duplicate-free
    index. *)
Lemma lookup_reindex idx vals new k :
  NoDup new -> In k new ->
  lookup (combine new (reindex idx vals new)) k = Some (value_or_nan idx vals k).
Proof.
  unfold reindex; induction new as [|a new IH]; intros Hnd Hk; [destruct Hk|].
  inversion Hnd as [|? ? Hna Hnd']; subst; simpl.
  destruct (Z.eqb_spec k a) as [->|Hka]; [reflexivity|].
  apply IH; auto; destruct Hk; [congruence | auto].
Qed.

Lemma strictly_sorted_NoDup l : strictly_sorted l -> NoDup l.
Proof.
  induction 1 as [|a l _ IH Ha]; constructor; auto.
  intros Hin; rewrite Forall_forall in Ha; specialize (Ha a Hin); lia.
Qed.

Lemma join_outer_ok left right :
  (forall n, In n (column_names left) -> ~ In n (column_names right)) ->
  join_outer left right
  = Ok {| findex := union_sorted (findex left) (findex right);
          fcols := map (fun c => (fst c, reindex (findex left) (snd c)
                                    (union_sorted (findex left) (findex right)))) (fcols left)
                   ++ map (fun c => (fst c, reindex (findex right) (snd c)
                                    (union_sorted (findex left) (findex right)))) (fcols right) |}.
Proof.
  intros Hdis; unfold join_outer.
  replace (existsb _ (column_names right)) with false; [reflexivity|].
  symmetry; apply not_true_iff_false; rewrite existsb_exists.
  intros [n [Hr Hl]]; apply existsb_exists in Hl as [n' [Hl Heq]].
  apply String.eqb_eq in Heq; subst n'; exact (Hdis n Hl Hr).
Qed.

(** Overlap of column names is decidable. *)
Lemma classic_overlap left right :
  (exists n, In n (column_names left) /\ In n (column_names right)) \/
  (forall n, In n (column_names left) -> ~ In n (column_names right)).
Proof.
  destruct (existsb (fun c => existsb (String.eqb c) (column_names left)) (column_names right))
    eqn:E.
  - left; apply existsb_exists in E as [n [Hr Hl]].
    apply existsb_exists in Hl as [n' [Hl Heq]]; apply String.eqb_eq in Heq; subst; eauto.
  - right; intros n Hl Hr; apply not_true_iff_false in E; apply E.
    apply existsb_exists; exists n; split; [exact Hr|].
    apply existsb_exists; exists n; split; [exact Hl | apply String.eqb_refl].
Qed.

(** Outer-join completeness: joining two frames with strictly
    increasing indexes gives a strictly increasing index whose labels are
    exactly those of either side -- none dropped, none duplicated. *)
Lemma join_outer_index left right df :
  strictly_sorted (findex left) -> strictly_sorted (findex right) ->
  join_outer left right = Ok df ->
  strictly_sorted (findex df) /\
  (forall k, In k (findex df) <-> In k (findex left) \/ In k (findex right)).
Proof.
  intros Hl Hr Hj; unfold join_outer in Hj.
  destruct (existsb _ _); inversion Hj; subst; simpl.
  split; [apply union_sorted_sorted; auto | apply in_union_sorted].
Qed.

(** Every cell of the joined frame holds the value the originating
    column has under that label, or NaN where it has none. *)
Lemma join_outer_cell left right df name k :
  strictly_sorted (findex left) -> strictly_sorted (findex right) ->
  join_outer left right = Ok df -> In k (findex df) ->
  cell df name k
  = match column (fcols left) name with
    | Some c => Some (value_or_nan (findex left) c k)
    | None =>
        match column (fcols right) name with
        | Some c => Some (value_or_nan (findex right) c k)
        | None => None
        end
    end.
Proof.
  intros Hl Hr Hj Hk; unfold join_outer in Hj.
  destruct (existsb _ _); inversion Hj; subst; clear Hj.
  unfold cell; simpl in *; rewrite column_app, !column_reindex.
  assert (Hnd : NoDup (union_sorted (findex left) (findex right)))
    by (apply strictly_sorted_NoDup, union_sorted_sorted; auto).
  destruct (column (fcols left) name); simpl; [now apply lookup_reindex|].
  destruct (column (fcols right) name); simpl; [now apply lookup_reindex|reflexivity].
Qed.

(** The join fails, with pandas' [ValueError], exactly when the two
    frames share a column name. *)
Lemma join_outer_overlap left right :
  (exists n, In n (column_names left) /\ In n (column_names right)) <->
  join_outer left right = Err (ValueError "columns overlap but no suffix specified").
Proof.
  split.
  - intros [n [Hl Hr]]; unfold join_outer.
    replace (existsb _ (column_names right)) with true; [reflexivity|].
    symmetry; apply existsb_exists; exists n; split; [exact Hr|].
    apply existsb_exists; exists n; split; [exact Hl | apply String.eqb_refl].
  - intros Hj; destruct (classic_overlap left right) as [Ho|Hno]; [exact Ho|].
    rewrite join_outer_ok in Hj by exact Hno; discriminate.
Qed.

(** The join only builds well-formed frames: every column is as long
    as the index. *)
Lemma join_outer_wf left right df :
  join_outer left right = Ok df -> frame_wf df.
Proof.
  intros Hj; unfold join_outer in Hj.
  destruct (existsb _ _); inversion Hj; subst; clear Hj.
  unfold frame_wf; simpl; apply Forall_app; split;
    apply Forall_map, Forall_forall; intros c _; apply length_reindex.
Qed.

(** The joined frame has the columns of the left frame, then those of the
    right one. *)
Lemma join_outer_names left right df :
  join_outer left right = Ok df -> column_names df = column_names left ++ column_names right.
Proof.
  intros Hj; unfold join_outer in Hj.
  destruct (existsb _ _); inversion Hj; subst; clear Hj.
  unfold column_names; simpl; rewrite map_app, !map_map; reflexivity.
Qed.

(** After its first [next], a [save] generator is never fresh again. *)
Lemma next_not_created g : match snd (next g) with SaveCreated _ _ => False | _ => True end.
Proof. now destruct g. Qed.

(** ** Theorems *)

(** The generator [save] yields exactly one frame: the first [next]
    returns [pd.DataFrame({name: result})], and every later [next] raises
    [StopIteration] -- which is why [get_results] calls [next] once per
    generator. *)
Theorem save_yields_once (result : series F) name n :
  fst (next (save result name)) = Ok (frame_of_series name result) /\
  fst (next (Nat.iter (S n) (fun g => snd (next g)) (save result name))) = Err StopIteration.
Proof.
  split; [reflexivity|].
  pose proof (next_not_created (Nat.iter n (fun g => snd (next g)) (save result name))) as Hc.
  rewrite Nat.iter_succ; set (g := Nat.iter n _ _) in *.
  destruct (next g) as [r g']; cbn [snd] in *; destruct g'; [contradiction | reflexivity..].
Qed.

End Frame.
