(* ===== verification/Analysis.v ===== *)
(** * Analysis: [StockAnalysis.get_results] and [function_logger]

    [get_results] takes the stored series as the column ["Stock Cost"], then
    for each of the five statistics in the fixed order of the code calls the
    method with its default arguments (window 3, lag 1), wraps the result
    through [next(self.save(...))] and outer-joins it into the running
    frame.  [function_logger] wraps the call: it prints the call line, runs
    the function, prints the result line, and returns that result
    unchanged.

    The loop [join_columns] is proved to keep every label of the first
    frame and of the statistics exactly once and in order, and to build a
    well-formed frame whose columns follow the list; the main theorem
    computes the whole table: its index is the positions [0..n-1] and each
    of its six columns is given cell by cell. *)

From Stdlib Require Import String.
From Stdlib Require Import ZArith List Bool Lia Sorted.
From Stdlib Require Import Floats.
From S2P Require Import Prelude Float64 Series Extrema Diff OnlineMean Rolling Autocorr Frame.
Import ListNotations.

Section Analysis.
Context {F : Type} `{NumLaws F}.

(** The list of [(name, self.method)] pairs of [get_results], each method
    already applied to its default arguments. *)
Definition statistics (self : StockAnalysis) : list (string * result (series F)) :=
  [("Moving average"%string, moving_average self 3);
   ("Differential"%string, Ok (diff self));
   ("Autocorrelation"%string, Ok (autocorr self 1));
   ("Max"%string, Ok (maximum self));
   ("Min"%string, Ok (minimum self))].

(** The loop [for name, func in ...: df = df.join(next(self.save(func(),
    name)), how='outer')]. *)
Fixpoint join_columns (df : frame) (stats : list (string * result (series F)))
  : result frame :=
  match stats with
  | [] => Ok df
  | (name, r) :: rest =>
      bind r (fun s =>
      bind (fst (next (save s name))) (fun g =>
      bind (join_outer df g) (fun df' =>
      join_columns df' rest)))
  end.

(** [get_results]: [statistic_operations.py], lines 74-91. *)
Definition get_results (self : StockAnalysis) : result frame :=
  bind (fst (next (save (data self) "Stock Cost"%string))) (fun df =>
  join_columns df (statistics self)).

(** ** The logging decorator *)

(** The line [print(f"Вызов {func.__name__} с аргументами {args} {kwargs}")]
    writes: [statistic_operations.py], line 14, with the [str] of the
    argument tuple and of the keyword dictionary. *)
Definition call_line (fname args_str kwargs_str : string) : string :=
  ("Вызов " ++ fname ++ " с аргументами " ++ args_str ++ " " ++ kwargs_str)%string.

(** The line [print(f"Результат - {result}")] writes: line 16. *)
Definition result_line (result_str : string) : string := ("Результат - " ++ result_str)%string.

(** [function_logger]: [statistic_operations.py], lines 5-18.  The
    decorated [wrapper], called with any positional and keyword
    arguments, prints the call, runs [func],
    prints its result and returns it; [out] is the standard output, one
    string per printed line.  An exception raised by [func] propagates
    after the first line was printed.  Python's [str] of the arguments and
    of the result is a parameter ([str_args], [str_kwargs], [str_result]):
    the [repr] of an object holds its memory address. *)
Definition function_logger {A K B} (fname : string)
    (str_args : A -> string) (str_kwargs : K -> string) (str_result : B -> string)
    (func : A -> K -> result B) (args : A) (kwargs : K) (out : list string)
  : result B * list string :=
  let out1 := out ++ [call_line fname (str_args args) (str_kwargs kwargs)] in
  match func args kwargs with
  | Ok r => (Ok r, out1 ++ [result_line (str_result r)])
  | Err e => (Err e, out1)
  end.

(** The decorated method as the class exposes it, called as
    [analysis.get_results()]: the argument tuple is [(self,)], printed as
    [(<repr of self>,)], and there are no keyword arguments ([{}]). *)
Definition get_results_logged (repr_self : StockAnalysis -> string) (str_frame : frame -> string)
    (self : StockAnalysis) (out : list string) : result frame * list string :=
  function_logger "get_results" (fun s => "(" ++ repr_self s ++ ",)")%string (fun _ : unit => "{}"%string)
    str_frame (fun s _ => get_results s) self tt out.

(** ** Lemmas *)

Ltac frame_wf_tac :=
  unfold frame_wf; cbn [fcols findex]; repeat constructor; cbn [snd];
  rewrite ?length_reindex, ?length_zrange; lia.

Lemma combine_index_values (s : series F) : combine (index s) (values s) = s.
Proof. induction s as [|[k v] s IH]; simpl; f_equal; auto. Qed.

Lemma strictly_sorted_zrange a b : strictly_sorted (zrange a b).
Proof.
  unfold zrange; generalize 0 at 1 as j; generalize (Z.to_nat (b - a)) as n.
  induction n as [|n IH]; intros j; simpl; constructor; [apply IH|].
  apply Forall_map, Forall_forall; intros i Hi; apply in_seq in Hi; lia.
Qed.

(** Joining in a column whose labels are already in the frame's strictly
    increasing index keeps the index and the existing columns, and adds
    the column reindexed on it. *)
Lemma join_outer_sub df name (s : series F) :
  strictly_sorted (findex df) -> frame_wf df ->
  strictly_sorted (index s) -> incl (index s) (findex df) ->
  existsb (String.eqb name) (column_names df) = false ->
  join_outer df (frame_of_series name s)
  = Ok {| findex := findex df;
          fcols := fcols df ++ [(name, reindex (index s) (values s) (findex df))] |}.
Proof.
  intros Hs Hwf Hss Hinc Hname; unfold join_outer; simpl.
  rewrite Hname; simpl.
  rewrite union_sorted_incl by assumption.
  f_equal; f_equal; rewrite <- (map_id (fcols df)) at 2.
  f_equal; apply map_ext_in; intros [n c] Hc; simpl.
  rewrite reindex_self; auto.
  unfold frame_wf in Hwf; rewrite Forall_forall in Hwf; apply (Hwf _ Hc).
Qed.

Lemma join_columns_sub df name s rest :
  strictly_sorted (findex df) -> frame_wf df ->
  strictly_sorted (index s) -> incl (index s) (findex df) ->
  existsb (String.eqb name) (column_names df) = false ->
  join_columns df ((name, Ok s) :: rest)
  = join_columns {| findex := findex df;
                    fcols := fcols df ++ [(name, reindex (index s) (values s) (findex df))] |}
                 rest.
Proof. intros; simpl; rewrite join_outer_sub; auto. Qed.

Lemma frame_wf_snoc (df : @frame F) name c :
  frame_wf df -> length c = length (findex df) ->
  frame_wf {| findex := findex df; fcols := fcols df ++ [(name, c)] |}.
Proof.
  intros Hwf Hc; unfold frame_wf in *; simpl.
  apply Forall_app; split; [exact Hwf | constructor; auto].
Qed.

Lemma zrange0_positions n : zrange 0 (Z.of_nat n) = map Z.of_nat (seq 0 n).
Proof.
  unfold zrange; rewrite Z.sub_0_r, Nat2Z.id; apply map_ext; intros; lia.
Qed.

Lemma reindex_positions idx vals n :
  reindex idx vals (zrange 0 (Z.of_nat n))
  = map (fun i => value_or_nan idx vals (Z.of_nat i)) (seq 0 n).
Proof. unfold reindex; now rewrite zrange0_positions, map_map. Qed.

Lemma strictly_sorted_positions (p : nat -> bool) j n :
  strictly_sorted (map Z.of_nat (filter p (seq j n))).
Proof.
  revert j; induction n as [|n IH]; intros j; simpl; [constructor|].
  destruct (p j); simpl; [constructor; [apply IH|]|apply IH].
  apply Forall_map, Forall_forall; intros i Hi.
  apply filter_In in Hi as [Hi _]; apply in_seq in Hi; lia.
Qed.

(** Label lookup in a sparse series of selected positions. *)
Lemma lookup_positions (p : nat -> bool) (g : nat -> F) j n i :
  lookup (map (fun k => (Z.of_nat k, g k)) (filter p (seq j n))) (Z.of_nat i)
  = if (j <=? i) && (i <? j + n) && p i then Some (g i) else None.
Proof.
  revert j; induction n as [|n IH]; intros j; simpl.
  - destruct (Nat.leb_spec j i), (Nat.ltb_spec i (j + 0)); simpl; auto; lia.
  - destruct (p j) eqn:Hp; simpl; [destruct (Nat.eqb_spec i j) as [->|Hij]|].
    + replace (Z.of_nat j =? Z.of_nat j)%Z with true by (symmetry; apply Z.eqb_refl).
      rewrite Nat.leb_refl, Hp; destruct (Nat.ltb_spec j (j + S n)); [reflexivity|lia].
    + replace (Z.of_nat i =? Z.of_nat j)%Z with false by (symmetry; apply Z.eqb_neq; lia).
      rewrite IH; destruct (Nat.leb_spec (S j) i), (Nat.ltb_spec i (S j + n)),
                            (Nat.leb_spec j i), (Nat.ltb_spec i (j + S n)); simpl; auto; lia.
    + rewrite IH; destruct (Nat.eqb_spec i j) as [->|Hij].
      * rewrite Hp, !andb_false_r; destruct (Nat.leb_spec (S j) j); simpl; auto; lia.
      * destruct (Nat.leb_spec (S j) i), (Nat.ltb_spec i (S j + n)),
                 (Nat.leb_spec j i), (Nat.ltb_spec i (j + S n)); simpl; auto; lia.
Qed.

Lemma index_positions (g : nat -> F) p j n :
  index (map (fun k => (Z.of_nat k, g k)) (filter p (seq j n)))
  = map Z.of_nat (filter p (seq j n)).
Proof. unfold index; rewrite map_map; reflexivity. Qed.

Lemma incl_positions p n :
  incl (map Z.of_nat (filter p (seq 0 n))) (zrange 0 (Z.of_nat n)).
Proof.
  intros k Hk; apply in_map_iff in Hk as [i [<- Hi]].
  apply filter_In in Hi as [Hi _]; apply in_seq in Hi; apply in_zrange; lia.
Qed.

(** A sparse column of selected positions, reindexed on all positions:
    its value where selected, NaN elsewhere. *)
Lemma reindex_sparse (p : nat -> bool) (g : nat -> F) n :
  reindex (map Z.of_nat (filter p (seq 0 n)))
          (values (map (fun i => (Z.of_nat i, g i)) (filter p (seq 0 n))))
          (zrange 0 (Z.of_nat n))
  = map (fun i => if p i then g i else nan) (seq 0 n).
Proof.
  rewrite reindex_positions; apply map_ext_in; intros i Hi; apply in_seq in Hi.
  unfold value_or_nan; rewrite <- (index_positions g), combine_index_values, lookup_positions.
  destruct (Nat.leb_spec 0 i), (Nat.ltb_spec i (0 + n)); [|lia..].
  simpl; now destruct (p i).
Qed.

Lemma get_results_init xs :
  get_results (StockAnalysis_init xs)
  = Ok {| findex := zrange 0 (Z.of_nat (length xs));
          fcols :=
            [("Stock Cost"%string, xs);
             ("Moving average"%string, rolling_mean_pandas 3 xs);
             ("Differential"%string, diff_values xs);
             ("Autocorrelation"%string,
                map (fun i => if 1 <=? i
                              then series_autocorr (dropna (series_of_array xs)) (Z.of_nat i)
                              else nan) (seq 0 (length xs)));
             ("Max"%string,
                map (fun i => if is_local_max xs i then nth i xs nan else nan)
                    (seq 0 (length xs)));
             ("Min"%string,
                map (fun i => if is_local_min xs i then nth i xs nan else nan)
                    (seq 0 (length xs)))] |}.
Proof.
  assert (Hdata : data (StockAnalysis_init xs) = series_of_array xs) by reflexivity.
  unfold get_results, statistics; cbn [next save bind fst].
  rewrite moving_average_init by lia; change (Z.to_nat 3) with 3.
  rewrite diff_init, maximum_positions, minimum_positions, Hdata.
  unfold frame_of_series; rewrite !index_series_of_array, !values_series_of_array.
  rewrite !join_columns_sub; cbn [findex fcols app join_columns].
  all: rewrite ?index_series_of_array, ?values_series_of_array, ?length_rolling_mean_pandas,
         ?length_diff_values, ?index_autocorr_init, ?index_positions.
  all: try solve [apply strictly_sorted_zrange | apply strictly_sorted_positions
                 | reflexivity | apply incl_refl | apply incl_positions | frame_wf_tac].
  2: { intros k Hk; apply in_zrange in Hk; apply in_zrange; lia. }
  rewrite !reindex_self, !reindex_sparse
    by (apply strictly_sorted_zrange || (autorewrite with stats; lia)).
  rewrite reindex_positions.
  match goal with |- Ok {| findex := _; fcols := ?l |} = Ok {| findex := _; fcols := ?r |} =>
    replace l with r; [reflexivity|] end.
  do 5 f_equal; symmetry.
  apply map_ext_in; intros i Hi; apply in_seq in Hi.
  unfold value_or_nan; rewrite <- (index_autocorr_init xs 1), combine_index_values.
  rewrite lookup_autocorr, Hdata, length_series_of_array.
  destruct (Nat.leb_spec 1 i), (Z.leb_spec 1 (Z.of_nat i)),
           (Z.ltb_spec (Z.of_nat i) (Z.of_nat (length xs))); simpl; auto; lia.
Qed.

Lemma function_logger_spec {A K B} fname str_args str_kwargs str_result
    (func : A -> K -> result B) args kwargs out :
  function_logger fname str_args str_kwargs str_result func args kwargs out
  = (func args kwargs,
     out ++ call_line fname (str_args args) (str_kwargs kwargs)
         :: match func args kwargs with Ok r => [result_line (str_result r)] | Err _ => [] end).
Proof.
  unfold function_logger; destruct (func args kwargs); [rewrite <- app_assoc|]; reflexivity.
Qed.

(** One iteration of the loop of [get_results]: the statistic returned a
    series, [next] took the frame the generator yields, and the join
    succeeded. *)
Lemma join_columns_inv df name r rest df' :
  join_columns df ((name, r) :: rest) = Ok df' ->
  exists s df1, r = Ok s /\ join_outer df (frame_of_series name s) = Ok df1 /\
                join_columns df1 rest = Ok df'.
Proof.
  simpl; destruct r as [s|e]; simpl; [|discriminate].
  destruct (join_outer df _) as [df1|e] eqn:J; simpl; [|discriminate].
  intros Hj; now exists s, df1.
Qed.

(** ** Theorems *)

(** C4. Outer-join completeness of the loop of [get_results]: when the
    running frame and every statistic have strictly increasing labels,
    the final frame has a strictly increasing index holding exactly the
    labels of the first frame and of every statistic -- none dropped, none
    duplicated. *)
Theorem join_columns_index df stats df' :
  strictly_sorted (findex df) ->
  (forall name s, In (name, Ok s) stats -> strictly_sorted (index s)) ->
  join_columns df stats = Ok df' ->
  strictly_sorted (findex df') /\
  (forall k, In k (findex df') <->
             In k (findex df) \/ exists name s, In (name, Ok s) stats /\ In k (index s)).
Proof.
  revert df; induction stats as [|[name r] rest IH]; intros df Hdf Hst Hj.
  - injection Hj as <-; split; [exact Hdf|]; intros k; split; [now left|].
    intros [Hk|[? [? [[] _]]]]; exact Hk.
  - apply join_columns_inv in Hj as [s [df1 [-> [J Hj]]]].
    destruct (join_outer_index df (frame_of_series name s) df1 Hdf (Hst name s (or_introl eq_refl)) J)
      as [Hs1 Hk1].
    destruct (IH df1 Hs1 (fun n s' H => Hst n s' (or_intror H)) Hj) as [Hs' Hk'].
    split; [exact Hs'|]; intros k; rewrite Hk', Hk1; cbn [findex frame_of_series]; split.
    + intros [[Hk|Hk]|[n [s' [Hin Hk]]]];
        [now left | right; exists name, s; split; [now left | exact Hk]
        | right; exists n, s'; split; [now right | exact Hk]].
    + intros [Hk|[n [s' [[Heq|Hin] Hk]]]]; [left; now left| |].
      * injection Heq as -> ->; left; now right.
      * right; exists n, s'; split; assumption.
Qed.

(** C19. Schema of the loop of [get_results]: from a well-formed frame,
    the result is well formed (every column as long as the index) and its
    columns are those of the first frame followed by one column per
    statistic, named as in the list and in its order. *)
Theorem join_columns_schema df stats df' :
  frame_wf df -> join_columns df stats = Ok df' ->
  frame_wf df' /\ column_names df' = column_names df ++ map fst stats.
Proof.
  revert df; induction stats as [|[name r] rest IH]; intros df Hwf Hj.
  - injection Hj as <-; now rewrite app_nil_r.
  - apply join_columns_inv in Hj as [s [df1 [-> [J Hj]]]].
    destruct (IH df1 (join_outer_wf _ _ _ J) Hj) as [Hwf' Hn]; split; [exact Hwf'|].
    rewrite Hn, (join_outer_names _ _ _ J), <- app_assoc; reflexivity.
Qed.


(** C3. [get_results] never fails, and computes the table: its index is
    the positions [0..n-1] of the series, and its six columns, in the
    code's order, hold the series itself, the rolling mean with window 3,
    the first difference, the autocorrelation at each lag (NaN at label
    0, which no lag has), and the value at each local maximum and minimum
    (NaN elsewhere). *)
Theorem get_results_table xs :
  get_results (StockAnalysis_init xs)
  = Ok {| findex := zrange 0 (Z.of_nat (length xs));
          fcols :=
            [("Stock Cost"%string, xs);
             ("Moving average"%string, rolling_mean_pandas 3 xs);
             ("Differential"%string, diff_values xs);
             ("Autocorrelation"%string,
                map (fun i => if 1 <=? i
                              then series_autocorr (dropna (series_of_array xs)) (Z.of_nat i)
                              else nan) (seq 0 (length xs)));
             ("Max"%string,
                map (fun i => if is_local_max xs i then nth i xs nan else nan)
                    (seq 0 (length xs)));
             ("Min"%string,
                map (fun i => if is_local_min xs i then nth i xs nan else nan)
                    (seq 0 (length xs)))] |}.
Proof. apply get_results_init. Qed.

(** A column over the positions of a series of length 0 or 1 is NaN
    when its value at position 0 is. *)
Lemma Forall_nan_map_seq (f : nat -> F) n :
  n <= 1 -> is_nan (f 0) = true -> Forall (fun v => is_nan v = true) (map f (seq 0 n)).
Proof. intros Hn Hf; destruct n as [|[|n]]; [constructor | now repeat constructor | lia]. Qed.

(** C22. Boundary: on a series of length 0 or 1, [get_results] does not
    raise, its index is the positions of the series, and every statistic
    column -- moving average, difference, autocorrelation, maxima and
    minima -- holds only NaN. *)
Theorem get_results_short_series xs :
  length xs <= 1 ->
  exists t, get_results (StockAnalysis_init xs) = Ok t /\
    findex t = zrange 0 (Z.of_nat (length xs)) /\
    Forall (fun c => Forall (fun v => is_nan v = true) (snd c)) (tl (fcols t)).
Proof.
  intros Hn; rewrite get_results_init; eexists; split; [reflexivity|split; [reflexivity|]].
  cbn [tl fcols snd]; repeat apply Forall_cons; try apply Forall_nil.
  - rewrite rolling_mean_pandas_all_nan.
    + apply Forall_forall; intros v Hv%repeat_spec; subst v; apply is_nan_nan.
    + intros i Hi; right; pose proof (count_valid_le xs (i + 1 - 3) (i + 1)); lia.
  - destruct xs as [|x [|y xs]]; simpl in Hn |- *; [constructor | | lia].
    constructor; [apply is_nan_nan | constructor].
  - apply Forall_nan_map_seq; [exact Hn | apply is_nan_nan].
  - apply Forall_nan_map_seq; [exact Hn | apply is_nan_nan].
  - apply Forall_nan_map_seq; [exact Hn | apply is_nan_nan].
Qed.

(** The logging decorator is transparent: the decorated
    [get_results] returns exactly what [get_results] returns, and prints
    the call line with the argument tuple [(self,)] and the empty keyword
    dictionary, then, when the call succeeds, the result line. *)
Theorem get_results_logged_spec repr_self str_frame self out :
  get_results_logged repr_self str_frame self out
  = (get_results self,
     out ++ call_line "get_results" ("(" ++ repr_self self ++ ",)")%string "{}"
         :: match get_results self with Ok r => [result_line (str_frame r)] | Err _ => [] end).
Proof. apply function_logger_spec. Qed.

(** Idempotence: calling the decorated [get_results] twice on the same
    object returns the same table both times and prints the same two
    lines twice. *)
Theorem get_results_logged_twice repr_self str_frame xs out :
  let self := StockAnalysis_init xs in
  let '(r1, out1) := get_results_logged repr_self str_frame self out in
  let '(r2, out2) := get_results_logged repr_self str_frame self out1 in
  exists t, r1 = Ok t /\ r2 = Ok t /\
    out2 = out ++ [call_line "get_results" ("(" ++ repr_self self ++ ",)")%string "{}";
                   result_line (str_frame t);
                   call_line "get_results" ("(" ++ repr_self self ++ ",)")%string "{}";
                   result_line (str_frame t)].
Proof.
  cbv zeta; unfold get_results_logged; rewrite !function_logger_spec, get_results_init.
  eexists; split; [reflexivity|split; [reflexivity|]].
  now rewrite <- app_assoc.
Qed.

End Analysis.

(** ** Witnesses, on the test series [2, 1, 3, 4, 7, 6, 5] *)

Definition example_series : list float := [2; 1; 3; 4; 7; 6; 5]%float.

(** A three-row frame and a sparse column with one label inside its
    index and one beyond it. *)
Definition left_example : @frame float :=
  frame_of_series "Stock Cost" (series_of_array example_series).
Definition right_example : series float := [(1%Z, 2%float); (9%Z, 9%float)].

Lemma join_columns_index_witness :
  strictly_sorted (findex left_example) /\
  (forall name s, In (name, Ok s) [("Max"%string, Ok right_example)] ->
     strictly_sorted (index s)) /\
  exists df, join_columns left_example [("Max"%string, Ok right_example)] = Ok df /\
    strictly_sorted (findex df) /\
    (forall k, In k (findex df) <->
       In k (findex left_example) \/
       exists name s, In (name, Ok s) [("Max"%string, Ok right_example)] /\ In k (index s)).
Proof.
  assert (Hl : strictly_sorted (findex left_example)) by (vm_compute; repeat constructor).
  assert (Hr : forall name s, In (name, Ok s) [("Max"%string, Ok right_example)] ->
                 strictly_sorted (index s)).
  { intros name s [Heq|[]]; injection Heq as _ <-; vm_compute; repeat constructor. }
  split; [exact Hl | split; [exact Hr|]].
  eexists; split; [vm_compute; reflexivity|].
  apply (join_columns_index left_example _ _ Hl Hr); vm_compute; reflexivity.
Defined.

Lemma join_columns_schema_witness :
  frame_wf left_example /\
  exists df, join_columns left_example [("Max"%string, Ok right_example)] = Ok df /\
    frame_wf df /\
    column_names df = column_names left_example ++ map fst [("Max"%string, @Ok (series float) right_example)].
Proof.
  assert (Hl : frame_wf left_example) by (vm_compute; repeat constructor).
  split; [exact Hl|].
  eexists; split; [vm_compute; reflexivity|].
  apply (join_columns_schema left_example _ _ Hl); vm_compute; reflexivity.
Defined.

Lemma get_results_table_witness :
  exists t, get_results (StockAnalysis_init example_series) = Ok t /\
            findex t = zrange 0 7 /\ length (fcols t) = 6.
Proof.
  eexists; split; [apply (get_results_table example_series)|].
  split; reflexivity.
Defined.

Lemma get_results_short_series_witness :
  length [4%float] <= 1 /\
  exists t, get_results (StockAnalysis_init [4%float]) = Ok t /\
    findex t = zrange 0 (Z.of_nat (length [4%float])) /\
    Forall (fun c => Forall (fun v => is_nan v = true) (snd c)) (tl (fcols t)).
Proof. split; [simpl; lia | apply get_results_short_series; simpl; lia]. Defined.
