(* ===== verification/Tests.v ===== *)
(** * Tests: the unit tests of [test_module/tests_module.py] on binary64

    [TestStockAnalysis] builds its fixture in [setUp] (the series
    [2, 1, 3, 4, 7, 6, 5] wrapped in a [StockAnalysis]) and each test runs
    one statistic and compares it with the expected values the way the test
    does: [Series.equals] (same labels, values equal with NaN equal to NaN)
    for the moving average and the difference,
    [assert_series_equal(check_exact=False, check_index=False)] (relative
    tolerance 1e-5, absolute 1e-8) for the autocorrelation, and
    [assertEqual] on the lists of labels and of values for the extrema.  A
    test method is a [result unit]: [Ok tt] when it passes, the
    [AssertionError] of its failing assertion otherwise.  Every test is
    decided by evaluating the model on primitive floats. *)

From Stdlib Require Import String.
From Stdlib Require Import ZArith List Bool Floats.
From S2P Require Import Prelude Float64 Series OnlineMean Extrema Diff Rolling Autocorr.
Import ListNotations.

#[local] Set Warnings "-inexact-float".

(** ** The assertions of [unittest] and [pandas.testing] *)

Fixpoint all2 {A} (p : A -> A -> bool) (a b : list A) : bool :=
  match a, b with
  | [], [] => true
  | x :: a', y :: b' => p x y && all2 p a' b'
  | _, _ => false
  end.

(** Value equality of [Series.equals]: NaN equals NaN, otherwise [==]. *)
Definition float_equals (a b : float) : bool :=
  (PrimFloat.is_nan a && PrimFloat.is_nan b) || PrimFloat.eqb a b.

(** [Series.equals]: the same labels and equal values. *)
Definition series_equals (a b : series float) : bool :=
  all2 Z.eqb (index a) (index b) && all2 float_equals (values a) (values b).

(** The value comparison of [assert_series_equal(check_exact=False)]:
    NaN on both sides, or [|a - b| <= atol + rtol * |b|] with
    [rtol = 1e-5], [atol = 1e-8]. *)
Definition float_close (a b : float) : bool :=
  (PrimFloat.is_nan a && PrimFloat.is_nan b)
  || PrimFloat.leb (PrimFloat.abs (a - b)) (1e-8 + 1e-5 * PrimFloat.abs b)%float.

(** [self.assertTrue(x)]. *)
Definition assertTrue (x : bool) : result unit :=
  if x then Ok tt else Err (AssertionError "False is not true").

(** [self.assertEqual(a, b)] on two lists. *)
Definition assertEqual {A} (eqb : A -> A -> bool) (a b : list A) : result unit :=
  if all2 eqb a b then Ok tt else Err (AssertionError "Lists differ").

(** [pd.testing.assert_series_equal(a, b, check_exact=False,
    check_index=False, check_dtype=False)]: same length, values within
    the tolerance, labels not compared. *)
Definition assert_series_close (a b : series float) : result unit :=
  if all2 float_close (values a) (values b) then Ok tt
  else Err (AssertionError "Series values are different").

(** ** The test case *)

(** [setUp]: [tests_module.py], lines 9-13; [self.analiz]. *)
Definition test_data : list float := [2; 1; 3; 4; 7; 6; 5]%float.

Definition setUp : StockAnalysis := StockAnalysis_init test_data.

(** [test_moving_average]: lines 15-19. *)
Definition test_moving_average : result unit :=
  let expected_MA := series_of_array [nan; 1.5; 2.0; 3.5; 5.5; 6.5; 5.5]%float in
  bind (moving_average setUp 2) (fun actual_MA =>
  assertTrue (series_equals actual_MA expected_MA)).

(** [test_diff]: lines 21-25. *)
Definition test_diff : result unit :=
  let expected_diff := series_of_array [nan; -1.0; 2.0; 1.0; 3.0; -1.0; -1.0]%float in
  let actual_diff := diff setUp in
  assertTrue (series_equals actual_diff expected_diff).

(** [test_autocorr]: lines 28-32. *)
Definition test_autocorr : result unit :=
  let expected_autocorr :=
    combine (zrange 1 7)
      [0.6927178575499473; 0.3434014098717226; -0.39999999999999997; -0.5;
       0.9999999999999999; nan]%float in
  let actual_autocorr := autocorr setUp 1 in
  assert_series_close actual_autocorr expected_autocorr.

(** [test_maximum]: lines 35-40. *)
Definition test_maximum : result unit :=
  let expected_max : series float := [(4%Z, 7%float)] in
  let result_max := maximum setUp in
  bind (assertEqual Z.eqb (index result_max) (index expected_max)) (fun _ =>
  assertEqual PrimFloat.eqb (values result_max) (values expected_max)).

(** [test_minimum]: lines 42-47. *)
Definition test_minimum : result unit :=
  let expected_min : series float := [(1%Z, 1%float)] in
  let result_min := minimum setUp in
  bind (assertEqual Z.eqb (index result_min) (index expected_min)) (fun _ =>
  assertEqual PrimFloat.eqb (values result_min) (values expected_min)).

(** [class TestStockAnalysis(unittest.TestCase)]: [tests_module.py],
    lines 7-47.  The loader collects the methods whose name starts with
    [test], in alphabetical order; each runs on a fresh fixture from
    [setUp], which the test methods above read. *)
Definition TestStockAnalysis : list (string * result unit) :=
  [("test_autocorr", test_autocorr); ("test_diff", test_diff);
   ("test_maximum", test_maximum); ("test_minimum", test_minimum);
   ("test_moving_average", test_moving_average)]%string.

(** What the runner reports: the tests that raised, with their error. *)
Definition failures (suite : list (string * result unit)) : list (string * py_error) :=
  flat_map (fun t => match snd t with Ok _ => [] | Err e => [(fst t, e)] end) suite.

(** A constant series: zero variance at every lag. *)
Definition constant_series : list float := [0.1; 0.1; 0.1; 0.1]%float.

(** ** Theorems *)

(** The test case [TestStockAnalysis] passes on the binary64
    model: the runner collects its five tests and none of their
    assertions raises. *)
Theorem test_suite_passes :
  map fst TestStockAnalysis
  = ["test_autocorr"; "test_diff"; "test_maximum"; "test_minimum"; "test_moving_average"]%string /\
  failures TestStockAnalysis = [].
Proof. split; [reflexivity | vm_compute; reflexivity]. Qed.

(** The tests check what they mean to: a moving average off by one
    position, a difference taken the other way round, or a maximum at
    another label fails its test. *)
Example tests_reject_wrong_results :
  assertTrue (series_equals (series_of_array [1.5; 2.0; 3.5; 5.5; 6.5; 5.5; nan]%float)
                            (series_of_array [nan; 1.5; 2.0; 3.5; 5.5; 6.5; 5.5]%float))
  = Err (AssertionError "False is not true") /\
  assertTrue (series_equals (series_of_array [nan; 1; -2; -1; -3; 1; 1]%float)
                            (series_of_array [nan; -1.0; 2.0; 1.0; 3.0; -1.0; -1.0]%float))
  = Err (AssertionError "False is not true") /\
  assertEqual Z.eqb [5%Z] [4%Z] = Err (AssertionError "Lists differ").
Proof. repeat split; vm_compute; reflexivity. Qed.

(** A constant series of four copies of 0.1 has zero variance, for
    which the specification asks NaN; in binary64 the mean of three copies
    is not 0.1, the centred values are not zero, and the code reports the
    autocorrelation 1.0 at lag 1. *)
Example autocorr_constant_not_nan :
  lookup (autocorr (StockAnalysis_init constant_series) 1) 1 = Some 1%float.
Proof. vm_compute; reflexivity. Qed.

(** In binary64 pandas' kernel and the textbook rolling mean can differ in
    the last bit: on three copies of 0.1 the kernel's rule for runs of
    equal values returns 0.1 itself, the plain sum over 3 returns
    0.10000000000000002.  In exact arithmetic the two agree
    ([ExactReal.moving_average_exact]). *)
Example rolling_mean_kernel_vs_reference :
  nth 2 (rolling_mean_pandas 3 constant_series) nan = 0.1%float /\
  nth 2 (rolling_mean 3 constant_series) nan = 0.10000000000000002%float.
Proof. split; vm_compute; reflexivity. Qed.
