(* ===== verification/Lab1.v ===== *)
(** * Lab1: the function-tabulation script [src/first_lab_work/lab1.py]

    The script reads six parameters [n0, h, nk, a, b, c] either from the
    file [config.yaml] (lines [key: value]) or from the command line, then
    tabulates [a*exp(-b*x**2 + c*x)] on [np.linspace(n0, nk, int((nk-n0)/h))]
    and writes one value per line to [results.txt].

    The file system is explicit state: a list of (path, lines) pairs, the
    lines as [readlines] returns them.  Python's exceptions are [result]
    values.  Python's [float(str)], [str(float)] and numpy's [exp] are
    section variables: the theorems hold for any parser, printer and
    exponential. *)

From Stdlib Require Import String Ascii.
From Stdlib Require Import ZArith List Bool Lia Reals Lra Floats.
From S2P Require Import Prelude Float64 ExactReal.
Import ListNotations.

(** ** Strings *)

(** [s.split(c)]. *)
Fixpoint split_on (c : ascii) (s : string) : list string :=
  match s with
  | EmptyString => [EmptyString]
  | String a s' =>
      if Ascii.eqb a c then EmptyString :: split_on c s'
      else match split_on c s' with
           | w :: ws => String a w :: ws
           | [] => [String a EmptyString]
           end
  end.

(** [s.replace(c, '')]. *)
Fixpoint remove_char (c : ascii) (s : string) : string :=
  match s with
  | EmptyString => EmptyString
  | String a s' => if Ascii.eqb a c then remove_char c s' else String a (remove_char c s')
  end.

(** ** The file system *)

Definition filesystem := list (string * list string).

(** [open(path, 'r').readlines()]. *)
Fixpoint fs_read (fs : filesystem) (path : string) : option (list string) :=
  match fs with
  | [] => None
  | (p, ls) :: fs' => if String.eqb path p then Some ls else fs_read fs' path
  end.

(** [open(path, 'w')] then the writes: the file's lines are replaced. *)
Definition fs_write (fs : filesystem) (path : string) (lines : list string) : filesystem :=
  (path, lines) :: filter (fun e => negb (String.eqb (fst e) path)) fs.

Section Lab1.
Context {F : Type} `{Num F}.

(** Python's [float(s)], [str(x)] and numpy's [np.exp]. *)
Variable py_float : string -> result F.
Variable py_str : F -> string.
Variable np_exp : F -> F.

(** A Python [dict] from strings: assignment updates in place or appends. *)
Definition dict := list (string * F).

Fixpoint dict_set (d : dict) (k : string) (v : F) : dict :=
  match d with
  | [] => [(k, v)]
  | (k', v') :: d' => if String.eqb k k' then (k, v) :: d' else (k', v') :: dict_set d' k v
  end.

Fixpoint dict_get (d : dict) (k : string) : option F :=
  match d with
  | [] => None
  | (k', v) :: d' => if String.eqb k k' then Some v else dict_get d' k
  end.

(** [properties[k]]. *)
Definition dict_lookup (d : dict) (k : string) : result F :=
  match dict_get d k with Some v => Ok v | None => Err (KeyError k) end.

(** The loop body of [read_properties]: [entry = line.split(':')],
    [key = entry[0].replace(' ', '')],
    [value = float(entry[1].replace(' ', ''))]. *)
Definition parse_line (line : string) : result (string * F) :=
  let entry := split_on ":" line in
  let key := remove_char " " (hd EmptyString entry) in
  match nth_error entry 1 with
  | None => Err (IndexError "list index out of range")
  | Some e1 => bind (py_float (remove_char " " e1)) (fun value => Ok (key, value))
  end.

Fixpoint read_lines (properties : dict) (lines : list string) : result dict :=
  match lines with
  | [] => Ok properties
  | line :: rest =>
      bind (parse_line line) (fun kv => read_lines (dict_set properties (fst kv) (snd kv)) rest)
  end.

(** [read_properties]: [lab1.py], lines 6-25. *)
Definition read_properties (fs : filesystem) (path : string) : result dict :=
  match fs_read fs path with
  | None => Err (FileNotFoundError path)
  | Some property_lines => read_lines [] property_lines
  end.

(** [write_results]: [lab1.py], lines 27-38. *)
Definition write_results (fs : filesystem) (path : string) (arr : list F) : filesystem :=
  fs_write fs path (map (fun elem => String.append (py_str elem) (String "010" EmptyString)) arr).

(** [function_init]: [lab1.py], lines 40-50; [x**2] on a float array is
    [x*x], and [-b*x**2] is [(-b)*(x**2)]. *)
Definition function_init (a b c : F) : F -> F :=
  fun x => fmul a (np_exp (fadd (fmul (fopp b) (fmul x x)) (fmul c x))).

Definition params := (F * F * F * F * F * F)%type.

(** [config_properties]: [lab1.py], lines 52-66. *)
Definition config_properties (fs : filesystem) : result params :=
  bind (read_properties fs "config.yaml") (fun properties =>
  bind (dict_lookup properties "n0") (fun n0 =>
  bind (dict_lookup properties "h") (fun h =>
  bind (dict_lookup properties "nk") (fun nk =>
  bind (dict_lookup properties "a") (fun a =>
  bind (dict_lookup properties "b") (fun b =>
  bind (dict_lookup properties "c") (fun c =>
  Ok (n0, h, nk, a, b, c)))))))).

(** [float(params[i])]. *)
Definition float_at (ps : list string) (i : nat) : result F :=
  match nth_error ps i with
  | None => Err (IndexError "list index out of range")
  | Some s => py_float s
  end.

(** [params_properties]: [lab1.py], lines 68-84. *)
Definition params_properties (ps : list string) : result params :=
  bind (float_at ps 0) (fun n0 =>
  bind (float_at ps 1) (fun h =>
  bind (float_at ps 2) (fun nk =>
  bind (float_at ps 3) (fun a =>
  bind (float_at ps 4) (fun b =>
  bind (float_at ps 5) (fun c =>
  Ok (n0, h, nk, a, b, c))))))).

(** [x == 0.0] for a float. *)
Definition is_zero (x : F) : bool :=
  negb (is_nan x) && negb (flt x (of_Z 0)) && negb (flt (of_Z 0) x).

(** Python's float division [x / y]. *)
Definition py_truediv (x y : F) : result F :=
  if is_zero y then Err (ZeroDivisionError "float division by zero") else Ok (fdiv x y).

(** [np.linspace(start, stop, num)] with its default [endpoint=True]. *)
Definition linspace (start stop : F) (num : Z) : result (list F) :=
  if (num <? 0)%Z then Err (ValueError "Number of samples must be non-negative.")
  else
    let div := (num - 1)%Z in
    let delta := fsub stop start in
    let y := map (fun i => of_Z (Z.of_nat i)) (seq 0 (Z.to_nat num)) in
    let y :=
      if (0 <? div)%Z then
        let step := fdiv delta (of_Z div) in
        if is_zero step then map (fun v => fmul (fdiv v (of_Z div)) delta) y
        else map (fun v => fmul v step) y
      else map (fun v => fmul v delta) y in
    let y := map (fun v => fadd v start) y in
    Ok (if (1 <? num)%Z then removelast y ++ [stop] else y).

(** [calculate_and_write]: [lab1.py], lines 86-96. *)
Definition calculate_and_write (p : params) (fs : filesystem) : result filesystem :=
  let '(n0, h, nk, a, b, c) := p in
  bind (py_truediv (fsub nk n0) h) (fun q =>
  bind (to_int q) (fun n =>
  bind (linspace n0 nk n) (fun x =>
  let y := function_init a b c in
  Ok (write_results fs "results.txt" (map y x))))).

(** [run_with_config]: [lab1.py], lines 98-103. *)
Definition run_with_config (fs : filesystem) : result filesystem :=
  bind (config_properties fs) (fun p => calculate_and_write p fs).

(** [run_with_params]: [lab1.py], lines 105-113. *)
Definition run_with_params (ps : list string) (fs : filesystem) : result filesystem :=
  bind (params_properties ps) (fun p => calculate_and_write p fs).

(** The entry point: [lab1.py], lines 115-120; [argv] includes the script
    name. *)
Definition main (argv : list string) (fs : filesystem) : result filesystem :=
  if length argv =? 1 then run_with_config fs
  else if length argv =? 7 then run_with_params (tl argv) fs
  else Ok fs.

End Lab1.

(** ** An example parser

    For the concrete runs below, a stand-in for Python's [float(s)] that
    reads a decimal natural number and skips spaces and newlines; anything
    else is a [ValueError] as in Python. *)

Fixpoint parse_decimal (s : string) (acc : Z) (seen : bool) : result Z :=
  match s with
  | EmptyString => if seen then Ok acc else Err (ValueError "could not convert string to float")
  | String a s' =>
      let n := nat_of_ascii a in
      if (48 <=? n) && (n <=? 57) then parse_decimal s' (acc * 10 + Z.of_nat (n - 48)) true
      else if (n =? 10) || (n =? 32) then parse_decimal s' acc seen
      else Err (ValueError "could not convert string to float")
  end.

Definition example_float (s : string) : result float :=
  bind (parse_decimal s 0 false) (fun z => Ok (f64_of_Z z)).

Definition newline : string := String "010" EmptyString.

(** ** Lemmas *)

Lemma split_on_absent (c : ascii) (s : string) :
  ~ In c (list_ascii_of_string s) -> split_on c s = [s].
Proof.
  induction s as [|a s IH]; simpl; intros Hc; auto.
  destruct (Ascii.eqb_spec a c) as [->|_]; [tauto|].
  rewrite IH by tauto; reflexivity.
Qed.

Lemma fs_read_write_same fs p ls : fs_read (fs_write fs p ls) p = Some ls.
Proof. simpl; now rewrite String.eqb_refl. Qed.

Lemma fs_read_write_other fs p p' ls :
  p' <> p -> fs_read (fs_write fs p ls) p' = fs_read fs p'.
Proof.
  intros Hne; simpl; destruct (String.eqb_spec p' p) as [|_]; [congruence|].
  induction fs as [|[q lq] fs IH]; simpl; auto.
  destruct (String.eqb_spec q p) as [->|Hq]; simpl.
  - destruct (String.eqb_spec p' p); [congruence|exact IH].
  - destruct (String.eqb_spec p' q); [reflexivity|exact IH].
Qed.

Lemma removelast_map_snoc {A B} (f : A -> B) l x :
  removelast (map f (l ++ [x])) = map f l.
Proof. rewrite map_app; apply removelast_last. Qed.

Lemma seq_snoc n : seq 0 (S n) = seq 0 n ++ [n].
Proof. now rewrite seq_S. Qed.

Section Dict.
Context {F : Type}.

Lemma dict_get_set (d : @dict F) k v k' :
  dict_get (dict_set d k v) k' = if String.eqb k' k then Some v else dict_get d k'.
Proof.
  induction d as [|[k0 v0] d IH]; simpl.
  - reflexivity.
  - destruct (String.eqb_spec k k0) as [->|Hk]; simpl.
    + destruct (String.eqb k' k0); reflexivity.
    + destruct (String.eqb_spec k' k0) as [->|]; rewrite ?IH; auto.
      destruct (String.eqb_spec k0 k); congruence.
Qed.

Lemma in_dict_set (d : @dict F) k v k' :
  In k' (map fst (dict_set d k v)) <-> k' = k \/ In k' (map fst d).
Proof.
  induction d as [|[k0 v0] d IH]; simpl; [split; intros; intuition congruence|].
  destruct (String.eqb_spec k k0) as [->|]; simpl; rewrite ?IH; split; intros; intuition congruence.
Qed.

Definition dict_fold (d : @dict F) (kvs : list (string * F)) : dict :=
  fold_left (fun d kv => dict_set d (fst kv) (snd kv)) kvs d.

Lemma dict_get_fold (d : @dict F) kvs k :
  dict_get (dict_fold d kvs) k
  = match find (fun kv => String.eqb k (fst kv)) (rev kvs) with
    | Some kv => Some (snd kv)
    | None => dict_get d k
    end.
Proof.
  induction kvs as [|kv kvs IH] using rev_ind; [reflexivity|].
  unfold dict_fold in *; rewrite fold_left_app, rev_app_distr; simpl.
  rewrite dict_get_set, IH; now destruct (String.eqb k (fst kv)).
Qed.

End Dict.

Section Lab1Facts.
Context {F : Type} `{Num F}.
Variable py_float : string -> result F.
Variable py_str : F -> string.
Variable np_exp : F -> F.

Lemma read_lines_ok (d : @dict F) lines kvs :
  Forall2 (fun l kv => parse_line py_float l = Ok kv) lines kvs ->
  read_lines py_float d lines = Ok (dict_fold d kvs).
Proof.
  intros Hall; revert d; induction Hall as [|l kv lines kvs Hl _ IH]; intros d; simpl.
  - reflexivity.
  - rewrite Hl; simpl; apply IH.
Qed.

Lemma read_lines_app (d : @dict F) l1 l2 :
  read_lines py_float d (l1 ++ l2)
  = bind (read_lines py_float d l1) (fun d' => read_lines py_float d' l2).
Proof.
  revert d; induction l1 as [|l l1 IH]; intros d; simpl; [reflexivity|].
  destruct (parse_line py_float l); simpl; auto.
Qed.

Lemma parse_line_no_colon line :
  ~ In ":"%char (list_ascii_of_string line) ->
  parse_line py_float line = Err (IndexError "list index out of range").
Proof. intros Hc; unfold parse_line; now rewrite split_on_absent. Qed.

Lemma length_linspace (start stop : F) num xs :
  linspace start stop num = Ok xs -> length xs = Z.to_nat num.
Proof.
  unfold linspace; destruct (num <? 0)%Z eqn:Hneg; [discriminate|].
  intros Hx; injection Hx as <-.
  destruct (1 <? num)%Z eqn:H1.
  - assert (Hn : Z.to_nat num = S (Z.to_nat num - 1)) by lia.
    rewrite Hn, seq_snoc.
    destruct (0 <? num - 1)%Z; [destruct (is_zero _)|];
      rewrite !map_map, removelast_map_snoc, length_app, length_map, length_seq; simpl; lia.
  - destruct (0 <? num - 1)%Z; [destruct (is_zero _)|]; now rewrite !length_map, length_seq.
Qed.

Lemma linspace_ok (start stop : F) num :
  (0 <= num)%Z -> exists xs, linspace start stop num = Ok xs.
Proof. intros Hn; unfold linspace; rewrite (proj2 (Z.ltb_ge num 0)) by lia; eauto. Qed.

Ltac parsed :=
  repeat match goal with
  | H : Forall _ (_ :: _) |- _ => apply Forall_cons_iff in H as [[? ->] H]; simpl
  end.

(** ** Theorems *)

(** With a number of command-line arguments other than none or six,
    the script does nothing: [main] returns the file system unchanged. *)
Theorem main_other_argc argv fs :
  length argv <> 1 -> length argv <> 7 -> main py_float py_str np_exp argv fs = Ok fs.
Proof.
  intros H1 H7; unfold main.
  rewrite (proj2 (Nat.eqb_neq _ _) H1), (proj2 (Nat.eqb_neq _ _) H7); reflexivity.
Qed.

(** [params_properties] converts the first six strings with [float]
    into [(n0, h, nk, a, b, c)], ignoring any further ones. *)
Theorem params_properties_ok ps n0 h nk a b c :
  map py_float (firstn 6 ps) = [Ok n0; Ok h; Ok nk; Ok a; Ok b; Ok c] ->
  params_properties py_float ps = Ok (n0, h, nk, a, b, c).
Proof.
  unfold params_properties, float_at.
  destruct ps as [|s0 [|s1 [|s2 [|s3 [|s4 [|s5 ps]]]]]]; simpl; try discriminate.
  intros Hps; injection Hps as -> -> -> -> -> ->; reflexivity.
Qed.

(** C23. Fewer than six parameters, all of them numbers, make
    [params_properties] raise [IndexError]. *)
Theorem params_properties_short ps :
  Forall (fun s => exists v, py_float s = Ok v) ps -> (length ps < 6)%nat ->
  params_properties py_float ps = Err (IndexError "list index out of range").
Proof.
  intros Hall Hlen; unfold params_properties, float_at.
  destruct ps as [|s0 [|s1 [|s2 [|s3 [|s4 [|s5 ps]]]]]]; simpl in Hlen; try lia;
    simpl; parsed; reflexivity.
Qed.

(** C24. [read_properties] keeps, for each key, the value of the last line
    that names it, and has no entry for a key no line names. *)
Theorem read_properties_last_wins fs path lines kvs k :
  fs_read fs path = Some lines ->
  Forall2 (fun l kv => parse_line py_float l = Ok kv) lines kvs ->
  exists d, read_properties py_float fs path = Ok d /\
    dict_get d k = option_map snd (find (fun kv => String.eqb k (fst kv)) (rev kvs)).
Proof.
  intros Hfs Hall; exists (dict_fold [] kvs); unfold read_properties.
  rewrite Hfs, (read_lines_ok [] lines kvs Hall); split; [reflexivity|].
  rewrite dict_get_fold; now destruct (find _ _).
Qed.

(** C25. A line of [config.yaml] without [':'], a blank line for one, makes
    [run_with_config] raise [IndexError] once the lines before it are read,
    whatever follows it. *)
Theorem run_with_config_line_without_colon fs good line rest d :
  fs_read fs "config.yaml" = Some (good ++ line :: rest) ->
  read_lines py_float [] good = Ok d ->
  ~ In ":"%char (list_ascii_of_string line) ->
  run_with_config py_float py_str np_exp fs = Err (IndexError "list index out of range").
Proof.
  intros Hfs Hgood Hc; unfold run_with_config, config_properties, read_properties.
  rewrite Hfs, read_lines_app, Hgood; simpl.
  rewrite parse_line_no_colon by exact Hc; reflexivity.
Qed.

(** C26. A step [h] equal to zero makes [calculate_and_write] raise
    [ZeroDivisionError] before anything is written. *)
Theorem calculate_and_write_zero_step n0 h nk a b c fs :
  is_zero h = true ->
  calculate_and_write py_str np_exp (n0, h, nk, a, b, c) fs
  = Err (ZeroDivisionError "float division by zero").
Proof. intros Hh; unfold calculate_and_write, py_truediv; now rewrite Hh. Qed.

(** C27. When [int((nk - n0) / h)] is a count [n >= 0], [calculate_and_write]
    writes [results.txt] with exactly [n] lines and leaves every other file
    as it was. *)
Theorem calculate_and_write_lines n0 h nk a b c fs q n :
  py_truediv (fsub nk n0) h = Ok q -> to_int q = Ok n -> (0 <= n)%Z ->
  exists fs' lines,
    calculate_and_write py_str np_exp (n0, h, nk, a, b, c) fs = Ok fs' /\
    fs_read fs' "results.txt" = Some lines /\ length lines = Z.to_nat n /\
    (forall p, p <> "results.txt"%string -> fs_read fs' p = fs_read fs p).
Proof.
  intros Hq Hn Hpos; destruct (linspace_ok n0 nk n Hpos) as [xs Hxs].
  unfold calculate_and_write; rewrite Hq; simpl; rewrite Hn; simpl; rewrite Hxs; simpl.
  do 2 eexists; split; [reflexivity|].
  unfold write_results; rewrite fs_read_write_same; split; [reflexivity|split].
  - now rewrite !length_map, (length_linspace n0 nk n xs Hxs).
  - intros p Hp; now apply fs_read_write_other.
Qed.

(** C28. When [int((nk - n0) / h)] is negative, for instance [nk < n0]
    with [h > 0], [np.linspace] rejects the count and [calculate_and_write]
    raises [ValueError]. *)
Theorem calculate_and_write_negative_count n0 h nk a b c fs q n :
  py_truediv (fsub nk n0) h = Ok q -> to_int q = Ok n -> (n < 0)%Z ->
  calculate_and_write py_str np_exp (n0, h, nk, a, b, c) fs
  = Err (ValueError "Number of samples must be non-negative.").
Proof.
  intros Hq Hn Hneg; unfold calculate_and_write; rewrite Hq; simpl; rewrite Hn; simpl.
  unfold linspace; now rewrite (proj2 (Z.ltb_lt n 0) Hneg).
Qed.

End Lab1Facts.

(** ** The grid in exact arithmetic *)

Section Lab1Exact.
Variable py_str : xreal -> string.
Variable np_exp : xreal -> xreal.
Local Open Scope R_scope.

Lemma xr_to_int_IZR k : (0 <= k)%Z -> xr_to_int (Fin (IZR k)) = Ok k.
Proof.
  intros Hk; unfold xr_to_int.
  destruct (Rle_dec 0 (IZR k)) as [_|Hn]; [|exfalso; apply Hn, IZR_le, Hk].
  f_equal; symmetry; apply Int_part_spec; lra.
Qed.

(** numpy's points in exact arithmetic. *)
Lemma linspace_exact_ref (s t : R) (num : Z) :
  (2 <= num)%Z ->
  linspace (Fin s) (Fin t) num
  = Ok (map (fun i => Fin (s + IZR i * (t - s) / IZR (num - 1))) (zrange 0 num)).
Proof.
  intros Hn; unfold linspace, zrange.
  rewrite (proj2 (Z.ltb_ge num 0)), (proj2 (Z.ltb_lt 0 (num - 1))),
    (proj2 (Z.ltb_lt 1 num)), Z.sub_0_r by lia.
  assert (Hd : IZR (num - 1) <> 0) by (apply not_0_IZR; lia).
  assert (HN : Z.to_nat num = S (Z.to_nat num - 1)) by lia.
  cbn [fdiv fsub fmul fadd of_Z Num_xreal xr_lift2]; rewrite xr_div_fin by exact Hd.
  rewrite HN, seq_snoc.
  destruct (is_zero _); rewrite !map_map, removelast_map_snoc, map_app; f_equal; f_equal;
    try (apply map_ext; intros i; rewrite ?xr_div_fin by exact Hd; cbn [xr_lift2];
         f_equal; rewrite Z.add_0_l; field; exact Hd).
  all: simpl; do 2 f_equal.
  all: replace (IZR (Z.of_nat (Z.to_nat num - 1))) with (IZR (num - 1)) by (f_equal; lia).
  all: field; exact Hd.
Qed.

(** The run of [calculate_and_write] on the grid [nk = n0 + k h]. *)
Lemma calculate_grid_ref (n0 h : R) (k : Z) a b c fs :
  (2 <= k)%Z -> 0 < h ->
  calculate_and_write py_str np_exp (Fin n0, Fin h, Fin (n0 + IZR k * h), a, b, c) fs
  = Ok (write_results py_str fs "results.txt"
          (map (function_init np_exp a b c)
               (map (fun i => Fin (n0 + IZR i * (IZR k * h / IZR (k - 1)))) (zrange 0 k)))).
Proof.
  intros Hk Hh; unfold calculate_and_write, py_truediv, is_zero.
  cbn [is_nan flt of_Z fsub fdiv to_int Num_xreal xr_lift2 xr_lt].
  destruct (Rlt_dec (IZR 0) h) as [_|Hn]; [|exfalso; apply Hn; simpl; lra].
  destruct (Rlt_dec h (IZR 0)) as [Hn|_]; [exfalso; simpl in Hn; lra|]; simpl.
  destruct (Req_dec_T h 0) as [Hz|_]; [lra|].
  replace ((n0 + IZR k * h - n0) / h) with (IZR k) by (field; lra).
  rewrite xr_to_int_IZR by lia; simpl.
  rewrite linspace_exact_ref by exact Hk; simpl.
  do 3 f_equal; apply map_ext; intros i; f_equal.
  assert (IZR (k - 1) <> 0) by (apply not_0_IZR; lia).
  field; assumption.
Qed.

(** C29. The grid is not spaced by [h]: for [nk = n0 + k h] with [k >= 2]
    and [h > 0], [calculate_and_write] tabulates the function at the [k]
    points [n0 + i (k h / (k - 1))], a spacing of [k h / (k - 1)], not at the
    [k + 1] points [n0, n0 + h, ..., nk]. *)
Theorem calculate_grid_spacing (n0 h : R) (k : Z) a b c fs :
  (2 <= k)%Z -> 0 < h ->
  calculate_and_write py_str np_exp (Fin n0, Fin h, Fin (n0 + IZR k * h), a, b, c) fs
  = Ok (write_results py_str fs "results.txt"
          (map (function_init np_exp a b c)
               (map (fun i => Fin (n0 + IZR i * (IZR k * h / IZR (k - 1)))) (zrange 0 k)))).
Proof. apply calculate_grid_ref. Qed.

End Lab1Exact.

(** ** Concrete runs *)

Local Open Scope string_scope.

Definition example_str (_ : float) : string := EmptyString.

Definition example_exp (x : float) : float := x.

(** Witness of C23: two parameters. *)
Lemma params_properties_short_witness :
  Forall (fun s => exists v, example_float s = Ok v) ["0"; "1"]%string /\
  (length ["0"; "1"]%string < 6)%nat /\
  params_properties example_float ["0"; "1"]%string
  = Err (IndexError "list index out of range").
Proof.
  assert (Hall : Forall (fun s => exists v, example_float s = Ok v) ["0"; "1"]%string)
    by (repeat constructor; eexists; reflexivity).
  split; [exact Hall|split; [simpl; lia|]].
  apply params_properties_short; [exact Hall|simpl; lia].
Defined.

Definition repeated_key_fs : filesystem :=
  [("config.yaml", [String.append "h: 1" newline; String.append "h : 2" newline])]%string.

(** Witness of C24: the key [h] given twice; the second value is kept. *)
Lemma read_properties_last_wins_witness :
  exists d, read_properties example_float repeated_key_fs "config.yaml" = Ok d /\
    dict_get d "h" = Some 2%float.
Proof.
  destruct (read_properties_last_wins example_float repeated_key_fs "config.yaml"
              [String.append "h: 1" newline; String.append "h : 2" newline]
              [("h", 1); ("h", 2)]%string%float "h")
    as [d [Hd Hget]];
    [reflexivity|repeat constructor; vm_compute; reflexivity|].
  exists d; split; [exact Hd|rewrite Hget; reflexivity].
Defined.

Definition blank_line_fs : filesystem :=
  [("config.yaml", [String.append "n0: 0" newline; newline; String.append "h: 1" newline])]%string.

(** Witness of C25: a configuration with a blank second line. *)
Lemma run_with_config_line_without_colon_witness :
  read_lines example_float [] [String.append "n0: 0" newline] = Ok [("n0", 0%float)]%string /\
  ~ In ":"%char (list_ascii_of_string newline) /\
  run_with_config example_float example_str example_exp blank_line_fs
  = Err (IndexError "list index out of range").
Proof.
  assert (Hc : ~ In ":"%char (list_ascii_of_string newline))
    by (simpl; intros [Heq|[]]; discriminate).
  split; [vm_compute; reflexivity|split; [exact Hc|]].
  apply (run_with_config_line_without_colon example_float example_str example_exp
           blank_line_fs [String.append "n0: 0" newline] newline
           [String.append "h: 1" newline] [("n0", 0%float)]%string);
    [reflexivity|vm_compute; reflexivity|exact Hc].
Defined.

(** Witness of C26: [h = 0]. *)
Lemma calculate_and_write_zero_step_witness :
  is_zero 0%float = true /\
  calculate_and_write example_str example_exp (0, 0, 1, 1, 1, 0)%float []
  = Err (ZeroDivisionError "float division by zero").
Proof.
  split; [vm_compute; reflexivity|].
  apply calculate_and_write_zero_step; vm_compute; reflexivity.
Defined.

(** Witness of C27: [n0 = 0], [h = 0.25], [nk = 1] give four lines. *)
Lemma calculate_and_write_lines_witness :
  exists fs' lines,
    calculate_and_write example_str example_exp (0, 0.25, 1, 1, 1, 0)%float [] = Ok fs' /\
    fs_read fs' "results.txt" = Some lines /\ length lines = 4%nat /\
    (forall p, p <> "results.txt"%string -> fs_read fs' p = fs_read [] p).
Proof.
  apply (calculate_and_write_lines example_str example_exp 0 0.25 1 1 1 0 [] 4 4)%float;
    [vm_compute; reflexivity|vm_compute; reflexivity|lia].
Defined.

(** Witness of C28: [n0 = 1], [nk = 0], [h = 0.25]: [int(-4.0) = -4]. *)
Lemma calculate_and_write_negative_count_witness :
  calculate_and_write example_str example_exp (1, 0.25, 0, 1, 1, 0)%float []
  = Err (ValueError "Number of samples must be non-negative.").
Proof.
  apply (calculate_and_write_negative_count example_str example_exp 1 0.25 0 1 1 0 [] (-4) (-4))%float;
    [vm_compute; reflexivity|vm_compute; reflexivity|lia].
Defined.

(** Witness of C29: [n0 = 0], [h = 1/4], [nk = 1]: the grid is
    [0, 1/3, 2/3, 1], not [0, 1/4, 1/2, 3/4, 1]. *)
Lemma calculate_grid_spacing_witness :
  (2 <= 4)%Z /\ (0 < 1 / 4)%R /\
  calculate_and_write (fun _ => EmptyString) (fun x => x)
    (Fin 0, Fin (1 / 4), Fin (0 + IZR 4 * (1 / 4)), Fin 1, Fin 1, Fin 0) []
  = Ok (write_results (fun _ => EmptyString) [] "results.txt"
          (map (function_init (fun x => x) (Fin 1) (Fin 1) (Fin 0))
               (map (fun i => Fin (0 + IZR i * (IZR 4 * (1 / 4) / IZR (4 - 1)))) (zrange 0 4)))).
Proof.
  split; [lia|split; [lra|]].
  apply calculate_grid_spacing; [lia|lra].
Defined.
