(* ===== verification/Packaging.v ===== *)
(** * Packaging: [setup.py] of the analyser and the imports it must serve

    [src/data_analysis/analitica/setup.py] calls [setuptools.setup] with
    the distribution's metadata, the packages it installs and the
    third-party distributions it requires.  The call has no behaviour
    beyond registering these arguments, so they are modelled as a record.
    Next to it are the imports of the two modules of the analyser, as
    written at their heads.  Two checks are decided by evaluation: every
    third-party module [statistic_operations.py] imports is declared in
    [install_requires], and the module path the unit tests import is not
    one the declared packages provide. *)

From Stdlib Require Import String List Bool.
Import ListNotations.
Local Open Scope string_scope.

(** The keyword arguments of [setup(...)]. *)
Record setup_args := {
  dist_name : string;
  version : string;
  description : string;
  author : string;
  author_email : string;
  packages : list string;
  install_requires : list string
}.

(** [setup.py], lines 3-14. *)
Definition setup : setup_args := {|
  dist_name := "data_analysis";
  version := "0.1";
  description := "Time-series analysis";
  author := "Maksim Osipov";
  author_email := "osipovm01@mail.ru";
  packages := ["operations"];
  install_requires := ["numpy"; "pandas"]
|}.

(** The modules [statistic_operations.py] imports, lines 1-3. *)
Definition statistic_operations_imports : list string := ["numpy"; "pandas"; "typing"].

(** The modules [tests_module.py] imports, lines 1-5. *)
Definition tests_module_imports : list string :=
  ["unittest"; "warnings"; "numpy"; "pandas"; "analitica.operations.statistic_operations"].

(** Modules of Python's standard library among those imports. *)
Definition stdlib_modules : list string := ["typing"; "unittest"; "warnings"; "sys"].

Definition mem (x : string) (l : list string) : bool := existsb (String.eqb x) l.

(** A module path is provided by an installed package when it is the
    package or lies inside it. *)
Definition provides (s : setup_args) (m : string) : bool :=
  existsb (fun p => String.eqb m p || String.prefix (p ++ ".") m) (packages s).

(** Every third-party import of the module is a declared requirement. *)
Example setup_declares_dependencies :
  forallb (fun m => mem m stdlib_modules || mem m (install_requires setup))
          statistic_operations_imports = true.
Proof. reflexivity. Qed.

(** The tests import [analitica.operations.statistic_operations], which
    the installed package [operations] does not provide: the distribution
    installs [operations.statistic_operations]. *)
Example setup_misses_test_import :
  filter (fun m => negb (mem m stdlib_modules || mem m (install_requires setup)))
         tests_module_imports = ["analitica.operations.statistic_operations"] /\
  provides setup "analitica.operations.statistic_operations" = false /\
  provides setup "operations.statistic_operations" = true.
Proof. repeat split; reflexivity. Qed.
